(** * RTX 4090 concurrent-stream test: monitor and results analyzer

    A shallow embedding of the two Python programs of the repository,
    [monitor-concurrent.py] (the telemetry sampler) and
    [analyze-results.py] (the aggregation and scoring engine), and the
    properties of their data handling.

    Conventions of the embedding.
    - A Python [str] is a [string]; characters are code points below 256.
    - A Python [int] is a [Z]; [int] refuses a numeral of more than 4300
      digits, the interpreter's limit, which the programs leave at its
      default.  A Python [float] is the rational it denotes ([Q]):
      rounding to binary64, infinities and NaN are not modelled.  [int] and [float] read the plain decimal
      numerals the driver prints; on other spellings Python accepts
      (underscores, exponents) they are only used under the hypothesis
      that the conversion succeeded.
    - A Python exception is [None] of an [option] result, or [inl] of its
      message where the program keeps the message; [try/except] is a
      [match] on it.
    - The outside world (the driver query, the process table, the clock,
      the file system) is an explicit argument.
    - A Sample is modelled twice: as a record of the fields the sampler
      computes ([Monitor.data_point]), and as the dictionary it is
      ([Monitor.Dict]), a finite map from keys to values, where the
      order of the updates, the keys present and the kinds of the values
      matter (the CSV table, the status line, the analysis). *)

From Stdlib Require Import ZArith QArith Lia Lqa Bool Ascii String List Sorted.
From stdpp Require Import base option list strings pretty gmap.
From Equations Require Import Equations.

#[local] Set Warnings "-register-all".
#[local] Open Scope string_scope.
#[local] Open Scope Z_scope.

(** ** Python values *)

(** A number as Python holds it: the literal [0] of the source is an
    [int], the result of [float(...)] or of [/] is a [float]. *)
Inductive pynum : Type :=
| PyInt (z : Z)
| PyFloat (q : Q).

(** The value of a number, forgetting whether it is an int or a float. *)
Definition pynum_value (x : pynum) : Q :=
  match x with
  | PyInt z => inject_Z z
  | PyFloat q => q
  end.

(** [x == 0] in Python: [0 == 0.0] is true. *)
Definition is_zero (x : pynum) : bool := Qeq_bool (pynum_value x) 0.

(** ** Python string operations *)

Module PyStr.

(** [str.isspace] on a single code point below 256; the same set is
    what [\s] matches in a [str] pattern. *)
Definition is_space (c : ascii) : bool :=
  let n := nat_of_ascii c in
  (((9 <=? n) && (n <=? 13)) || ((28 <=? n) && (n <=? 32))
   || (n =? 133) || (n =? 160))%nat.

Definition is_digit (c : ascii) : bool :=
  let n := nat_of_ascii c in ((48 <=? n) && (n <=? 57))%nat.

Definition digit_value (c : ascii) : Z := Z.of_nat (nat_of_ascii c) - 48.

Fixpoint lstrip (s : string) : string :=
  match s with
  | EmptyString => EmptyString
  | String c t => if is_space c then lstrip t else s
  end.

Fixpoint rstrip (s : string) : string :=
  match s with
  | EmptyString => EmptyString
  | String c t =>
      match rstrip t with
      | EmptyString => if is_space c then EmptyString else String c EmptyString
      | t' => String c t'
      end
  end.

(** [s.strip()] *)
Definition strip (s : string) : string := rstrip (lstrip s).

(** [s.split(sep)] for a one-character separator: never empty. *)
Fixpoint split (sep : ascii) (s : string) : list string :=
  match s with
  | EmptyString => [EmptyString]
  | String c t =>
      if Ascii.eqb c sep then EmptyString :: split sep t
      else match split sep t with
           | h :: r => String c h :: r
           | [] => [String c EmptyString]
           end
  end.

(** [s.startswith(p)] *)
Fixpoint startswith (p s : string) : bool :=
  match p, s with
  | EmptyString, _ => true
  | String a p', String b s' => Ascii.eqb a b && startswith p' s'
  | String _ _, EmptyString => false
  end.

(** [p in s] *)
Fixpoint contains (p s : string) : bool :=
  startswith p s ||
  match s with
  | EmptyString => false
  | String _ t => contains p t
  end.

(** [s.endswith(p)] *)
Definition endswith (p s : string) : bool :=
  let n := String.length s in
  let k := String.length p in
  (k <=? n)%nat && String.eqb (String.substring (n - k) k s) p.

(** [s.count(p)] for a non-empty [p]: occurrences are counted left to
    right without overlap.  [skip] is the number of characters of the
    last counted occurrence still to be passed over. *)
Fixpoint count_from (p : string) (skip : nat) (s : string) : Z :=
  match s with
  | EmptyString => 0
  | String _ t =>
      match skip with
      | S k => count_from p k t
      | O => if startswith p s
             then 1 + count_from p (String.length p - 1) t
             else count_from p O t
      end
  end.

Definition count (p s : string) : Z := count_from p O s.

(** [sep.join(l)] *)
Fixpoint join (sep : string) (l : list string) : string :=
  match l with
  | [] => EmptyString
  | [x] => x
  | x :: r => x ++ sep ++ join sep r
  end.

(** The value of a run of decimal digits, and how many there were;
    [None] at the first character that is not a digit. *)
Fixpoint digits (acc : Z) (s : string) : option Z :=
  match s with
  | EmptyString => Some acc
  | String c t =>
      if is_digit c then digits (10 * acc + digit_value c) t else None
  end.

(** An optional sign: the sign and the rest. *)
Definition sign (s : string) : Z * string :=
  match s with
  | String "-" t => (-1, t)
  | String "+" t => (1, t)
  | _ => (1, s)
  end.

(** [sys.get_int_max_str_digits()]: the most digits [int] converts. *)
Definition int_max_str_digits : Z := 4300.

(** How many digits [s] starts with. *)
Fixpoint leading_digits (s : string) : Z :=
  match s with
  | EmptyString => 0
  | String c t => if is_digit c then 1 + leading_digits t else 0
  end.

(** [int(s)] on a plain decimal numeral: surrounding white space, an
    optional sign, one or more digits, no more than the limit.  [None]
    is [ValueError]. *)
Definition int (s : string) : option Z :=
  let '(sg, body) := sign (strip s) in
  match body with
  | EmptyString => None
  | _ =>
      if int_max_str_digits <? leading_digits body then None
      else z ← digits 0 body; Some (sg * z)
  end.

(** The part of [s] before the first [c], and the part after it if [c]
    occurs. *)
Fixpoint cut (c : ascii) (s : string) : string * option string :=
  match s with
  | EmptyString => (EmptyString, None)
  | String a t =>
      if Ascii.eqb a c then (EmptyString, Some t)
      else let '(l, r) := cut c t in (String a l, r)
  end.

Definition pow10 (n : nat) : positive := Nat.iter n (Pos.mul 10) 1%positive.

(** [float(s)] on a plain decimal numeral: surrounding white space, an
    optional sign, digits with an optional point, at least one digit.
    The result is the rational the numeral denotes. *)
Definition float (s : string) : option Q :=
  let '(sg, body) := sign (strip s) in
  let '(ip, fp) := cut "." body in
  let fp := default EmptyString fp in
  match ip ++ fp with
  | EmptyString => None
  | ds =>
      z ← digits 0 ds;
      Some (Qmake (sg * z) (pow10 (String.length fp)))
  end.

End PyStr.

(** ** The file tree the programs read *)

(** What a path names: a regular file of some size, a directory with its
    own [st_size] and its entries in listing order, or an entry whose
    [stat] fails with an error other than "not found" (no permission, an
    I/O error), on which [exists], [is_file] and [is_dir] raise. *)
Inductive node : Type :=
| File (st_size : Z)
| Dir (st_size : Z) (entries : list (string * node))
| Denied.

Module Tree.

(** [path / name]: [None] when there is no such entry. *)
Definition child (name : string) (n : node) : option node :=
  match n with
  | Dir _ es => snd <$> List.find (fun e => String.eqb (fst e) name) es
  | _ => None
  end.

(** [path.rglob('*')]: every entry below [n], at any depth. *)
Fixpoint rglob (n : node) : list (string * node) :=
  match n with
  | Dir _ es =>
      (fix walk (es : list (string * node)) : list (string * node) :=
         match es with
         | [] => []
         | (name, c) :: r => (name, c) :: rglob c ++ walk r
         end) es
  | _ => []
  end.

(** [p.is_file()], [p.is_dir()] and [p.stat().st_size] on an entry that
    was listed; [None] when [stat] raises. *)
Definition is_file (n : node) : option bool :=
  match n with File _ => Some true | Dir _ _ => Some false | Denied => None end.

Definition is_dir (n : node) : option bool :=
  match n with File _ => Some false | Dir _ _ => Some true | Denied => None end.

Definition size (n : node) : option Z :=
  match n with File s => Some s | Dir s _ => Some s | Denied => None end.

(** [sum(f.stat().st_size for f in l if f.is_file())] *)
Fixpoint files_size (l : list (string * node)) : option Z :=
  match l with
  | [] => Some 0
  | (_, f) :: r =>
      b ← is_file f;
      s ← (if b : bool then size f else Some 0);
      t ← files_size r;
      Some (s + t)
  end.

End Tree.

(** ** monitor-concurrent.py *)

Module Monitor.

(** What [subprocess.run] does with an [nvidia-smi] query: it raises
    when the program cannot be run, or completes with a return code
    and the captured standard output. *)
Inductive run_result : Type :=
| RunRaises
| Completed (returncode : Z) (stdout : string).

Definition NA : string := "[N/A]".

(** [float(v.strip()) if v.strip() != '[N/A]' else 0] *)
Definition float_or_0 (v : string) : option pynum :=
  if String.eqb (PyStr.strip v) NA then Some (PyInt 0)
  else PyFloat <$> PyStr.float (PyStr.strip v).

(** [int(v.strip()) if v.strip() != '[N/A]' else 0] *)
Definition int_or_0 (v : string) : option Z :=
  if String.eqb (PyStr.strip v) NA then Some 0
  else PyStr.int (PyStr.strip v).

Record gpu_info : Type := {
  timestamp : string;
  gpu_name : string;
  memory_total_mb : Z;
  memory_used_mb : Z;
  memory_free_mb : Z;
  gpu_utilization : pynum;
  memory_utilization : pynum;
  temperature_c : Z;
  power_draw_w : pynum;
  gpu_clock_mhz : Z;
  memory_clock_mhz : Z;
  memory_percent : Q
}.

(** [get_gpu_info]: [None] is the [return None] of the handler, reached
    from any exception of the body ([check=True], a missing column, a
    numeral that does not parse, a division by zero). *)
Definition get_gpu_info (query : run_result) : option gpu_info :=
  match query with
  | RunRaises => None
  | Completed rc out =>
      if negb (rc =? 0) then None else
      let values := PyStr.split "," (PyStr.strip out) in
      v0 ← values !! 0%nat;
      v1 ← values !! 1%nat;
      total ← values !! 2%nat ≫= (fun v => PyStr.int (PyStr.strip v));
      used ← values !! 3%nat ≫= (fun v => PyStr.int (PyStr.strip v));
      free ← values !! 4%nat ≫= (fun v => PyStr.int (PyStr.strip v));
      util ← values !! 5%nat ≫= float_or_0;
      mutil ← values !! 6%nat ≫= float_or_0;
      temp ← values !! 7%nat ≫= int_or_0;
      power ← values !! 8%nat ≫= float_or_0;
      gclk ← values !! 9%nat ≫= int_or_0;
      mclk ← values !! 10%nat ≫= int_or_0;
      if total =? 0 then None else
      Some {| timestamp := PyStr.strip v0;
              gpu_name := PyStr.strip v1;
              memory_total_mb := total;
              memory_used_mb := used;
              memory_free_mb := free;
              gpu_utilization := util;
              memory_utilization := mutil;
              temperature_c := temp;
              power_draw_w := power;
              gpu_clock_mhz := gclk;
              memory_clock_mhz := mclk;
              memory_percent := (inject_Z used / inject_Z total * 100)%Q |}
  end.

Record encoder_stats : Type := {
  encoder_sessions : Z;
  encoder_avg_fps : pynum;
  encoder_avg_latency_ms : pynum
}.

(** The dictionary after the [try] block of [get_nvenc_encoder_stats]. *)
Definition no_encoder_stats : encoder_stats :=
  {| encoder_sessions := 0;
     encoder_avg_fps := PyInt 0;
     encoder_avg_latency_ms := PyInt 0 |}.

(** The body of the [try] block: [None] when it falls through or
    raises. *)
Definition parse_encoder_stats (query : run_result) : option encoder_stats :=
  match query with
  | RunRaises => None
  | Completed rc out =>
      if (rc =? 0) && negb (String.eqb (PyStr.strip out) "") then
        let values := PyStr.split "," (PyStr.strip out) in
        n ← values !! 0%nat ≫= int_or_0;
        fps ← values !! 1%nat ≫= float_or_0;
        lat ← values !! 2%nat ≫= float_or_0;
        Some {| encoder_sessions := n;
                encoder_avg_fps := fps;
                encoder_avg_latency_ms := lat |}
      else None
  end.

Definition get_nvenc_encoder_stats (query : run_result) : encoder_stats :=
  default no_encoder_stats (parse_encoder_stats query).

(** One entry of [psutil.process_iter]: the [info] dictionary, what
    [proc.cpu_percent()] returns, and whether the process is gone (or
    may not be inspected) by the time it is looked at, which raises one
    of the three exceptions the loop skips. *)
Record os_process : Type := {
  info_pid : Z;
  info_name : string;
  info_cmdline : list string;
  info_rss : option Z;
  info_create_time : option Q;
  cpu_percent_now : Q;
  gone : bool
}.

Record process_info : Type := {
  pid : Z;
  input_streams : Z;
  cpu_percent : Q;
  memory_mb : pynum;
  runtime_seconds : pynum;
  cmdline_sample : string
}.

(** The body of the loop of [get_ffmpeg_processes] for one process:
    the record appended, if any. *)
Definition ffmpeg_process_info (now : Q) (proc : os_process) : option process_info :=
  if gone proc then None else
  if String.eqb (info_name proc) "ffmpeg"
     && negb (bool_decide (info_cmdline proc = [])) then
    let cmdline := PyStr.join " " (info_cmdline proc) in
    if PyStr.contains "h264_nvenc" cmdline then
      Some {| pid := info_pid proc;
              input_streams := PyStr.count " -i " cmdline;
              cpu_percent := cpu_percent_now proc;
              memory_mb :=
                match info_rss proc with
                | Some rss => PyFloat (inject_Z rss / 1024 / 1024)%Q
                | None => PyInt 0
                end;
              runtime_seconds :=
                match info_create_time proc with
                | Some t => if Qeq_bool t 0 then PyInt 0 else PyFloat (now - t)%Q
                | None => PyInt 0
                end;
              cmdline_sample :=
                if (200 <? String.length cmdline)%nat
                then String.substring 0 200 cmdline ++ "..."
                else cmdline |}
    else None
  else None.

Definition get_ffmpeg_processes (now : Q) (table : list os_process) : list process_info :=
  omap (ffmpeg_process_info now) table.

(** [sorted(l, key=lambda x: x['pid'])]: a stable sort; an element goes
    in front of the first one whose pid is not smaller. *)
Fixpoint insert_by_pid (p : process_info) (l : list process_info) : list process_info :=
  match l with
  | [] => [p]
  | q :: r => if pid p <=? pid q then p :: l else q :: insert_by_pid p r
  end.

Fixpoint sorted (l : list process_info) : list process_info :=
  match l with
  | [] => []
  | p :: r => insert_by_pid p (sorted r)
  end.

(** [sum(p['input_streams'] for p in l)] *)
Definition sum_streams (l : list process_info) : Z :=
  foldr (fun p acc => input_streams p + acc) 0 l.

Record attribution : Type := {
  nvenc1_estimated_load : Z;
  nvenc2_estimated_load : Z;
  total_concurrent_streams : Z
}.

Definition detect_nvenc_utilization (ffmpeg_processes : list process_info) : attribution :=
  match ffmpeg_processes with
  | [] => {| nvenc1_estimated_load := 0;
             nvenc2_estimated_load := 0;
             total_concurrent_streams := 0 |}
  | _ =>
      let sorted_processes := sorted ffmpeg_processes in
      let total_streams := sum_streams sorted_processes in
      match sorted_processes with
      | [p] => {| nvenc1_estimated_load := input_streams p;
                  nvenc2_estimated_load := 0;
                  total_concurrent_streams := total_streams |}
      | p :: q :: _ => {| nvenc1_estimated_load := input_streams p;
                          nvenc2_estimated_load := input_streams q;
                          total_concurrent_streams := total_streams |}
      | [] => {| nvenc1_estimated_load := 0;
                 nvenc2_estimated_load := 0;
                 total_concurrent_streams := 0 |}
      end
  end.

(** *** The output-artifact scan *)

Record hls_stats : Type := {
  total_playlists : Z;
  total_segments : Z;
  total_size_mb : pynum;
  avg_segments_per_playlist : option pynum
}.

(** How many of the listed entries have a name ending in [suffix]:
    [len(list(path.rglob('*' + suffix)))]. *)
Definition count_suffix (suffix : string) (l : list (string * node)) : Z :=
  Z.of_nat (length (filter (fun e => Is_true (PyStr.endswith suffix (fst e))) l)).

(** The body of the [try] block of [get_hls_output_stats]; [output] is
    what [output_dir] names, if anything.  [None] is an exception. *)
Definition scan_output (output : option node) : option hls_stats :=
  match output with
  | None => Some {| total_playlists := 0; total_segments := 0;
                    total_size_mb := PyInt 0;
                    avg_segments_per_playlist := None |}
  | Some Denied => None
  | Some root =>
      let playlist_count := count_suffix ".m3u8" (Tree.rglob root) in
      let segment_count := count_suffix ".ts" (Tree.rglob root) in
      total_size ← Tree.files_size (Tree.rglob root);
      Some {| total_playlists := playlist_count;
              total_segments := segment_count;
              total_size_mb := PyFloat (inject_Z total_size / 1024 / 1024)%Q;
              avg_segments_per_playlist :=
                Some (if 0 <? playlist_count
                      then PyFloat (inject_Z segment_count / inject_Z playlist_count)%Q
                      else PyInt 0) |}
  end.

Definition get_hls_output_stats (output : option node) : hls_stats :=
  default {| total_playlists := 0; total_segments := 0;
             total_size_mb := PyInt 0;
             avg_segments_per_playlist := Some (PyInt 0) |}
          (scan_output output).

(** *** One tick *)

(** What the outside world answers during one tick, how long the
    collection (and the status line) takes, and whether a stop signal
    is handled before the loop condition is next tested. *)
Record tick_world : Type := {
  gpu_query : run_result;
  encoder_query : run_result;
  process_table : list os_process;
  output_tree : option node;
  work : Q;
  stop_signal : bool
}.

(** One Sample.  A key of the dictionary that [update] may or may not
    have set is an [option]: the keys of [gpu_info] are there together
    or not at all.  The host snapshot and the compute-application list
    are left out. *)
Record data_point : Type := {
  unix_timestamp : Q;
  gpu : option gpu_info;
  encoder : encoder_stats;
  ffmpeg_processes : list process_info;
  total_ffmpeg_processes : Z;
  nvenc_util : attribution;
  hls : hls_stats
}.

Definition collect_data (clock : Q) (w : tick_world) : data_point :=
  let procs := get_ffmpeg_processes clock (process_table w) in
  {| unix_timestamp := clock;
     gpu := get_gpu_info (gpu_query w);
     encoder := get_nvenc_encoder_stats (encoder_query w);
     ffmpeg_processes := procs;
     total_ffmpeg_processes := Z.of_nat (length procs);
     nvenc_util := detect_nvenc_utilization procs;
     hls := get_hls_output_stats (output_tree w) |}.

(** *** The sampling loop *)

(** What the loop does to the clock, in order. *)
Inductive event : Type :=
| TickStart (at_time : Q)
| Sleep (seconds : Q).

(** [duration and (time.time() - start_time) >= duration] *)
Definition duration_reached (duration : option Z) (start_time clock : Q) : bool :=
  match duration with
  | Some d => negb (d =? 0) && Qle_bool (inject_Z d) (clock - start_time)
  | None => false
  end.

(** The [while self.running] loop of [monitor], run against the ticks
    the world supplies: the Samples appended and the events, in order.
    [time.sleep] raises on a negative argument, which leaves the loop. *)
Fixpoint monitor_loop (interval : Q) (duration : option Z) (start_time clock : Q)
    (world : list tick_world) : list data_point * list event :=
  match world with
  | [] => ([], [])
  | w :: rest =>
      let data_point := collect_data clock w in
      let clock := (clock + work w)%Q in
      if duration_reached duration start_time clock then
        ([data_point], [TickStart (unix_timestamp data_point)])
      else if Qle_bool 0 interval then
        let clock := (clock + interval)%Q in
        if stop_signal w then
          ([data_point], [TickStart (unix_timestamp data_point); Sleep interval])
        else
          let '(points, events) := monitor_loop interval duration start_time clock rest in
          (data_point :: points,
           TickStart (unix_timestamp data_point) :: Sleep interval :: events)
      else
        ([data_point], [TickStart (unix_timestamp data_point)])
  end.

(** The times at which ticks start, and the sleeps, of a run. *)
Definition tick_starts (events : list event) : list Q :=
  omap (fun e => match e with TickStart t => Some t | Sleep _ => None end) events.

Definition sleeps (events : list event) : list Q :=
  omap (fun e => match e with Sleep s => Some s | TickStart _ => None end) events.

(** *** Persistence *)

Section Persistence.

(** The five sections [analyze_concurrent_performance] computes from
    a non-empty buffer, and the text of the files: the CSV table, one
    Sample as [json.dump] writes it inside the array, and the
    analysis document. *)
Variable sections : Type.
Variable summarize : list data_point -> sections.
Variable csv_text : list data_point -> string.
Variable json_item : data_point -> string.
Variable json_sections : sections -> string.

(** [self.output_dir / name] *)
Definition in_dir (output_dir name : string) : string :=
  output_dir +:+ "/" +:+ name.

Definition save_data_csv (output_dir filename : string)
    (data_points : list data_point) (fs : gmap string string) : gmap string string :=
  match data_points with
  | [] => fs
  | _ => <[in_dir output_dir (filename +:+ ".csv") := csv_text data_points]> fs
  end.

(** [json.dump(l, f, indent=2)] on a list: an empty list is written
    as two brackets. *)
Definition json_dump_list (l : list data_point) : string :=
  match l with
  | [] => "[]"
  | _ => "[" +:+ String "010" "  "
         +:+ PyStr.join ("," +:+ String "010" "  ") (json_item <$> l)
         +:+ String "010" "]"
  end.

Definition save_data_json (output_dir filename : string)
    (data_points : list data_point) (fs : gmap string string) : gmap string string :=
  <[in_dir output_dir (filename +:+ ".json") := json_dump_list data_points]> fs.

(** The result of [analyze_concurrent_performance]: the empty
    dictionary, or the five sections. *)
Inductive analysis : Type :=
| EmptyDict
| Sections (s : sections).

Definition analyze_concurrent_performance (data_points : list data_point) : analysis :=
  match data_points with
  | [] => EmptyDict
  | _ => Sections (summarize data_points)
  end.

Definition save_analysis (output_dir filename : string)
    (data_points : list data_point) (fs : gmap string string) : gmap string string :=
  match analyze_concurrent_performance data_points with
  | EmptyDict => fs
  | Sections s =>
      <[in_dir output_dir (filename +:+ "_analysis.json") := json_sections s]> fs
  end.

(** The [finally] block of [monitor]; [stamp] is the formatted time
    of day at which it runs. *)
Definition save_all (output_dir output_prefix stamp : string)
    (data_points : list data_point) (fs : gmap string string) : gmap string string :=
  let filename := output_prefix +:+ "_" +:+ stamp in
  save_analysis output_dir filename data_points
    (save_data_json output_dir filename data_points
       (save_data_csv output_dir filename data_points fs)).

(** [monitor]: the loop from [start_time], then the [finally] block. *)
Definition monitor (output_dir output_prefix stamp : string)
    (interval : Q) (duration : option Z) (start_time : Q)
    (world : list tick_world) (fs : gmap string string) : gmap string string :=
  save_all output_dir output_prefix stamp
    (fst (monitor_loop interval duration start_time start_time world)) fs.

End Persistence.


(** *** Compute applications *)

Record compute_process : Type := {
  compute_pid : Z;
  process_name : string;
  gpu_memory_mb : Z
}.

(** The body of the loop of [get_compute_processes] for one line: the
    record appended, if the line has three parts or more.  [None] is
    the [ValueError] of [int]. *)
Definition compute_process_of (line : string) : option (option compute_process) :=
  match PyStr.split "," line with
  | p0 :: p1 :: p2 :: _ =>
      pid ← PyStr.int (PyStr.strip p0);
      mem ← PyStr.int (PyStr.strip p2);
      Some (Some {| compute_pid := pid;
                    process_name := PyStr.strip p1;
                    gpu_memory_mb := mem |})
  | _ => Some None
  end.

Fixpoint compute_processes_of (lines : list string) : option (list compute_process) :=
  match lines with
  | [] => Some []
  | line :: rest =>
      p ← compute_process_of line;
      ps ← compute_processes_of rest;
      Some (option_list p ++ ps)%list
  end.

(** [get_compute_processes]: the list built, and the empty list of the
    handler when the query or a conversion raises. *)
Definition get_compute_processes (query : run_result) : list compute_process :=
  match query with
  | RunRaises => []
  | Completed rc out =>
      if negb (rc =? 0) then [] else
      if String.eqb (PyStr.strip out) "" then [] else
      default [] (compute_processes_of (PyStr.split "010" (PyStr.strip out)))
  end.

(** *** The host snapshot *)

(** What psutil reports while [get_system_info] runs; the load average
    is missing where psutil has no [getloadavg]. *)
Record host_readings : Type := {
  host_cpu_percent : Q;
  host_cpu_count : option Z;
  host_cpu_per_core : list Q;
  host_memory_total : Z;
  host_memory_used : Z;
  host_memory_available : Z;
  host_memory_percent : Q;
  host_loadavg : option (Q * Q * Q)
}.

(** [max] and [min] of two numbers as the built-ins fold them: the
    earlier one is kept unless the later one is strictly beyond it. *)
Definition num_max (a b : pynum) : pynum :=
  if Qle_bool (pynum_value b) (pynum_value a) then a else b.

Definition num_min (a b : pynum) : pynum :=
  if Qle_bool (pynum_value a) (pynum_value b) then a else b.

(** [max(l) if l else 0] and [min(l)] of a list that is not empty. *)
Definition max_or_0 (l : list pynum) : pynum :=
  match l with
  | [] => PyInt 0
  | x :: r => foldl num_max x r
  end.

Definition min_or_0 (l : list pynum) : pynum :=
  match l with
  | [] => PyInt 0
  | x :: r => foldl num_min x r
  end.

(** The value of [sum(l)]. *)
Definition sum_values (l : list pynum) : Q :=
  foldl (fun acc x => acc + pynum_value x)%Q 0%Q l.

(** [sum(l) / len(l)] for a list that is not empty. *)
Definition mean (l : list pynum) : pynum :=
  PyFloat (sum_values l / inject_Z (Z.of_nat (length l)))%Q.

(** [sum(1 for x in l if p(x)) / len(l)] *)
Definition share (p : pynum -> bool) (l : list pynum) : pynum :=
  PyFloat (inject_Z (Z.of_nat (length (List.filter p l)))
           / inject_Z (Z.of_nat (length l)))%Q.

(** ** The Sample as the dictionary it is

    [collect_data] builds one dictionary by successive [update]s, so a
    key set twice keeps the later value; the CSV writer and the
    analysis read the dictionary by key. *)

Module Dict.

Inductive value : Type :=
| VNone
| VStr (s : string)
| VNum (n : pynum)
| VTuple (l : list pynum)
| VNums (l : list pynum)
| VCompute (l : list compute_process)
| VProcs (l : list process_info).

(** [isinstance(value, (list, dict))] *)
Definition is_list (v : value) : bool :=
  match v with
  | VNums _ | VCompute _ | VProcs _ => true
  | _ => false
  end.

(** [d.update(other)] *)
Definition update (d other : gmap string value) : gmap string value := other ∪ d.

(** The dictionary [get_gpu_info] returns: the items of the literal,
    and the key set after it. *)
Definition gpu_info_items (g : gpu_info) : list (string * value) :=
  [("timestamp", VStr (timestamp g));
   ("gpu_name", VStr (gpu_name g));
   ("memory_total_mb", VNum (PyInt (memory_total_mb g)));
   ("memory_used_mb", VNum (PyInt (memory_used_mb g)));
   ("memory_free_mb", VNum (PyInt (memory_free_mb g)));
   ("gpu_utilization_%", VNum (gpu_utilization g));
   ("memory_utilization_%", VNum (memory_utilization g));
   ("temperature_c", VNum (PyInt (temperature_c g)));
   ("power_draw_w", VNum (power_draw_w g));
   ("gpu_clock_mhz", VNum (PyInt (gpu_clock_mhz g)));
   ("memory_clock_mhz", VNum (PyInt (memory_clock_mhz g)))].

Definition gpu_info_dict (g : gpu_info) : gmap string value :=
  <["memory_percent" := VNum (PyFloat (memory_percent g))]>
    (list_to_map (gpu_info_items g)).

Definition encoder_items (e : encoder_stats) : list (string * value) :=
  [("encoder_sessions", VNum (PyInt (encoder_sessions e)));
   ("encoder_avg_fps", VNum (encoder_avg_fps e));
   ("encoder_avg_latency_ms", VNum (encoder_avg_latency_ms e))].

Definition encoder_dict (e : encoder_stats) : gmap string value :=
  list_to_map (encoder_items e).

Definition attribution_items (a : attribution) : list (string * value) :=
  [("nvenc1_estimated_load", VNum (PyInt (nvenc1_estimated_load a)));
   ("nvenc2_estimated_load", VNum (PyInt (nvenc2_estimated_load a)));
   ("total_concurrent_streams", VNum (PyInt (total_concurrent_streams a)))].

Definition attribution_dict (a : attribution) : gmap string value :=
  list_to_map (attribution_items a).

Definition system_items (h : host_readings) : list (string * value) :=
  [("cpu_percent_total", VNum (PyFloat (host_cpu_percent h)));
   ("cpu_cores_count",
     match host_cpu_count h with
     | Some n => VNum (PyInt n)
     | None => VNone
     end);
   ("cpu_cores_usage", VNums (PyFloat <$> host_cpu_per_core h));
   ("cpu_max_core", VNum (max_or_0 (PyFloat <$> host_cpu_per_core h)));
   ("memory_total_gb",
     VNum (PyFloat (inject_Z (host_memory_total h) / inject_Z (1024 ^ 3))%Q));
   ("memory_used_gb",
     VNum (PyFloat (inject_Z (host_memory_used h) / inject_Z (1024 ^ 3))%Q));
   ("memory_available_gb",
     VNum (PyFloat (inject_Z (host_memory_available h) / inject_Z (1024 ^ 3))%Q));
   ("memory_percent", VNum (PyFloat (host_memory_percent h)));
   ("load_average",
     match host_loadavg h with
     | Some (a, b, c) => VTuple [PyFloat a; PyFloat b; PyFloat c]
     | None => VNums [PyInt 0; PyInt 0; PyInt 0]
     end)].

(** [get_system_info]: the snapshot, and the empty dictionary of the
    handler when a psutil call raises ([host] is [None]). *)
Definition get_system_info (host : option host_readings) : gmap string value :=
  match host with
  | None => ∅
  | Some h => list_to_map (system_items h)
  end.

(** The dictionary [get_hls_output_stats] returns. *)
Definition hls_items (s : hls_stats) : list (string * value) :=
  ([("total_playlists", VNum (PyInt (total_playlists s)));
    ("total_segments", VNum (PyInt (total_segments s)));
    ("total_size_mb", VNum (total_size_mb s))]
   ++ match avg_segments_per_playlist s with
      | Some a => [("avg_segments_per_playlist", VNum a)]
      | None => []
      end)%list.

Definition hls_dict (s : hls_stats) : gmap string value :=
  list_to_map (hls_items s).

(** [collect_data]: [iso] and [clock] are the two renderings of
    [datetime.now()]; [compute_query] is the answer to the
    compute-application query and [host] what psutil reports. *)
Definition collect_data (iso : string) (clock : Q) (w : tick_world)
    (compute_query : run_result) (host : option host_readings) : gmap string value :=
  let data_point : gmap string value :=
    list_to_map [("timestamp", VStr iso); ("unix_timestamp", VNum (PyFloat clock))] in
  let data_point :=
    match get_gpu_info (gpu_query w) with
    | Some gpu_info => update data_point (gpu_info_dict gpu_info)
    | None => data_point
    end in
  let data_point :=
    update data_point (encoder_dict (get_nvenc_encoder_stats (encoder_query w))) in
  let compute_processes := get_compute_processes compute_query in
  let ffmpeg_processes := get_ffmpeg_processes clock (process_table w) in
  let data_point := <["compute_processes" := VCompute compute_processes]> data_point in
  let data_point := <["ffmpeg_processes" := VProcs ffmpeg_processes]> data_point in
  let data_point :=
    <["total_ffmpeg_processes" := VNum (PyInt (Z.of_nat (length ffmpeg_processes)))]>
      data_point in
  let data_point :=
    <["total_compute_processes" := VNum (PyInt (Z.of_nat (length compute_processes)))]>
      data_point in
  let data_point :=
    update data_point (attribution_dict (detect_nvenc_utilization ffmpeg_processes)) in
  let data_point := update data_point (get_system_info host) in
  update data_point (hls_dict (get_hls_output_stats (output_tree w))).

(** What one tick reads from outside. *)
Record tick_input : Type := {
  iso_time : string;
  at_clock : Q;
  world : tick_world;
  compute_query : run_result;
  host : option host_readings
}.

Definition sample_of (t : tick_input) : gmap string value :=
  collect_data (iso_time t) (at_clock t) (world t) (compute_query t) (host t).

(** *** The status line *)

(** [data.get(key, dflt)] where a number is needed, and where the
    format code [d] needs an [int]; [None] is the exception raised
    on any other value. *)
Definition get_num (data : gmap string value) (key : string) (dflt : pynum)
    : option pynum :=
  match data !! key with
  | None => Some dflt
  | Some (VNum n) => Some n
  | Some _ => None
  end.

Definition get_int (data : gmap string value) (key : string) (dflt : Z)
    : option Z :=
  match data !! key with
  | None => Some dflt
  | Some (VNum (PyInt z)) => Some z
  | Some _ => None
  end.

(** What the status line shows. *)
Record status_line : Type := {
  shown_time : string;
  shown_streams : Z;
  shown_nvenc1 : Z;
  shown_nvenc2 : Z;
  shown_gpu_util : Q;
  shown_mem_used : Z;
  shown_mem_percent : Q;
  shown_temp : Z;
  shown_power : Q;
  shown_proc : value
}.

(** [print_realtime_status]: the line printed; [None] is an
    exception (a missing time stamp, a division by zero, a value the
    format code does not take), which leaves the sampling loop. *)
Definition print_realtime_status (data : gmap string value) : option status_line :=
  gpu_util ← get_num data "gpu_utilization_%" (PyInt 0);
  mem_used ← get_int data "memory_used_mb" 0;
  mem_total ← get_num data "memory_total_mb" (PyInt 1);
  temp ← get_int data "temperature_c" 0;
  power ← get_num data "power_draw_w" (PyInt 0);
  nvenc1_load ← get_int data "nvenc1_estimated_load" 0;
  nvenc2_load ← get_int data "nvenc2_estimated_load" 0;
  total_streams ← get_int data "total_concurrent_streams" 0;
  let ffmpeg_count := default (VNum (PyInt 0)) (data !! "total_ffmpeg_processes") in
  if is_zero mem_total then None else
  let mem_percent := (inject_Z mem_used / pynum_value mem_total * 100)%Q in
  match data !! "timestamp" with
  | Some (VStr stamp) =>
      Some {| shown_time := String.substring 0 19 stamp;
              shown_streams := total_streams;
              shown_nvenc1 := nvenc1_load;
              shown_nvenc2 := nvenc2_load;
              shown_gpu_util := pynum_value gpu_util;
              shown_mem_used := mem_used;
              shown_mem_percent := mem_percent;
              shown_temp := temp;
              shown_power := pynum_value power;
              shown_proc := ffmpeg_count |}
  | _ => None
  end.

(** *** The analysis *)

(** [[p.get(key, 0) for p in data_points]] for Samples whose value
    under [key] is a number, as those of [collect_data] are; [None]
    stands for any other list of Samples, on which [sum] raises and
    [max] raises unless the list has one member. *)
Fixpoint numbers (key : string) (data_points : list (gmap string value))
    : option (list pynum) :=
  match data_points with
  | [] => Some []
  | p :: rest =>
      x ← get_num p key (PyInt 0);
      xs ← numbers key rest;
      Some (x :: xs)
  end.

Record gpu_utilization_section : Type := {
  avg : pynum;
  max : pynum;
  min : pynum;
  stable_above_50 : pynum
}.

Record memory_usage_section : Type := {
  avg_percent : pynum;
  max_percent : pynum;
  max_mb : pynum
}.

Record concurrent_streams_section : Type := {
  max_total_streams : pynum;
  avg_total_streams : pynum;
  max_nvenc1_load : pynum;
  max_nvenc2_load : pynum;
  dual_nvenc_utilization : pynum
}.

Record thermal_power_section : Type := {
  max_temp_c : pynum;
  avg_temp_c : pynum;
  max_power_w : pynum;
  avg_power_w : pynum
}.

Record output_generation_section : Type := {
  max_playlists : pynum;
  max_segments : pynum;
  final_output_size_mb : pynum
}.

Record analysis : Type := {
  gpu_utilization_of : gpu_utilization_section;
  memory_usage_of : memory_usage_section;
  concurrent_streams_of : concurrent_streams_section;
  thermal_power_of : thermal_power_section;
  output_generation_of : output_generation_section
}.

(** [x > 0] and [x > 50] *)
Definition positive_num (x : pynum) : bool := negb (Qle_bool (pynum_value x) 0).
Definition above_50 (x : pynum) : bool := negb (Qle_bool (pynum_value x) 50).

(** The pairs [(nvenc1_loads[i], nvenc2_loads[i])]. *)
Definition both_positive (loads : pynum * pynum) : bool :=
  positive_num (fst loads) && positive_num (snd loads).

(** The result of [analyze_concurrent_performance]: the empty
    dictionary or the five sections; [AnalysisRaises] for Samples
    with a value that is not a number where one is read. *)
Inductive analysis_result : Type :=
| EmptyAnalysis
| Analysis (a : analysis)
| AnalysisRaises.

Definition sections_of (data_points : list (gmap string value)) : option analysis :=
  gpu_utils ← numbers "gpu_utilization_%" data_points;
  mem_percents ← numbers "memory_percent" data_points;
  mem_used ← numbers "memory_used_mb" data_points;
  stream_counts ← numbers "total_concurrent_streams" data_points;
  nvenc1_loads ← numbers "nvenc1_estimated_load" data_points;
  nvenc2_loads ← numbers "nvenc2_estimated_load" data_points;
  temps ← numbers "temperature_c" data_points;
  powers ← numbers "power_draw_w" data_points;
  playlist_counts ← numbers "total_playlists" data_points;
  segment_counts ← numbers "total_segments" data_points;
  final_size ← last data_points ≫= (fun p => get_num p "total_size_mb" (PyInt 0));
  Some {| gpu_utilization_of :=
            {| avg := mean gpu_utils;
               max := max_or_0 gpu_utils;
               min := min_or_0 gpu_utils;
               stable_above_50 := share above_50 gpu_utils |};
          memory_usage_of :=
            {| avg_percent := mean mem_percents;
               max_percent := max_or_0 mem_percents;
               max_mb := max_or_0 mem_used |};
          concurrent_streams_of :=
            {| max_total_streams := max_or_0 stream_counts;
               avg_total_streams := mean stream_counts;
               max_nvenc1_load := max_or_0 nvenc1_loads;
               max_nvenc2_load := max_or_0 nvenc2_loads;
               dual_nvenc_utilization :=
                 PyFloat (inject_Z (Z.of_nat (length
                            (List.filter both_positive (zip nvenc1_loads nvenc2_loads))))
                          / inject_Z (Z.of_nat (length stream_counts)))%Q |};
          thermal_power_of :=
            {| max_temp_c := max_or_0 temps;
               avg_temp_c := mean temps;
               max_power_w := max_or_0 powers;
               avg_power_w := mean powers |};
          output_generation_of :=
            {| max_playlists := max_or_0 playlist_counts;
               max_segments := max_or_0 segment_counts;
               final_output_size_mb := final_size |} |}.

Definition analyze_concurrent_performance (data_points : list (gmap string value))
    : analysis_result :=
  match data_points with
  | [] => EmptyAnalysis
  | _ => match sections_of data_points with
         | Some a => Analysis a
         | None => AnalysisRaises
         end
  end.

(** *** The CSV table *)

(** [len(point.get(key, []))] for the two lists of processes, which
    are lists in every Sample; 0 stands for the default. *)
Definition len_of (v : option value) : Z :=
  match v with
  | Some (VNums l) | Some (VTuple l) => Z.of_nat (length l)
  | Some (VCompute l) => Z.of_nat (length l)
  | Some (VProcs l) => Z.of_nat (length l)
  | _ => 0
  end.

(** One row of [flattened_data]: the values that are not lists, and
    the five derived columns. *)
Definition flat_point (point : gmap string value) : gmap string value :=
  let flat : gmap string value := filter (fun kv => is_list (snd kv) = false) point in
  let flat := <["total_streams" :=
                 default (VNum (PyInt 0)) (point !! "total_concurrent_streams")]> flat in
  let flat := <["nvenc1_load" :=
                 default (VNum (PyInt 0)) (point !! "nvenc1_estimated_load")]> flat in
  let flat := <["nvenc2_load" :=
                 default (VNum (PyInt 0)) (point !! "nvenc2_estimated_load")]> flat in
  let flat := <["ffmpeg_process_count" :=
                 VNum (PyInt (len_of (point !! "ffmpeg_processes")))]> flat in
  <["compute_process_count" :=
     VNum (PyInt (len_of (point !! "compute_processes")))]> flat.

(** [csv.DictWriter] with the keys of the first row as field names:
    a row is written unless it has a key that is not a field name,
    on which [writerows] raises [ValueError]. *)
Definition row_accepted (first row : gmap string value) : bool :=
  bool_decide (dom (flat_point row) ⊆ dom (flat_point first)).

Definition rows_accepted (data_points : list (gmap string value)) : bool :=
  match data_points with
  | [] => true
  | first :: _ => forallb (row_accepted first) data_points
  end.

(** The rows that are in the file when the writer stops: those in
    front of the first one it does not take. *)
Fixpoint rows_before_rejection (first : gmap string value)
    (rows : list (gmap string value)) : list (gmap string value) :=
  match rows with
  | [] => []
  | row :: rest =>
      if row_accepted first row then row :: rows_before_rejection first rest else []
  end.

Definition rows_written (data_points : list (gmap string value))
    : list (gmap string value) :=
  match data_points with
  | [] => []
  | first :: _ => rows_before_rejection first data_points
  end.

(** How a call that writes files ends: it returns, or an exception
    leaves it, with the files as they are then. *)
Inductive outcome : Type :=
| Returns (fs : gmap string string)
| Raises (fs : gmap string string).

Definition files_of (o : outcome) : gmap string string :=
  match o with Returns fs | Raises fs => fs end.

Section Persistence.

(** The text of the files: the CSV table of the rows written, one
    Sample as [json.dump] writes it, and the analysis document. *)
Variable csv_text : list (gmap string value) -> string.
Variable json_text : list (gmap string value) -> string.
Variable analysis_text : analysis -> string.

Definition save_data_csv (output_dir filename : string)
    (data_points : list (gmap string value)) (fs : gmap string string) : outcome :=
  match data_points with
  | [] => Returns fs
  | _ =>
      let csv_file := in_dir output_dir (filename +:+ ".csv") in
      if rows_accepted data_points
      then Returns (<[csv_file := csv_text (flat_point <$> data_points)]> fs)
      else Raises (<[csv_file := csv_text (flat_point <$> rows_written data_points)]> fs)
  end.

Definition save_data_json (output_dir filename : string)
    (data_points : list (gmap string value)) (fs : gmap string string) : outcome :=
  Returns (<[in_dir output_dir (filename +:+ ".json") := json_text data_points]> fs).

Definition save_analysis (output_dir filename : string)
    (data_points : list (gmap string value)) (fs : gmap string string) : outcome :=
  match analyze_concurrent_performance data_points with
  | EmptyAnalysis => Returns fs
  | Analysis a =>
      Returns (<[in_dir output_dir (filename +:+ "_analysis.json") := analysis_text a]> fs)
  | AnalysisRaises => Raises fs
  end.

(** One call after the other: the second is not made when the first
    raises. *)
Definition and_then (o : outcome) (next : gmap string string -> outcome) : outcome :=
  match o with
  | Returns fs => next fs
  | Raises fs => Raises fs
  end.

(** The [finally] block of [monitor]. *)
Definition save_all (output_dir output_prefix stamp : string)
    (data_points : list (gmap string value)) (fs : gmap string string) : outcome :=
  let filename := output_prefix +:+ "_" +:+ stamp in
  and_then (save_data_csv output_dir filename data_points fs) (fun fs =>
  and_then (save_data_json output_dir filename data_points fs) (fun fs =>
  save_analysis output_dir filename data_points fs)).

End Persistence.

End Dict.

End Monitor.

(** ** analyze-results.py *)

Module Analyzer.

(** *** Scanning an encoder log *)

(** [s[n:]] *)
Fixpoint slice_from (n : nat) (s : string) : string :=
  match n, s with
  | O, _ => s
  | S k, String _ t => slice_from k t
  | S _, EmptyString => EmptyString
  end.

(** The longest prefix of [s] whose characters all satisfy [p]: what a
    greedy [c*] takes when the next thing to match cannot satisfy [p]. *)
Fixpoint take_while (p : ascii -> bool) (s : string) : string :=
  match s with
  | EmptyString => EmptyString
  | String c t => if p c then String c (take_while p t) else EmptyString
  end.

(** One attempt of [drop=\s*([0-9]+)] at the start of [s]: the group
    and the length of the match. *)
Definition match_drop (s : string) : option (string * nat) :=
  if PyStr.startswith "drop=" s then
    let ws := take_while PyStr.is_space (slice_from 5 s) in
    let ds := take_while PyStr.is_digit (slice_from (5 + String.length ws) s) in
    match ds with
    | EmptyString => None
    | _ => Some (ds, (5 + String.length ws + String.length ds)%nat)
    end
  else None.

Definition is_digit_or_dot (c : ascii) : bool :=
  PyStr.is_digit c || Ascii.eqb c ".".

(** One attempt of [speed=\s*([0-9.]+)x] at the start of [s]. *)
Definition match_speed (s : string) : option (string * nat) :=
  if PyStr.startswith "speed=" s then
    let ws := take_while PyStr.is_space (slice_from 6 s) in
    let g := take_while is_digit_or_dot (slice_from (6 + String.length ws) s) in
    match g with
    | EmptyString => None
    | _ =>
        if PyStr.startswith "x" (slice_from (6 + String.length ws + String.length g) s)
        then Some (g, (6 + String.length ws + String.length g + 1)%nat)
        else None
    end
  else None.

(** [re.findall] for a pattern with one group, given the attempt at
    one position: the text is scanned from the left, and after a match
    the scan goes on behind it. *)
Equations? findall (attempt : string -> option (string * nat)) (s : string)
    : list string by wf (String.length s) lt :=
  findall attempt EmptyString := [];
  findall attempt (String c t) with attempt (String c t) := {
    | Some (g, n) := g :: findall attempt (slice_from (n - 1) t);
    | None := findall attempt t }.
Proof.
  all: simpl; try lia.
  clear. revert t. induction (n - 1)%nat as [|k IH]; intros t; simpl; [lia|].
  destruct t as [|a t]; simpl; [lia|]. specialize (IH t). lia.
Qed.

(** [int(g)] and [float(g)]: the value, or the text of the
    [ValueError].  [int] counts the digits before it converts them,
    and refuses more than the limit. *)
Definition int_of (g : string) : string + Z :=
  match PyStr.int g with
  | Some z => inr z
  | None =>
      let digits := PyStr.leading_digits (snd (PyStr.sign (PyStr.strip g))) in
      if PyStr.int_max_str_digits <? digits then
        inl ("Exceeds the limit (4300 digits) for integer string conversion: value has "
             +:+ pretty digits
             +:+ " digits; use sys.set_int_max_str_digits() to increase the limit")
      else inl ("invalid literal for int() with base 10: '" +:+ g +:+ "'")
  end.

Definition float_of (g : string) : string + Q :=
  match PyStr.float g with
  | Some q => inr q
  | None => inl ("could not convert string to float: '" +:+ g +:+ "'")
  end.

(** [[conv(x) for x in l]]: the values, or the exception of the first
    element on which [conv] raises. *)
Fixpoint convert_all {A : Type} (conv : string -> string + A) (l : list string)
    : string + list A :=
  match l with
  | [] => inr []
  | g :: r =>
      match conv g with
      | inl e => inl e
      | inr x => match convert_all conv r with
                 | inl e => inl e
                 | inr xs => inr (x :: xs)
                 end
      end
  end.

(** [max] of a non-empty sequence, given as its first element and the
    rest. *)
Definition py_max (x : Z) (r : list Z) : Z := foldl Z.max x r.

(** The result, or the text of the exception raised. *)
Definition _count_dropped_frames (log_content : string) : string + Z :=
  match findall match_drop log_content with
  | [] => inr 0
  | g :: gs =>
      match int_of g, convert_all int_of gs with
      | inr x, inr r => inr (py_max x r)
      | inl e, _ | inr _, inl e => inl e
      end
  end.

Record encoding_speed : Type := {
  avg_speed : pynum;
  max_speed : pynum;
  min_speed : pynum
}.

Definition Qmax (a b : Q) : Q := if Qle_bool a b then b else a.
Definition Qmin (a b : Q) : Q := if Qle_bool a b then a else b.

Definition _extract_encoding_speed (log_content : string) : string + encoding_speed :=
  match findall match_speed log_content with
  | [] => inr {| avg_speed := PyInt 0; max_speed := PyInt 0; min_speed := PyInt 0 |}
  | g :: gs =>
      match float_of g, convert_all float_of gs with
      | inr x, inr r =>
          inr {| avg_speed :=
                   PyFloat (foldr Qplus 0%Q (x :: r)
                            / inject_Z (Z.of_nat (length (x :: r))))%Q;
                 max_speed := PyFloat (foldl Qmax x r);
                 min_speed := PyFloat (foldl Qmin x r) |}
      | inl e, _ | inr _, inl e => inl e
      end
  end.

(** [c.lower()] on a code point below 256. *)
Definition lower_char (c : ascii) : ascii :=
  let n := nat_of_ascii c in
  if (((65 <=? n) && (n <=? 90))
      || ((192 <=? n) && (n <=? 222) && negb (n =? 215)))%nat
  then ascii_of_nat (n + 32) else c.

Fixpoint lower (s : string) : string :=
  match s with
  | EmptyString => EmptyString
  | String c t => String (lower_char c) (lower t)
  end.

(** One log file: its text and its size in bytes. *)
Record log_file : Type := {
  content : string;
  log_bytes : Z;
  st_mtime : Q
}.

(** What [analyze_ffmpeg_logs] stores for one engine: nothing, the
    statistics, or the text of the exception. *)
Inductive log_analysis : Type :=
| NoLog
| LogStats (log_size_kb : Q) (has_errors : bool) (speed : encoding_speed)
           (dropped_frames : Z) (warnings : Z)
| LogError (error : string).

Definition analyze_log (log : option log_file) : log_analysis :=
  match log with
  | None => NoLog
  | Some f =>
      let text := content f in
      match _extract_encoding_speed text, _count_dropped_frames text with
      | inr speed, inr dropped =>
          LogStats (inject_Z (log_bytes f) / 1024)%Q
                   (PyStr.contains "error" (lower text)
                    || PyStr.contains "failed" (lower text))
                   speed dropped
                   (PyStr.count "warning" (lower text))
      | inl e, _ | inr _, inl e => LogError ("Failed to read log: " +:+ e)
      end
  end.

Definition analyze_ffmpeg_logs (nvenc1_log nvenc2_log : option log_file)
    : log_analysis * log_analysis :=
  (analyze_log nvenc1_log, analyze_log nvenc2_log).

(** *** Output quality *)

(** The three counters of one engine while its streams are visited. *)
Record engine_counts : Type := {
  successful : Z;
  failed : Z;
  size_mb : pynum
}.

Record engine_quality : Type := {
  successful_streams : Z;
  failed_streams : Z;
  total_size_mb : pynum;
  success_rate : pynum
}.

Definition no_streams : engine_counts :=
  {| successful := 0; failed := 0; size_mb := PyInt 0 |}.

(** The body of the loop over [iterdir()] for one entry. *)
Definition visit_stream (acc : engine_counts) (entry : string * node) : option engine_counts :=
  let '(name, stream_dir) := entry in
  d ← Tree.is_dir stream_dir;
  if d && PyStr.startswith "stream" name then
    match Tree.child "playlist.m3u8" stream_dir with
    | Some playlist_file =>
        sz ← Tree.size playlist_file;
        if 0 <? sz then
          dir_size ← Tree.files_size (Tree.rglob stream_dir);
          Some {| successful := successful acc + 1;
                  failed := failed acc;
                  size_mb := PyFloat (pynum_value (size_mb acc)
                                      + inject_Z dir_size / inject_Z (1024 * 1024))%Q |}
        else
          Some {| successful := successful acc; failed := failed acc + 1;
                  size_mb := size_mb acc |}
    | None =>
        Some {| successful := successful acc; failed := failed acc + 1;
                size_mb := size_mb acc |}
    end
  else Some acc.

Fixpoint visit_streams (acc : engine_counts) (entries : list (string * node))
    : option engine_counts :=
  match entries with
  | [] => Some acc
  | e :: r => acc' ← visit_stream acc e; visit_streams acc' r
  end.

(** The counters of the engine whose directory is [name] under the
    output directory. *)
Definition scan_engine (output : option node) (name : string) : option engine_counts :=
  match output with
  | None => Some no_streams
  | Some Denied => None
  | Some root =>
      match Tree.child name root with
      | None => Some no_streams
      | Some (Dir _ entries) => visit_streams no_streams entries
      | Some _ => None
      end
  end.

(** The "Calculate success rates" step for one engine. *)
Definition with_success_rate (c : engine_counts) : engine_quality :=
  let total := successful c + failed c in
  {| successful_streams := successful c;
     failed_streams := failed c;
     total_size_mb := size_mb c;
     success_rate :=
       if 0 <? total
       then PyFloat (inject_Z (successful c) / inject_Z total * 100)%Q
       else PyInt 0 |}.

Record output_analysis : Type := {
  nvenc1 : engine_quality;
  nvenc2 : engine_quality
}.

(** [None] is an exception, which [main] reports before it exits. *)
Definition analyze_output_quality (output : option node) : option output_analysis :=
  c1 ← scan_engine output "nvenc1";
  c2 ← scan_engine output "nvenc2";
  Some {| nvenc1 := with_success_rate c1; nvenc2 := with_success_rate c2 |}.

(** *** The grade *)

(** The value of [analyze_gpu_performance]: each section is a
    dictionary of numbers, and a section may be missing; the empty
    dictionary has none. *)
Record gpu_analysis : Type := {
  gpu_utilization : option (gmap string pynum);
  memory_usage : option (gmap string pynum);
  thermal : option (gmap string pynum);
  concurrent_streams : option (gmap string pynum)
}.

Definition empty_gpu_analysis : gpu_analysis :=
  {| gpu_utilization := None; memory_usage := None;
     thermal := None; concurrent_streams := None |}.

(** The names of the log files found, by key. *)
Record log_names : Type := {
  gpu_monitoring : option string;
  concurrent_monitoring : option string;
  test_summary : option string;
  nvenc1_log : option string;
  nvenc2_log : option string
}.

(** [self.analysis_results]: a key that is not in the dictionary is
    [None]. *)
Record analysis_results : Type := {
  test_timestamp : option string;
  log_files : option log_names;
  gpu_performance : option gpu_analysis;
  output_quality : option output_analysis;
  ffmpeg_analysis : option (log_analysis * log_analysis);
  plots_generated : option (option string)
}.

(** The dictionary [__init__] sets. *)
Definition no_results : analysis_results :=
  {| test_timestamp := None; log_files := None; gpu_performance := None;
     output_quality := None; ffmpeg_analysis := None; plots_generated := None |}.

(** [d.get(section, {}).get(key, dflt)] *)
Definition get_number (section : option (gmap string pynum)) (key : string)
    (dflt : pynum) : Q :=
  pynum_value (default dflt (section ≫= (fun d => d !! key))).

Definition Qge_bool (a b : Q) : bool := Qle_bool b a.

Definition utilization_points (gpu_util : Q) : Z :=
  if Qge_bool gpu_util 80 then 25
  else if Qge_bool gpu_util 60 then 20
  else if Qge_bool gpu_util 40 then 15
  else if Qge_bool gpu_util 20 then 10
  else 0.

Definition success_points (avg_success : Q) : Z :=
  if Qge_bool avg_success 95 then 35
  else if Qge_bool avg_success 90 then 30
  else if Qge_bool avg_success 80 then 25
  else if Qge_bool avg_success 70 then 20
  else 0.

Definition streams_points (max_streams : Q) : Z :=
  if Qge_bool max_streams 100 then 25
  else if Qge_bool max_streams 75 then 20
  else if Qge_bool max_streams 50 then 15
  else if Qge_bool max_streams 25 then 10
  else 0.

Definition thermal_points (max_temp : Q) : Z :=
  if Qle_bool max_temp 75 then 15
  else if Qle_bool max_temp 80 then 12
  else if Qle_bool max_temp 85 then 8
  else 0.

(** [score] and [max_score] after the four blocks of
    [_print_performance_grade]. *)
Definition score_of (r : analysis_results) : Z * Z :=
  let '(score, max_score) := (0, 0) in
  let '(score, max_score) :=
    match gpu_performance r with
    | Some g =>
        (score + utilization_points (get_number (gpu_utilization g) "avg" (PyInt 0)),
         max_score + 25)
    | None => (score, max_score)
    end in
  let '(score, max_score) :=
    match output_quality r with
    | Some o =>
        let nvenc1_success := pynum_value (success_rate (nvenc1 o)) in
        let nvenc2_success := pynum_value (success_rate (nvenc2 o)) in
        (score + success_points ((nvenc1_success + nvenc2_success) / 2)%Q,
         max_score + 35)
    | None => (score, max_score)
    end in
  let '(score, max_score) :=
    match gpu_performance r with
    | Some g =>
        (score + streams_points (get_number (concurrent_streams g) "max_total" (PyInt 0)),
         max_score + 25)
    | None => (score, max_score)
    end in
  let '(score, max_score) :=
    match gpu_performance r with
    | Some g =>
        (score + thermal_points (get_number (thermal g) "max_temp" (PyInt 100)),
         max_score + 15)
    | None => (score, max_score)
    end in
  (score, max_score).

Definition grade_of (percentage : Q) : string :=
  if Qge_bool percentage 90 then "A+ (Excellent)"
  else if Qge_bool percentage 80 then "A (Very Good)"
  else if Qge_bool percentage 70 then "B+ (Good)"
  else if Qge_bool percentage 60 then "B (Fair)"
  else if Qge_bool percentage 50 then "C (Needs Improvement)"
  else "D (Poor)".

(** What the two [print] calls show. *)
Record grade_line : Type := {
  grade : string;
  score : Z;
  max_score : Z;
  percentage : Q
}.

(** The grade printed; [None] when nothing is printed. *)
Definition _print_performance_grade (r : analysis_results) : option grade_line :=
  let '(score, max_score) := score_of r in
  if 0 <? max_score then
    let percentage := (inject_Z score / inject_Z max_score * 100)%Q in
    Some {| grade := grade_of percentage; score := score;
            max_score := max_score; percentage := percentage |}
  else None.

(** *** The report *)

(** [fnmatch] of a file name against the two patterns with a star. *)
Definition matches_concurrent_monitor_csv (name : string) : bool :=
  PyStr.startswith "concurrent_monitor" name && PyStr.endswith ".csv" name
  && (22 <=? String.length name)%nat.

Definition matches_monitor_csv (name : string) : bool :=
  PyStr.endswith ".csv" name
  && PyStr.contains "monitor" (String.substring 0 (String.length name - 4) name).

(** [max(l, key=lambda x: x.stat().st_mtime)]: the first of the newest. *)
Fixpoint newest (best : string * log_file) (l : list (string * log_file))
    : string * log_file :=
  match l with
  | [] => best
  | x :: r => if Qle_bool (st_mtime (snd x)) (st_mtime (snd best))
              then newest best r else newest x r
  end.

Definition newest_of (l : list (string * log_file)) : option (string * log_file) :=
  match l with
  | [] => None
  | x :: r => Some (newest x r)
  end.

Definition named (name : string) (l : list (string * log_file)) : option (string * log_file) :=
  List.find (fun e => String.eqb (fst e) name) l.

(** The files [find_log_files] selects from the listing of the logs
    directory, by key. *)
Record found_logs : Type := {
  found_gpu_monitoring : option (string * log_file);
  found_concurrent_monitoring : option (string * log_file);
  found_test_summary : option (string * log_file);
  found_nvenc1_log : option (string * log_file);
  found_nvenc2_log : option (string * log_file)
}.

Definition find_log_files (logs : list (string * log_file)) : found_logs :=
  {| found_gpu_monitoring :=
       newest_of (List.filter (fun e => matches_monitor_csv (fst e)) logs);
     found_concurrent_monitoring :=
       newest_of (List.filter (fun e => matches_concurrent_monitor_csv (fst e)) logs);
     found_test_summary := named "test_summary.txt" logs;
     found_nvenc1_log := named "nvenc1_process.log" logs;
     found_nvenc2_log := named "nvenc2_process.log" logs |}.

Section Report.

(** What pandas computes from the text of the CSV ([None] when
    reading or aggregating raises), and whether plotting it
    succeeds. *)
Variable summarize_csv : string -> option gpu_analysis.
Variable plots_succeed : string -> bool.

Definition analyze_gpu_performance (csv_file : option (string * log_file)) : gpu_analysis :=
  match csv_file with
  | None => empty_gpu_analysis
  | Some (_, f) => default empty_gpu_analysis (summarize_csv (content f))
  end.

Definition generate_performance_plots (logs_dir : string)
    (gpu_data_file : option (string * log_file)) : option string :=
  match gpu_data_file with
  | None => None
  | Some (_, f) =>
      if plots_succeed (content f)
      then Some (logs_dir +:+ "/performance_analysis.png")
      else None
  end.

(** [str(v) if v else None] *)
Definition path_of (logs_dir : string) (v : option (string * log_file)) : option string :=
  (fun e => logs_dir +:+ "/" +:+ fst e) <$> v.

(** [generate_comprehensive_report]: the name of the file written
    and the dictionary dumped into it.  [iso] and [stamp] are the two
    readings of [datetime.now()], formatted.  [None] is an exception
    of the output-quality scan. *)
Definition generate_comprehensive_report (logs_dir : string)
    (logs : list (string * log_file)) (output : option node)
    (iso stamp : string) : option (string * analysis_results) :=
  let found := find_log_files logs in
  let gpu_analysis := analyze_gpu_performance (found_concurrent_monitoring found) in
  output_analysis ← analyze_output_quality output;
  let ffmpeg_analysis :=
    analyze_ffmpeg_logs (snd <$> found_nvenc1_log found) (snd <$> found_nvenc2_log found) in
  let plot_file := generate_performance_plots logs_dir (found_concurrent_monitoring found) in
  Some (logs_dir +:+ "/analysis_report_" +:+ stamp +:+ ".json",
        {| test_timestamp := Some iso;
           log_files :=
             Some {| gpu_monitoring := path_of logs_dir (found_gpu_monitoring found);
                     concurrent_monitoring :=
                       path_of logs_dir (found_concurrent_monitoring found);
                     test_summary := path_of logs_dir (found_test_summary found);
                     nvenc1_log := path_of logs_dir (found_nvenc1_log found);
                     nvenc2_log := path_of logs_dir (found_nvenc2_log found) |};
           gpu_performance := Some gpu_analysis;
           output_quality := Some output_analysis;
           ffmpeg_analysis := Some ffmpeg_analysis;
           plots_generated := Some plot_file |}).

End Report.

End Analyzer.

(** ** The specification's words

    Notions the specification uses and the programs do not compute, for
    comparison with what the programs do. *)

Module Spec.

(** Every character of [s] satisfies [p]. *)
Fixpoint all_chars (p : ascii -> bool) (s : string) : bool :=
  match s with
  | EmptyString => true
  | String c t => p c && all_chars p t
  end.

(** [s] begins with a character that satisfies [p]. *)
Definition begins_with (p : ascii -> bool) (s : string) : bool :=
  match s with
  | EmptyString => false
  | String c _ => p c
  end.

(** [s] starts with a "drop=<int>" marker whose integer is written
    [g]: the word, white space if any, and the whole run of digits. *)
Definition drop_marker (s g : string) : Prop :=
  exists ws rest,
    s = "drop=" +:+ ws +:+ g +:+ rest
    /\ all_chars PyStr.is_space ws = true
    /\ all_chars PyStr.is_digit g = true
    /\ g <> ""
    /\ begins_with PyStr.is_digit rest = false.

(** A marker whose integer is written [g] occurs somewhere in [log]. *)
Definition drop_digits_in (log g : string) : Prop :=
  exists pre suf, log = pre +:+ suf /\ drop_marker suf g.

(** A marker with integer [m] occurs somewhere in [log]: [m] is the
    number its digits denote, however many they are. *)
Definition drop_marker_in (log : string) (m : Z) : Prop :=
  exists g, drop_digits_in log g /\ PyStr.digits 0 g = Some m.

(** What one attempt of a pattern finds at each position of the text,
    from left to right. *)
Fixpoint at_all_positions (attempt : string -> option (string * nat)) (s : string)
    : list string :=
  match s with
  | EmptyString => []
  | String _ t =>
      match attempt s with
      | Some (g, _) => g :: at_all_positions attempt t
      | None => at_all_positions attempt t
      end
  end.

(** The sleep that paces tick starts [interval] apart when the
    collection took [work]: the residual, and none when the work took
    longer. *)
Definition residual_sleep (interval work : Q) : Q :=
  if Qle_bool interval work then 0%Q else (interval - work)%Q.

End Spec.

(** ** Notions used to state the properties *)

Module Notions.

(** Column [i] of a query response, stripped. *)
Definition field (out : string) (i : nat) : option string :=
  PyStr.strip <$> PyStr.split "," (PyStr.strip out) !! i.

Definition pid_le (p q : Monitor.process_info) : Prop :=
  Monitor.pid p <= Monitor.pid q.






(** How many of the listed entries have a name that ends in [suffix]. *)
Definition named (suffix : string) (l : list (string * node)) : Z :=
  Z.of_nat (length (List.filter (fun e => PyStr.endswith suffix (fst e)) l)).

Definition not_d (c : ascii) : bool := negb (Ascii.eqb c "d").

(** The counters of an engine count: neither is negative. *)
Definition counted (c : Analyzer.engine_counts) : Prop :=
  0 <= Analyzer.successful c /\ 0 <= Analyzer.failed c.

(** The rate of an engine is its percentage of successes, and the
    integer 0 when it has no stream at all. *)
Definition rate_is_percentage (e : Analyzer.engine_quality) : Prop :=
  0 <= Analyzer.successful_streams e /\ 0 <= Analyzer.failed_streams e
  /\ (Analyzer.successful_streams e + Analyzer.failed_streams e = 0 ->
      Analyzer.success_rate e = PyInt 0)
  /\ (Analyzer.successful_streams e + Analyzer.failed_streams e <> 0 ->
      Analyzer.success_rate e =
        PyFloat (inject_Z (Analyzer.successful_streams e)
                 / inject_Z (Analyzer.successful_streams e + Analyzer.failed_streams e)
                 * 100)%Q).

(** The points of the three blocks that read the GPU section. *)
Definition gpu_points (g : Analyzer.gpu_analysis) : Z :=
  Analyzer.utilization_points
    (Analyzer.get_number (Analyzer.gpu_utilization g) "avg" (PyInt 0))
  + Analyzer.streams_points
      (Analyzer.get_number (Analyzer.concurrent_streams g) "max_total" (PyInt 0))
  + Analyzer.thermal_points
      (Analyzer.get_number (Analyzer.thermal g) "max_temp" (PyInt 100)).

(** The points of the block that reads the output-quality section. *)
Definition quality_points (o : Analyzer.output_analysis) : Z :=
  Analyzer.success_points
    ((pynum_value (Analyzer.success_rate (Analyzer.nvenc1 o))
      + pynum_value (Analyzer.success_rate (Analyzer.nvenc2 o))) / 2)%Q.

(** [cap] when the key is in the dictionary, and 0 when it is not. *)
Definition cap_if {A : Type} (section : option A) (cap : Z) : Z :=
  match section with
  | Some _ => cap
  | None => 0
  end.

(** The results with the time stamp taken out. *)
Definition without_timestamp (r : Analyzer.analysis_results) : Analyzer.analysis_results :=
  {| Analyzer.test_timestamp := None;
     Analyzer.log_files := Analyzer.log_files r;
     Analyzer.gpu_performance := Analyzer.gpu_performance r;
     Analyzer.output_quality := Analyzer.output_quality r;
     Analyzer.ffmpeg_analysis := Analyzer.ffmpeg_analysis r;
     Analyzer.plots_generated := Analyzer.plots_generated r |}.

End Notions.

(** ** Concrete inputs *)

Module Examples.

(** A response in which the six guarded columns hold the marker, and
    one in which they hold zeros. *)
Definition na_response : string :=
  "2025/01/15 10:30:00.123, NVIDIA GeForce RTX 4090, 24564, 1024, 23540, [N/A], [N/A], [N/A], [N/A], [N/A], [N/A]".

Definition zero_response : string :=
  "2025/01/15 10:30:00.123, NVIDIA GeForce RTX 4090, 24564, 1024, 23540, 0, 0, 0, 0.00, 0, 0".

(** A response with the marker in the memory-used column. *)
Definition na_memory_response : string :=
  "2025/01/15 10:30:00.123, NVIDIA GeForce RTX 4090, 24564, [N/A], 23540, 35, 12, 61, 120.50, 2520, 10501".

Definition na_encoder_response : string := "[N/A], [N/A], [N/A]".

(** A tick during which no query answers and nothing runs. *)
Definition quiet_tick (work : Q) (stop : bool) : Monitor.tick_world :=
  {| Monitor.gpu_query := Monitor.RunRaises;
     Monitor.encoder_query := Monitor.RunRaises;
     Monitor.process_table := [];
     Monitor.output_tree := None;
     Monitor.work := work;
     Monitor.stop_signal := stop |}.

(** A tick in which both queries answer with the marker. *)
Definition na_tick : Monitor.tick_world :=
  {| Monitor.gpu_query := Monitor.Completed 0 na_response;
     Monitor.encoder_query := Monitor.Completed 0 na_encoder_response;
     Monitor.process_table := [];
     Monitor.output_tree := None;
     Monitor.work := (1 # 10)%Q;
     Monitor.stop_signal := false |}.

Definition process (pid streams : Z) : Monitor.process_info :=
  {| Monitor.pid := pid; Monitor.input_streams := streams;
     Monitor.cpu_percent := 0%Q; Monitor.memory_mb := PyInt 0;
     Monitor.runtime_seconds := PyInt 0;
     Monitor.cmdline_sample := "ffmpeg -c:v h264_nvenc" |}.

(** A stream directory with a playlist of [size] bytes and a segment. *)
Definition stream (size : Z) : node :=
  Dir 4096 [("playlist.m3u8", File size); ("seg0.ts", File 1048576)].

(** An output tree in which engine 1 has three streams with a playlist
    that is not empty and one with an empty playlist. *)
Definition three_of_four : node :=
  Dir 4096
    [("nvenc1", Dir 4096 [("stream1", stream 120); ("stream2", stream 120);
                          ("stream3", stream 120); ("stream4", stream 0);
                          ("README", File 10)])].




Definition marked_log : string :=
  "frame= 120 fps=30 drop=3 speed=1.0x frame= 240 fps=30 drop=11 speed=1.0x frame= 360 drop=7".

(** [n] times the digit 9. *)
Definition nines (n : nat) : string := Nat.iter n (String "9") "".

(** A log whose last drop marker has one digit more than [int]
    converts. *)
Definition overlong_log : string :=
  "frame= 120 fps=30 drop=3 speed=1.0x frame= 240 drop=" +:+ nines 4301.

(** The results when the CSV is missing and nothing else was analyzed. *)
Definition gpu_section_only : Analyzer.analysis_results :=
  {| Analyzer.test_timestamp := None; Analyzer.log_files := None;
     Analyzer.gpu_performance := Some Analyzer.empty_gpu_analysis;
     Analyzer.output_quality := None; Analyzer.ffmpeg_analysis := None;
     Analyzer.plots_generated := None |}.

(** Stand-ins for pandas and the plotting backend on inputs that have
    no CSV, where neither is called. *)
Definition no_summary (csv : string) : option Analyzer.gpu_analysis := None.
Definition no_plots (csv : string) : bool := false.

End Examples.

(** ** The keys of a Sample, written out *)

Module Keys.

Import Monitor Monitor.Dict.

(** The items of a Sample in the order in which a reader meets them:
    the items of a later [update] come first. *)
Definition sample_items (iso : string) (clock : Q) (gpu : option gpu_info)
    (enc : encoder_stats) (compute : list compute_process)
    (ffmpeg : list process_info) (host : option host_readings) (hls : hls_stats)
    : list (string * value) :=
  (hls_items hls
   ++ from_option system_items [] host
   ++ attribution_items (detect_nvenc_utilization ffmpeg)
   ++ [("total_compute_processes", VNum (PyInt (Z.of_nat (length compute))));
       ("total_ffmpeg_processes", VNum (PyInt (Z.of_nat (length ffmpeg))));
       ("ffmpeg_processes", VProcs ffmpeg);
       ("compute_processes", VCompute compute)]
   ++ encoder_items enc
   ++ from_option
        (fun g => ("memory_percent", VNum (PyFloat (memory_percent g))) :: gpu_info_items g)
        [] gpu
   ++ [("timestamp", VStr iso); ("unix_timestamp", VNum (PyFloat clock))])%list.

(** Which of the sources that may fail answered at a tick: the keys
    of the Sample depend on nothing else. *)
Record shape : Type := {
  gpu_answered : bool;
  host_answered : bool;
  load_is_tuple : bool;
  output_averaged : bool
}.

Definition shape_of (t : tick_input) : shape :=
  {| gpu_answered := bool_decide (is_Some (get_gpu_info (gpu_query (world t))));
     host_answered := bool_decide (is_Some (host t));
     load_is_tuple := bool_decide (is_Some (host t ≫= host_loadavg));
     output_averaged :=
       bool_decide (is_Some (avg_segments_per_playlist
                               (get_hls_output_stats (output_tree (world t))))) |}.

(** Every source that answered at the one tick answered at the other. *)
Definition shape_le (a b : shape) : bool :=
  implb (gpu_answered a) (gpu_answered b)
  && implb (host_answered a) (host_answered b)
  && implb (load_is_tuple a) (load_is_tuple b)
  && implb (output_averaged a) (output_averaged b).

(** A load average is only there with a host snapshot. *)
Definition shape_valid (a : shape) : bool :=
  implb (load_is_tuple a) (host_answered a).

(** The keys of a Sample of a given shape, each with whether its value
    is a list, in the order of [sample_items]. *)
Definition shape_items (a : shape) : list (string * bool) :=
  ([("total_playlists", false); ("total_segments", false); ("total_size_mb", false)]
   ++ (if output_averaged a then [("avg_segments_per_playlist", false)] else [])
   ++ (if host_answered a
       then [("cpu_percent_total", false); ("cpu_cores_count", false);
             ("cpu_cores_usage", true); ("cpu_max_core", false);
             ("memory_total_gb", false); ("memory_used_gb", false);
             ("memory_available_gb", false); ("memory_percent", false);
             ("load_average", negb (load_is_tuple a))]
       else [])
   ++ [("nvenc1_estimated_load", false); ("nvenc2_estimated_load", false);
       ("total_concurrent_streams", false);
       ("total_compute_processes", false); ("total_ffmpeg_processes", false);
       ("ffmpeg_processes", true); ("compute_processes", true);
       ("encoder_sessions", false); ("encoder_avg_fps", false);
       ("encoder_avg_latency_ms", false)]
   ++ (if gpu_answered a
       then [("memory_percent", false); ("timestamp", false); ("gpu_name", false);
             ("memory_total_mb", false); ("memory_used_mb", false);
             ("memory_free_mb", false); ("gpu_utilization_%", false);
             ("memory_utilization_%", false); ("temperature_c", false);
             ("power_draw_w", false); ("gpu_clock_mhz", false);
             ("memory_clock_mhz", false)]
       else [])
   ++ [("timestamp", false); ("unix_timestamp", false)])%list.

(** The columns of a row, given for each key of the Sample whether
    its value is a list: the five derived columns and the keys whose
    value is not one. *)
Definition flat_keys (kinds : gmap string bool) : gset string :=
  {["compute_process_count"]} ∪ ({["ffmpeg_process_count"]} ∪ ({["nvenc2_load"]}
    ∪ ({["nvenc1_load"]} ∪ ({["total_streams"]}
    ∪ dom (filter (fun kb => snd kb = false) kinds))))).















End Keys.

(** ** The entries of an engine directory *)

Module Streams.

(** An entry the scan counts: a directory whose name begins with
    [stream]. *)
Definition is_stream (e : string * node) : bool :=
  match snd e with
  | Dir _ _ => PyStr.startswith "stream" (fst e)
  | _ => false
  end.

(** Its playlist is there and is not empty. *)
Definition has_playlist (e : string * node) : bool :=
  match Tree.child "playlist.m3u8" (snd e) ≫= Tree.size with
  | Some sz => 0 <? sz
  | None => false
  end.

Definition delivered (e : string * node) : bool := is_stream e && has_playlist e.

Definition undelivered (e : string * node) : bool := is_stream e && negb (has_playlist e).

End Streams.

(** ** Proof steps used more than once *)

(** Reading a Sample at a key that is written out, by cases on what was
    available at the tick; [literal] is the lemma that writes a Sample
    as the literal of its items, [lookup] the one that reads a literal
    like an association list. *)
Ltac sample_cases literal w host :=
  cbv zeta; rewrite !literal;
  unfold Keys.sample_items, Monitor.Dict.hls_items, Monitor.Dict.system_items,
    Monitor.Dict.attribution_items, Monitor.Dict.encoder_items,
    Monitor.Dict.gpu_info_items;
  destruct (Monitor.get_gpu_info (Monitor.gpu_query w)) as [g|];
  destruct host as [h|];
  destruct (Monitor.avg_segments_per_playlist
              (Monitor.get_hls_output_stats (Monitor.output_tree w))) as [a|];
  cbn [from_option app].

Ltac dict_lookup lookup :=
  rewrite ?lookup;
  cbv [List.find fst snd String.eqb Ascii.eqb Bool.eqb];
  cbn [fmap option_fmap option_map compose].

(** Every comparison of two rationals in the goal, by cases, with the
    order it stands for; then linear arithmetic. *)
Ltac order_cases :=
  repeat match goal with
         | |- context [Qle_bool ?x ?y] =>
             let E := fresh "E" in
             destruct (Qle_bool x y) eqn:E;
             [apply Qle_bool_iff in E
             |apply not_true_iff_false in E; rewrite Qle_bool_iff in E;
              apply Qnot_le_lt in E]
         end;
  first [lia | exfalso; lra].

(** ** Further concrete inputs *)

Module Cases.

Import Monitor Monitor.Dict.

(** The answer of a machine with one GPU under load, and of one with
    two. *)
Definition busy_response : string :=
  "2025/01/15 10:30:01.123, NVIDIA GeForce RTX 4090, 24564, 6141, 18423, 87, 35, 71, 310.50, 2520, 10501".

Definition two_gpu_response : string :=
  busy_response
  +:+ String "010"
        "2025/01/15 10:30:01.125, NVIDIA GeForce RTX 3060, 12288, 10, 12278, 0, 0, 40, 20.10, 210, 405".

(** Two compute applications, the memory of the second unknown. *)
Definition compute_response : string :=
  "4100, ffmpeg, 512" +:+ String "010" "5678, python, [N/A]".

Definition encoder_process (pid : Z) (inputs : list string) : os_process :=
  {| info_pid := pid;
     info_name := "ffmpeg";
     info_cmdline := ("ffmpeg" :: inputs ++ ["-c:v"; "h264_nvenc"; "out.m3u8"])%list;
     info_rss := Some 104857600;
     info_create_time := Some 1%Q;
     cpu_percent_now := 12%Q;
     gone := false |}.

(** A tick at which the driver answers and two encoder processes run,
    over an output tree with three playlists that are not empty. *)
Definition busy_world : tick_world :=
  {| gpu_query := Completed 0 busy_response;
     encoder_query := Completed 0 "2, 30.0, 4.5";
     process_table :=
       [encoder_process 4177 ["-i"; "a"; "-i"; "b"];
        encoder_process 4100 ["-i"; "c"]];
     output_tree := Some Examples.three_of_four;
     work := (3 # 10)%Q;
     stop_signal := false |}.

Definition host_snapshot : host_readings :=
  {| host_cpu_percent := 25%Q;
     host_cpu_count := Some 16;
     host_cpu_per_core := [20%Q; 30%Q];
     host_memory_total := 68719476736;
     host_memory_used := 28185722880;
     host_memory_available := 40533753856;
     host_memory_percent := 41%Q;
     host_loadavg := Some (1%Q, 1%Q, 1%Q) |}.

(** The first tick of a run started before the driver answers and
    before the output directory exists, and a later tick. *)
Definition early_tick : tick_input :=
  {| iso_time := "2025-01-15T10:30:00.000001";
     at_clock := 0%Q;
     world := Examples.quiet_tick (1 # 10) false;
     compute_query := RunRaises;
     host := Some host_snapshot |}.

Definition busy_tick : tick_input :=
  {| iso_time := "2025-01-15T10:30:01.100001";
     at_clock := (11 # 10)%Q;
     world := busy_world;
     compute_query := Completed 0 "4100, ffmpeg, 512";
     host := Some host_snapshot |}.

Definition log_of (mtime : Q) : Analyzer.log_file :=
  {| Analyzer.content := ""; Analyzer.log_bytes := 0; Analyzer.st_mtime := mtime |}.

(** A logs directory with the CSV of two runs and the CSV of another
    monitor, which is the newest. *)
Definition three_csv_files : list (string * Analyzer.log_file) :=
  [("concurrent_monitor_20250115_103000.csv", log_of 100);
   ("gpu_monitor.csv", log_of 300);
   ("concurrent_monitor_20250115_113000.csv", log_of 200);
   ("test_summary.txt", log_of 400)].

(** An output tree in which every stream of both engines has a
    playlist that is not empty. *)
Definition all_delivered : node :=
  Dir 4096
    [("nvenc1", Dir 4096 [("stream1", Examples.stream 120);
                          ("stream2", Examples.stream 120)]);
     ("nvenc2", Dir 4096 [("stream1", Examples.stream 120)])].

End Cases.

(** * Properties *)

(** ** Attribution of streams to the two engines *)

Section Attribution.

Import Monitor Notions.

Implicit Types (p q : process_info) (l : list process_info).

Lemma insert_by_pid_perm p l : insert_by_pid p l ≡ₚ p :: l.
Proof.
  induction l as [|q r IH]; simpl; [done|].
  destruct (pid p <=? pid q); [done|].
  rewrite IH. apply Permutation_swap.
Qed.

(** [sorted] rearranges its argument. *)
Lemma sorted_perm l : sorted l ≡ₚ l.
Proof.
  induction l as [|p r IH]; simpl; [done|].
  by rewrite insert_by_pid_perm, IH.
Qed.

Lemma insert_by_pid_sorted p l :
  StronglySorted pid_le l -> StronglySorted pid_le (insert_by_pid p l).
Proof.
  induction 1 as [|q r Hr IH Hq]; simpl.
  - repeat constructor.
  - destruct (Z.leb_spec (pid p) (pid q)) as [Hle|Hlt].
    + constructor; [by constructor|].
      constructor; [exact Hle|].
      eapply Forall_impl; [exact Hq|].
      unfold pid_le. intros x Hx. lia.
    + constructor; [exact IH|].
      rewrite insert_by_pid_perm. constructor; [|exact Hq].
      unfold pid_le. lia.
Qed.

(** [sorted] puts the processes in ascending order of pid. *)
Lemma sorted_ascending l : StronglySorted pid_le (sorted l).
Proof.
  induction l as [|p r IH]; simpl; [constructor|].
  by apply insert_by_pid_sorted.
Qed.

Lemma sum_streams_perm l l' : l ≡ₚ l' -> sum_streams l = sum_streams l'.
Proof.
  unfold sum_streams.
  induction 1 as [|x l1 l2 _ IH|x y l1|l1 l2 l3 _ IH1 _ IH2]; simpl; lia.
Qed.

Lemma sum_streams_sorted l : sum_streams (sorted l) = sum_streams l.
Proof. apply sum_streams_perm, sorted_perm. Qed.

Lemma sum_streams_nonneg l :
  Forall (fun p => 0 <= input_streams p) l -> 0 <= sum_streams l.
Proof. unfold sum_streams. induction 1; simpl; lia. Qed.

(** The total is the sum over the list as given, whatever its length. *)
Lemma total_is_sum l :
  total_concurrent_streams (detect_nvenc_utilization l) = sum_streams l.
Proof.
  unfold detect_nvenc_utilization.
  destruct l as [|p r]; [done|].
  rewrite <- (sum_streams_sorted (p :: r)).
  by destruct (sorted (p :: r)) as [|a [|b t]].
Qed.

(** The two named loads are the counts of the two lowest pids. *)
Lemma named_loads l a b t :
  sorted l = a :: b :: t ->
  nvenc1_estimated_load (detect_nvenc_utilization l) = input_streams a /\
  nvenc2_estimated_load (detect_nvenc_utilization l) = input_streams b.
Proof.
  intros E. unfold detect_nvenc_utilization.
  destruct l as [|p r]; [done|]. by rewrite E.
Qed.

(** C3.  Attribution of an empty list gives 0, 0 and 0; of one process
    with count [k] gives [k], 0 and [k]; of two processes with pids
    [p1 < p2] gives the count of [p1], the count of [p2] and their
    sum, in whichever order the two are listed. *)
Theorem attribution_zero_one_two :
  detect_nvenc_utilization [] =
    {| nvenc1_estimated_load := 0; nvenc2_estimated_load := 0;
       total_concurrent_streams := 0 |}
  /\ (forall p,
       detect_nvenc_utilization [p] =
         {| nvenc1_estimated_load := input_streams p;
            nvenc2_estimated_load := 0;
            total_concurrent_streams := input_streams p |})
  /\ (forall p1 p2, pid p1 < pid p2 ->
       let expected :=
         {| nvenc1_estimated_load := input_streams p1;
            nvenc2_estimated_load := input_streams p2;
            total_concurrent_streams := input_streams p1 + input_streams p2 |} in
       detect_nvenc_utilization [p1; p2] = expected /\
       detect_nvenc_utilization [p2; p1] = expected).
Proof.
  split; [reflexivity|]. split.
  - intros p. unfold detect_nvenc_utilization. simpl. f_equal. lia.
  - intros p1 p2 Hlt. unfold detect_nvenc_utilization. simpl.
    destruct (Z.leb_spec (pid p1) (pid p2)); [|lia].
    destruct (Z.leb_spec (pid p2) (pid p1)); [lia|].
    simpl. split; f_equal; lia.
Qed.

(** The total and the two named loads of a list of counts. *)
Lemma total_and_named_loads l :
  Forall (fun p => 0 <= input_streams p) l ->
  total_concurrent_streams (detect_nvenc_utilization l) = sum_streams l /\
  nvenc1_estimated_load (detect_nvenc_utilization l)
  + nvenc2_estimated_load (detect_nvenc_utilization l)
  <= total_concurrent_streams (detect_nvenc_utilization l).
Proof.
  intros Hnn. split; [apply total_is_sum|].
  rewrite total_is_sum.
  assert (Hs : Forall (fun p => 0 <= input_streams p) (sorted l)).
  { by rewrite sorted_perm. }
  rewrite <- sum_streams_sorted.
  unfold detect_nvenc_utilization.
  destruct l as [|p r]; [simpl; lia|].
  destruct (sorted (p :: r)) as [|x [|y t]] eqn:E; unfold sum_streams; simpl.
  - lia.
  - lia.
  - inversion Hs as [|? ? _ Hs']; subst. inversion Hs' as [|? ? _ Ht]; subst.
    apply sum_streams_nonneg in Ht. unfold sum_streams in Ht. lia.
Qed.

(** C4.  For a list of any length the total is the sum of the counts of
    all its processes, and, the counts being counts, the two named
    loads together do not exceed it. *)
Theorem attribution_total_is_sum l :
  Forall (fun p => 0 <= input_streams p) l ->
  let a := detect_nvenc_utilization l in
  total_concurrent_streams a = sum_streams l /\
  nvenc1_estimated_load a + nvenc2_estimated_load a <= total_concurrent_streams a.
Proof. intros Hnn a. by apply total_and_named_loads. Qed.




End Attribution.

(** ** Strings *)

Section Strings.

Import Analyzer Spec.

Implicit Types (s t u : string) (c : ascii) (p : ascii -> bool).

Lemma append_nil_l s : "" +:+ s = s.
Proof. reflexivity. Qed.

Lemma append_cons c s t : String c s +:+ t = String c (s +:+ t).
Proof. reflexivity. Qed.

Lemma append_assoc s t u : (s +:+ t) +:+ u = s +:+ (t +:+ u).
Proof.
  induction s as [|c s IH]; [done|]. rewrite !append_cons. by rewrite IH.
Qed.

Lemma append_nil_r s : s +:+ "" = s.
Proof.
  induction s as [|c s IH]; [done|]. rewrite append_cons. by rewrite IH.
Qed.

Lemma append_length s t :
  String.length (s +:+ t) = (String.length s + String.length t)%nat.
Proof.
  induction s as [|c s IH]; [done|]. rewrite append_cons. simpl. by rewrite IH.
Qed.

Lemma append_inv_head s t u : s +:+ t = s +:+ u -> t = u.
Proof. apply String.app_inj. Qed.

Lemma startswith_spec u s :
  PyStr.startswith u s = true <-> exists r, s = u +:+ r.
Proof.
  revert s. induction u as [|a u IH]; intros s; simpl.
  - split; [eauto|done].
  - destruct s as [|b s]; [split; [done|by intros [r [=]]]|].
    rewrite andb_true_iff, IH. split.
    + intros [Hab [r ->]]. apply Ascii.eqb_eq in Hab as ->. by exists r.
    + intros [r Hr]. rewrite append_cons in Hr. injection Hr as -> ->.
      split; [apply Ascii.eqb_refl|eauto].
Qed.

Lemma slice_from_append u s : slice_from (String.length u) (u +:+ s) = s.
Proof. induction u as [|a u IH]; [done|]. rewrite append_cons. by simpl. Qed.

Lemma slice_from_nil n : slice_from n "" = "".
Proof. by destruct n. Qed.

Lemma slice_from_add n m s : slice_from (n + m) s = slice_from m (slice_from n s).
Proof.
  revert s. induction n as [|n IH]; intros s; simpl; [done|].
  destruct s as [|c s]; [by rewrite slice_from_nil|]. apply IH.
Qed.

Lemma slice_from_length n s : (String.length (slice_from n s) <= String.length s)%nat.
Proof.
  revert s. induction n as [|n IH]; intros s; simpl; [lia|].
  destruct s as [|c s]; simpl; [lia|]. specialize (IH s). lia.
Qed.

(** A text is the run [take_while] returns followed by a rest that
    does not go on with the run. *)
Lemma take_while_split p s :
  s = take_while p s +:+ slice_from (String.length (take_while p s)) s
  /\ all_chars p (take_while p s) = true
  /\ begins_with p (slice_from (String.length (take_while p s)) s) = false.
Proof.
  induction s as [|c s (IH1 & IH2 & IH3)]; simpl; [done|].
  destruct (p c) eqn:Hc; simpl; [|by rewrite Hc].
  rewrite Hc, IH2, append_cons. by rewrite <- IH1.
Qed.

Lemma take_while_append p u s :
  all_chars p u = true -> begins_with p s = false ->
  take_while p (u +:+ s) = u.
Proof.
  intros Hu Hs. induction u as [|a u IH]; simpl in *.
  - destruct s as [|b s]; simpl in *; [done|]. by rewrite Hs.
  - apply andb_true_iff in Hu as [Ha Hu]. rewrite ?append_cons. simpl.
    by rewrite Ha, IH.
Qed.

Lemma digit_not_space c : PyStr.is_digit c = true -> PyStr.is_space c = false.
Proof. by destruct c as [[] [] [] [] [] [] [] []]. Qed.

Lemma digit_not_sign c : PyStr.is_digit c = true -> c <> "-"%char /\ c <> "+"%char.
Proof. by destruct c as [[] [] [] [] [] [] [] []]. Qed.

Lemma digit_value_range c : PyStr.is_digit c = true -> 0 <= PyStr.digit_value c <= 9.
Proof. destruct c as [[] [] [] [] [] [] [] []]; try done; by vm_compute. Qed.

Lemma rstrip_digits s : all_chars PyStr.is_digit s = true -> PyStr.rstrip s = s.
Proof.
  induction s as [|c s IH]; simpl; [done|].
  intros [Hc Hs]%andb_true_iff. rewrite (IH Hs).
  destruct s; [|done]. by rewrite (digit_not_space c Hc).
Qed.

Lemma strip_digits s : all_chars PyStr.is_digit s = true -> PyStr.strip s = s.
Proof.
  intros Hs. unfold PyStr.strip.
  destruct s as [|c s]; [done|]. simpl in *.
  apply andb_true_iff in Hs as [Hc Hs].
  rewrite (digit_not_space c Hc).
  change (PyStr.rstrip (String c s) = String c s).
  apply rstrip_digits. simpl. by rewrite Hc, Hs.
Qed.

Lemma digits_all acc s :
  all_chars PyStr.is_digit s = true -> 0 <= acc ->
  exists v, PyStr.digits acc s = Some v /\ 0 <= v.
Proof.
  revert acc. induction s as [|c s IH]; intros acc; simpl; [eauto|].
  intros [Hc Hs]%andb_true_iff Hacc. rewrite Hc.
  apply IH; [done|]. pose proof (digit_value_range c Hc). lia.
Qed.

Lemma leading_digits_all s :
  all_chars PyStr.is_digit s = true ->
  PyStr.leading_digits s = Z.of_nat (String.length s).
Proof.
  induction s as [|c s IH]; [done|]. cbn [all_chars PyStr.leading_digits String.length].
  intros [Hc Hs]%andb_true_iff. rewrite Hc, (IH Hs). lia.
Qed.

Lemma sign_digits s :
  all_chars PyStr.is_digit s = true -> PyStr.sign s = (1, s).
Proof.
  destruct s as [|c s]; [done|]. cbn [all_chars]. intros [Hc _]%andb_true_iff.
  unfold PyStr.sign. by destruct c as [[] [] [] [] [] [] [] []].
Qed.

(** [int] of a non-empty run of digits within the limit is the number
    they denote, and not negative. *)
Lemma int_of_digits s :
  all_chars PyStr.is_digit s = true -> s <> "" ->
  Z.of_nat (String.length s) <= PyStr.int_max_str_digits ->
  exists v, PyStr.int s = Some v /\ PyStr.digits 0 s = Some v /\ 0 <= v.
Proof.
  intros Hs Hne Hlen. unfold PyStr.int.
  rewrite (strip_digits s Hs), (sign_digits s Hs), (leading_digits_all s Hs).
  destruct s as [|c s]; [done|].
  destruct (Z.ltb_spec PyStr.int_max_str_digits (Z.of_nat (String.length (String c s))));
    [lia|].
  destruct (digits_all 0 (String c s) Hs ltac:(lia)) as (v & Hv & Hv0).
  rewrite Hv. cbn [mbind option_bind]. exists v.
  split_and!; [f_equal; lia|done..].
Qed.

(** [int] of a run of digits beyond the limit raises. *)
Lemma int_of_long_digits s :
  all_chars PyStr.is_digit s = true ->
  PyStr.int_max_str_digits < Z.of_nat (String.length s) ->
  PyStr.int s = None.
Proof.
  intros Hs Hlen. unfold PyStr.int.
  rewrite (strip_digits s Hs), (sign_digits s Hs), (leading_digits_all s Hs).
  destruct s as [|c s]; [done|].
  by destruct (Z.ltb_spec PyStr.int_max_str_digits (Z.of_nat (String.length (String c s))));
    [|lia].
Qed.

End Strings.

(** ** Dropped frames *)

Section DroppedFrames.

Import Analyzer Spec Notions.

Implicit Types (s t u g : string) (c : ascii).

Lemma all_chars_impl (p q : ascii -> bool) s :
  (forall c, p c = true -> q c = true) ->
  all_chars p s = true -> all_chars q s = true.
Proof.
  intros Hpq. induction s as [|c s IH]; simpl; [done|].
  intros [Hc Hs]%andb_true_iff. by rewrite (Hpq c Hc), IH.
Qed.

Lemma all_chars_append p s t :
  all_chars p (s +:+ t) = all_chars p s && all_chars p t.
Proof.
  induction s as [|c s IH]; [done|].
  rewrite append_cons. simpl. by rewrite IH, andb_assoc.
Qed.

Lemma space_not_d c : PyStr.is_space c = true -> not_d c = true.
Proof. by destruct c as [[] [] [] [] [] [] [] []]. Qed.

Lemma digit_not_d c : PyStr.is_digit c = true -> not_d c = true.
Proof. by destruct c as [[] [] [] [] [] [] [] []]. Qed.

(** An attempt succeeds only on a text that begins with [d]. *)
Lemma match_drop_not_d s : begins_with not_d s = true -> match_drop s = None.
Proof.
  destruct s as [|c s]; [done|]. unfold begins_with, not_d, match_drop.
  intros Hc.
  destruct (PyStr.startswith "drop=" (String c s)) eqn:Hp; [|done].
  apply startswith_spec in Hp as [r Hr].
  change ("drop=" +:+ r) with (String "d" ("rop=" +:+ r)) in Hr.
  injection Hr as -> _. done.
Qed.

Lemma begins_with_slice p u t j :
  all_chars p u = true -> (j < String.length u)%nat ->
  begins_with p (slice_from j (u +:+ t)) = true.
Proof.
  revert j. induction u as [|a u IH]; intros j; simpl; [lia|].
  intros [Ha Hu]%andb_true_iff Hj. rewrite append_cons.
  destruct j as [|j]; simpl; [done|]. apply IH; [done|lia].
Qed.

(** What a successful attempt has matched. *)
Lemma match_drop_inv s g n :
  match_drop s = Some (g, n) ->
  exists ws rest,
    s = "drop=" +:+ ws +:+ g +:+ rest
    /\ all_chars PyStr.is_space ws = true
    /\ all_chars PyStr.is_digit g = true
    /\ g <> ""
    /\ begins_with PyStr.is_digit rest = false
    /\ n = (5 + String.length ws + String.length g)%nat.
Proof.
  unfold match_drop.
  destruct (PyStr.startswith "drop=" s) eqn:Hp; [|done].
  apply startswith_spec in Hp as [r ->].
  rewrite slice_from_add.
  change (slice_from 5 ("drop=" +:+ r)) with r.
  destruct (take_while_split PyStr.is_space r) as (Hr & Hws & _).
  set (ws := take_while PyStr.is_space r) in *.
  set (r1 := slice_from (String.length ws) r) in *.
  destruct (take_while_split PyStr.is_digit r1) as (Hr1 & Hds & Hrest).
  set (ds := take_while PyStr.is_digit r1) in *.
  destruct ds as [|d ds'] eqn:Eds; [done|].
  intros [= <- <-]. exists ws, (slice_from (String.length (String d ds')) r1).
  split_and!; try done.
  by rewrite <- Hr1, <- Hr.
Qed.

Lemma drop_marker_match s g :
  drop_marker s g -> exists n, match_drop s = Some (g, n).
Proof.
  intros (ws & rest & -> & Hws & Hg & Hne & Hrest).
  unfold match_drop.
  assert (Hp : PyStr.startswith "drop=" ("drop=" +:+ ws +:+ g +:+ rest) = true).
  { apply startswith_spec. eauto. }
  rewrite Hp, slice_from_add.
  change (slice_from 5 ("drop=" +:+ ws +:+ g +:+ rest)) with (ws +:+ g +:+ rest).
  assert (Hg1 : begins_with PyStr.is_space (g +:+ rest) = false).
  { destruct g as [|c g]; [done|]. rewrite append_cons. simpl in *.
    apply andb_true_iff in Hg as [Hc _]. by apply digit_not_space. }
  rewrite (take_while_append _ ws _ Hws Hg1), slice_from_append.
  rewrite (take_while_append _ g _ Hg Hrest).
  destruct g; [done|]. eauto.
Qed.

(** The word and the white space and digits of a marker hold no second
    marker: no attempt succeeds inside a match. *)
Lemma match_drop_no_overlap s g n k :
  match_drop s = Some (g, n) -> (1 <= k < n)%nat ->
  match_drop (slice_from k s) = None.
Proof.
  intros (ws & rest & -> & Hws & Hg & _ & _ & ->)%match_drop_inv Hk.
  apply match_drop_not_d.
  destruct k as [|k]; [lia|].
  change (slice_from (S k) ("drop=" +:+ ws +:+ g +:+ rest))
    with (slice_from k ("rop=" +:+ ws +:+ g +:+ rest)).
  replace ("rop=" +:+ ws +:+ g +:+ rest) with (("rop=" +:+ ws +:+ g) +:+ rest)
    by by rewrite !append_assoc.
  apply begins_with_slice.
  - rewrite !all_chars_append.
    rewrite (all_chars_impl _ _ ws space_not_d Hws).
    by rewrite (all_chars_impl _ _ g digit_not_d Hg).
  - rewrite !append_length. simpl. lia.
Qed.

Lemma at_all_positions_skip attempt m t :
  (forall j, (j < m)%nat -> attempt (slice_from j t) = None) ->
  at_all_positions attempt t = at_all_positions attempt (slice_from m t).
Proof.
  revert t. induction m as [|m IH]; intros t H; [done|].
  destruct t as [|a t]; [done|]. simpl.
  pose proof (H 0%nat ltac:(lia)) as H0. simpl in H0. rewrite H0. apply IH.
  intros j Hj. apply (H (S j)). lia.
Qed.

(** When no attempt succeeds inside a match, the scan finds what is
    there to find at every position. *)
Lemma findall_at_all_positions attempt s :
  (forall s g n k, attempt s = Some (g, n) -> (1 <= k < n)%nat ->
                   attempt (slice_from k s) = None) ->
  findall attempt s = at_all_positions attempt s.
Proof.
  intros Hno.
  remember (String.length s) as len eqn:Hlen.
  revert s Hlen. induction len as [len IH] using lt_wf_ind. intros s ->.
  destruct s as [|c t]; [by simp findall|].
  simp findall. simpl.
  destruct (attempt (String c t)) as [[g n]|] eqn:E; simpl.
  - f_equal.
    rewrite (at_all_positions_skip attempt (n - 1) t).
    + eapply IH; [|done].
      pose proof (slice_from_length (n - 1) t). simpl. lia.
    + intros j Hj. apply (Hno (String c t) g n (S j)); [done|lia].
  - eapply IH; [|done]. simpl. lia.
Qed.

Lemma at_all_positions_elem attempt s g :
  g ∈ at_all_positions attempt s <->
  exists pre suf n, s = pre +:+ suf /\ attempt suf = Some (g, n) /\ suf <> "".
Proof.
  induction s as [|c t IH]; simpl.
  - split; [by intros ?%elem_of_nil|].
    intros (pre & suf & n & H & _ & Hne).
    destruct pre; [by rewrite append_nil_l in H|by rewrite append_cons in H].
  - split.
    + intros H.
      assert (Ht : g ∈ at_all_positions attempt t ->
                   exists pre suf n, String c t = pre +:+ suf
                                     /\ attempt suf = Some (g, n) /\ suf <> "").
      { intros (pre & suf & n & -> & Hm & Hne)%IH.
        exists (String c pre), suf, n. by rewrite append_cons. }
      destruct (attempt (String c t)) as [[g' n]|] eqn:E; [|by auto].
      apply elem_of_cons in H as [->|H]; [|by auto].
      exists "", (String c t), n. by rewrite append_nil_l.
    + intros (pre & suf & n & H & Hm & Hne).
      destruct pre as [|a pre].
      * rewrite append_nil_l in H. subst suf. rewrite Hm. apply elem_of_cons. by left.
      * rewrite append_cons in H. injection H as -> ->.
        assert (g ∈ at_all_positions attempt (pre +:+ suf)).
        { apply IH. eauto 6. }
        destruct (attempt (String a (pre +:+ suf))) as [[? ?]|];
          [apply elem_of_cons; by right|done].
Qed.

Lemma py_max_spec x r :
  (py_max x r = x \/ py_max x r ∈ r)
  /\ x <= py_max x r
  /\ (forall y, y ∈ r -> y <= py_max x r).
Proof.
  unfold py_max. revert x. induction r as [|a r IH]; intros x; simpl.
  - split_and!; [by left|lia|by intros y ?%elem_of_nil].
  - destruct (IH (Z.max x a)) as (Hin & Hle & Hall). split_and!.
    + destruct Hin as [Hin|Hin]; [|right; apply elem_of_cons; by right].
      rewrite Hin. destruct (Z.max_spec x a) as [[_ ->]|[_ ->]]; [|by left].
      right. apply elem_of_cons. by left.
    + lia.
    + intros y [->|Hy]%elem_of_cons; [lia|by apply Hall].
Qed.

(** A comprehension converts every element, or raises where the
    first conversion raises. *)
Lemma convert_all_returns {A} (conv : string -> string + A) l vs :
  convert_all conv l = inr vs -> Forall2 (fun g v => conv g = inr v) l vs.
Proof.
  revert vs. induction l as [|g l IH]; intros vs; cbn [convert_all].
  - intros [= <-]. constructor.
  - destruct (conv g) as [e|x] eqn:E; [done|].
    destruct (convert_all conv l) as [e|xs]; [done|].
    intros [= <-]. constructor; [done|]. by apply IH.
Qed.

Lemma convert_all_raises {A} (conv : string -> string + A) l :
  (exists e, convert_all conv l = inl e)
  <-> exists g e, g ∈ l /\ conv g = inl e.
Proof.
  induction l as [|g l IH]; cbn [convert_all].
  - split; [by intros [e [=]]|]. by intros (g & e & Hg%elem_of_nil & _).
  - destruct (conv g) as [e|x] eqn:E.
    + split; [|eauto]. intros _. exists g, e. split; [apply elem_of_cons; by left|done].
    + destruct (convert_all conv l) as [e|xs].
      * split; [|eauto]. intros _.
        destruct (proj1 IH) as (g' & e' & Hg' & He'); [eauto|].
        exists g', e'. split; [apply elem_of_cons; by right|done].
      * split; [by intros [e [=]]|].
        intros (g' & e' & Hg' & He').
        apply elem_of_cons in Hg' as [->|Hg']; [congruence|].
        destruct (proj2 IH) as [e [=]]. eauto.
Qed.

(** [max(int(x) for x in matches)] as the comprehension it reads. *)
Lemma count_dropped_frames_unfold log :
  _count_dropped_frames log
  = match convert_all int_of (findall match_drop log) with
    | inl e => inl e
    | inr [] => inr 0
    | inr (x :: r) => inr (py_max x r)
    end.
Proof.
  unfold _count_dropped_frames.
  destruct (findall match_drop log) as [|g gs]; [done|]. cbn [convert_all].
  destruct (int_of g) as [e|x]; [done|]. by destruct (convert_all int_of gs).
Qed.

Lemma Forall2_elem_l {A B} (P : A -> B -> Prop) l k x :
  Forall2 P l k -> x ∈ l -> exists y, y ∈ k /\ P x y.
Proof.
  induction 1 as [|a b l k Hab _ IH]; [by intros ?%elem_of_nil|].
  intros [->|Hx]%elem_of_cons.
  - exists b. split; [apply elem_of_cons; by left|done].
  - destruct (IH Hx) as (y & Hy & HP). exists y.
    split; [apply elem_of_cons; by right|done].
Qed.

Lemma Forall2_elem_r {A B} (P : A -> B -> Prop) l k y :
  Forall2 P l k -> y ∈ k -> exists x, x ∈ l /\ P x y.
Proof.
  induction 1 as [|a b l k Hab _ IH]; [by intros ?%elem_of_nil|].
  intros [->|Hy]%elem_of_cons.
  - exists a. split; [apply elem_of_cons; by left|done].
  - destruct (IH Hy) as (x & Hx & HP). exists x.
    split; [apply elem_of_cons; by right|done].
Qed.

(** The groups the scan returns are the integers of the markers of the
    text, wherever they stand. *)
Lemma findall_drop_markers log g :
  g ∈ findall match_drop log <-> drop_digits_in log g.
Proof.
  rewrite (findall_at_all_positions match_drop log match_drop_no_overlap).
  rewrite at_all_positions_elem. split.
  - intros (pre & suf & n & -> & Hm & _).
    apply match_drop_inv in Hm as (ws & rest & H & ? & ? & ? & ? & _).
    exists pre, suf. split; [done|]. by exists ws, rest.
  - intros (pre & suf & -> & Hm).
    destruct (drop_marker_match suf g Hm) as [n Hn].
    exists pre, suf, n. split_and!; [done..|].
    by destruct Hm as (ws & rest & -> & _).
Qed.

(** The integer of a marker is no longer than the text. *)
Lemma drop_digits_length log g :
  drop_digits_in log g -> (String.length g <= String.length log)%nat.
Proof.
  intros (pre & suf & -> & ws & rest & -> & _). rewrite !append_length. lia.
Qed.

(** [int] on the integer of a marker: the number its digits denote
    when they are within the limit, an exception when they are not. *)
Lemma int_of_drop_digits log g :
  drop_digits_in log g ->
  if Z.of_nat (String.length g) <=? PyStr.int_max_str_digits
  then exists v, int_of g = inr v /\ PyStr.digits 0 g = Some v /\ 0 <= v
  else exists e, int_of g = inl e.
Proof.
  intros (pre & suf & _ & ws & rest & _ & _ & Hg & Hne & _). unfold int_of.
  destruct (Z.leb_spec (Z.of_nat (String.length g)) PyStr.int_max_str_digits) as [Hle|Hlt].
  - destruct (int_of_digits g Hg Hne Hle) as (v & -> & Hv & Hv0). eauto.
  - rewrite (int_of_long_digits g Hg Hlt).
    destruct (PyStr.int_max_str_digits <? _); eauto.
Qed.

(** The count raises exactly on a marker beyond the limit. *)
Lemma count_dropped_frames_raises log :
  (exists e, _count_dropped_frames log = inl e)
  <-> exists g, drop_digits_in log g
                /\ PyStr.int_max_str_digits < Z.of_nat (String.length g).
Proof.
  rewrite count_dropped_frames_unfold.
  pose proof (convert_all_raises int_of (findall match_drop log)) as Hr.
  split.
  - intros [e He].
    destruct (convert_all int_of (findall match_drop log)) as [e'|vs];
      [|by destruct vs].
    destruct (proj1 Hr) as (g & e'' & Hg%findall_drop_markers & Hge); [eauto|].
    exists g. split; [done|].
    pose proof (int_of_drop_digits log g Hg) as Hint.
    destruct (Z.leb_spec (Z.of_nat (String.length g)) PyStr.int_max_str_digits); [|done].
    destruct Hint as (v & Hv & _). congruence.
  - intros (g & Hg & Hlen).
    pose proof (int_of_drop_digits log g Hg) as Hint.
    destruct (Z.leb_spec (Z.of_nat (String.length g)) PyStr.int_max_str_digits); [lia|].
    destruct Hint as [e He].
    destruct (proj2 Hr) as [e' ->]; [|eauto].
    exists g, e. split; [by apply findall_drop_markers|done].
Qed.

(** C8.  On a log text whose "drop=<int>" markers all have at most
    4300 digits, dropped-frame extraction returns the maximum of the
    integers of the markers that occur in it, and 0 when there is
    none; with markers 3, 11 and 7 it returns 11, not their sum and
    not the last.  On a log text with a marker of more digits it
    raises, whatever the other markers hold. *)
Theorem dropped_frames_is_maximum :
  (forall log,
      (forall g, drop_digits_in log g ->
                 Z.of_nat (String.length g) <= PyStr.int_max_str_digits) ->
      exists n,
        _count_dropped_frames log = inr n
        /\ (forall m, drop_marker_in log m -> m <= n)
        /\ ((exists m, drop_marker_in log m) -> drop_marker_in log n)
        /\ ((forall m, ~ drop_marker_in log m) -> n = 0))
  /\ (forall log g,
        drop_digits_in log g ->
        PyStr.int_max_str_digits < Z.of_nat (String.length g) ->
        exists e, _count_dropped_frames log = inl e)
  /\ _count_dropped_frames
       "frame= 120 fps=30 drop=3 speed=1.0x frame= 240 fps=30 drop=11 speed=1.0x frame= 360 drop=7"
     = inr 11
  /\ _count_dropped_frames "frame= 120 fps=30 q=23.0 speed=1.01x" = inr 0.
Proof.
  split; [|split; [|split; reflexivity]].
  - intros log Hshort. rewrite count_dropped_frames_unfold.
    assert (Hint : forall g, g ∈ findall match_drop log ->
                             exists v, int_of g = inr v /\ PyStr.digits 0 g = Some v).
    { intros g Hg%findall_drop_markers.
      pose proof (int_of_drop_digits log g Hg) as Hint.
      destruct (Z.leb_spec (Z.of_nat (String.length g)) PyStr.int_max_str_digits) as [_|Hlt].
      - destruct Hint as (v & ? & ? & _). eauto.
      - specialize (Hshort g Hg). lia. }
    assert (Hin : forall m, drop_marker_in log m <->
                            exists g, g ∈ findall match_drop log /\ int_of g = inr m).
    { intros m. split.
      - intros (g & Hg%findall_drop_markers & Hv). exists g. split; [done|].
        destruct (Hint g Hg) as (v & Hv1 & Hv2). congruence.
      - intros (g & Hg & Hv). exists g. split; [by apply findall_drop_markers|].
        destruct (Hint g Hg) as (v & Hv1 & Hv2). congruence. }
    destruct (convert_all int_of (findall match_drop log)) as [e|vs] eqn:Hvs.
    { destruct (proj1 (convert_all_raises int_of (findall match_drop log)))
        as (g & e' & Hg & He); [eauto|].
      destruct (Hint g Hg) as (v & Hv & _). congruence. }
    apply convert_all_returns in Hvs.
    destruct vs as [|x r].
    + apply Forall2_nil_inv_r in Hvs. exists 0. split_and!; [done| | |done].
      * intros m (g & Hg & _)%Hin. rewrite Hvs in Hg. by apply elem_of_nil in Hg.
      * intros (m & (g & Hg & _)%Hin). rewrite Hvs in Hg. by apply elem_of_nil in Hg.
    + destruct (py_max_spec x r) as (Hmax & Hxle & Hrle).
      assert (Hall : forall y, y ∈ x :: r -> y <= py_max x r).
      { intros y [->|Hy]%elem_of_cons; [done|by apply Hrle]. }
      assert (Hmem : py_max x r ∈ x :: r).
      { destruct Hmax as [->|Hmax]; apply elem_of_cons; [by left|by right]. }
      exists (py_max x r). split_and!; [done| | |].
      * intros m (g & Hg & Hv)%Hin.
        destruct (Forall2_elem_l _ _ _ _ Hvs Hg) as (y & Hy & Hgy).
        assert (m = y) as -> by congruence. by apply Hall.
      * intros _. apply Hin.
        destruct (Forall2_elem_r _ _ _ _ Hvs Hmem) as (g & Hg & Hv). eauto.
      * intros Hnone. exfalso. apply (Hnone x), Hin.
        destruct (Forall2_elem_r _ _ _ x Hvs) as (g & Hg & Hv); [|eauto].
        apply elem_of_cons. by left.
  - intros log g Hg Hlen. apply count_dropped_frames_raises. eauto.
Qed.

End DroppedFrames.

(** ** Output quality *)

Section OutputQuality.

Import Analyzer Notions.

Lemma visit_stream_counted acc e c :
  visit_stream acc e = Some c -> counted acc -> counted c.
Proof.
  unfold visit_stream, counted. destruct e as [name stream_dir].
  destruct (Tree.is_dir stream_dir) as [d|]; cbn -[PyStr.startswith]; [|done].
  destruct (d && PyStr.startswith "stream" name); [|by intros [= <-]].
  destruct (Tree.child "playlist.m3u8" stream_dir) as [pl|].
  - destruct (Tree.size pl) as [sz|]; simpl; [|done].
    destruct (0 <? sz).
    + destruct (Tree.files_size _); simpl; [|done].
      intros [= <-]. simpl. lia.
    + intros [= <-]. simpl. lia.
  - intros [= <-]. simpl. lia.
Qed.

Lemma visit_streams_counted entries acc c :
  visit_streams acc entries = Some c -> counted acc -> counted c.
Proof.
  revert acc. induction entries as [|e r IH]; intros acc; simpl.
  - by intros [= <-].
  - destruct (visit_stream acc e) as [acc'|] eqn:E; simpl; [|done].
    intros H Hacc. eapply IH; [done|]. by eapply visit_stream_counted.
Qed.

Lemma scan_engine_counted output name c :
  scan_engine output name = Some c -> counted c.
Proof.
  unfold scan_engine.
  assert (counted no_streams) by (unfold counted; simpl; lia).
  destruct output as [[sz|sz es|]|]; try done.
  - destruct (Tree.child name (File sz)) as [[]|]; try done.
    + intros H'. by eapply visit_streams_counted.
    + by intros [= <-].
  - destruct (Tree.child name (Dir sz es)) as [[]|]; try done.
    + intros H'. by eapply visit_streams_counted.
    + by intros [= <-].
  - by intros [= <-].
Qed.

Lemma with_success_rate_percentage c :
  counted c -> rate_is_percentage (with_success_rate c).
Proof.
  intros [Hs Hf]. unfold rate_is_percentage, with_success_rate. simpl.
  split_and!; [done..| |].
  - intros ->. done.
  - intros Hne. destruct (Z.ltb_spec 0 (successful c + failed c)); [done|lia].
Qed.

(** C7.  Whenever the output-quality analysis returns, the success rate
    of each engine is successful/(successful+failed) as a percentage,
    and it is 0 when the engine has neither a successful nor a failed
    stream; 3 successful and 1 failed give 75. *)
Theorem success_rate_is_percentage output q :
  analyze_output_quality output = Some q ->
  rate_is_percentage (nvenc1 q) /\ rate_is_percentage (nvenc2 q)
  /\ success_rate (with_success_rate {| successful := 0; failed := 0; size_mb := PyInt 0 |})
     = PyInt 0
  /\ exists r,
      success_rate (with_success_rate {| successful := 3; failed := 1; size_mb := PyInt 0 |})
      = PyFloat r /\ (r == 75)%Q.
Proof.
  unfold analyze_output_quality.
  destruct (scan_engine output "nvenc1") as [c1|] eqn:E1; simpl; [|done].
  destruct (scan_engine output "nvenc2") as [c2|] eqn:E2; simpl; [|done].
  intros [= <-]. simpl.
  split_and!.
  - by eapply with_success_rate_percentage, scan_engine_counted.
  - by eapply with_success_rate_percentage, scan_engine_counted.
  - reflexivity.
  - eexists. split; [reflexivity|]. reflexivity.
Qed.

End OutputQuality.

(** ** The output-artifact scan *)

Section HlsScan.

Import Monitor Notions.

Implicit Types (l : list (string * node)) (root : node).






End HlsScan.

(** ** Persistence of an empty run *)

Section EmptyRun.

Import Monitor Notions.

Context (sections : Type) (summarize : list data_point -> sections)
        (csv_text : list data_point -> string)
        (json_item : data_point -> string)
        (json_sections : sections -> string).

Lemma in_dir_suffix_ne output_dir filename a b :
  a <> b -> in_dir output_dir (filename +:+ a) <> in_dir output_dir (filename +:+ b).
Proof.
  unfold in_dir. intros Hne H.
  apply String.app_inj in H.
  change ("/" +:+ filename +:+ a) with (String "/" (filename +:+ a)) in H.
  change ("/" +:+ filename +:+ b) with (String "/" (filename +:+ b)) in H.
  injection H as H. by apply String.app_inj in H.
Qed.

(** C9.  With no Sample collected, saving the CSV and saving the
    analysis return without writing, and saving the JSON writes an
    empty array: after the three, the only file written is the JSON
    one, and the CSV and analysis names hold what they held before. *)
Theorem empty_run_writes_only_json output_dir output_prefix stamp
    (fs : gmap string string) :
  let filename := output_prefix +:+ "_" +:+ stamp in
  let fs' := save_all sections summarize csv_text json_item json_sections
               output_dir output_prefix stamp [] fs in
  save_data_csv csv_text output_dir filename [] fs = fs
  /\ save_analysis sections summarize json_sections output_dir filename [] fs = fs
  /\ save_data_json json_item output_dir filename [] fs
     = <[in_dir output_dir (filename +:+ ".json") := "[]"]> fs
  /\ fs' = <[in_dir output_dir (filename +:+ ".json") := "[]"]> fs
  /\ fs' !! in_dir output_dir (filename +:+ ".csv")
     = fs !! in_dir output_dir (filename +:+ ".csv")
  /\ fs' !! in_dir output_dir (filename +:+ "_analysis.json")
     = fs !! in_dir output_dir (filename +:+ "_analysis.json")
  /\ forall interval duration start_time,
       monitor sections summarize csv_text json_item json_sections
         output_dir output_prefix stamp interval duration start_time [] fs = fs'.
Proof.
  intros filename fs'. subst fs'. unfold save_all. fold filename.
  unfold save_analysis, save_data_json, save_data_csv. simpl.
  split_and!; try done.
  - apply lookup_insert_ne. by apply in_dir_suffix_ne.
  - apply lookup_insert_ne. by apply in_dir_suffix_ne.
Qed.

End EmptyRun.

(** ** Pacing of the sampling loop *)

Section Pacing.

Import Monitor Spec.

Implicit Types (interval start_time clock : Q) (duration : option Z)
               (world : list tick_world).

(** The events of one more tick: the tick starts at the clock, and if
    the loop goes on it has slept [interval] and the next tick starts
    after the work and the sleep. *)
Lemma monitor_loop_events interval duration start_time clock w rest :
  let events := snd (monitor_loop interval duration start_time clock (w :: rest)) in
  events = [TickStart clock]
  \/ events = [TickStart clock; Sleep interval]
  \/ events = TickStart clock :: Sleep interval ::
               snd (monitor_loop interval duration start_time
                      (clock + work w + interval)%Q rest).
Proof.
  simpl.
  destruct (duration_reached _ _ _); [by left|].
  destruct (Qle_bool 0 interval); [|by left].
  destruct (stop_signal w); [right; by left|].
  destruct (monitor_loop _ _ _ _ rest) as [points events] eqn:E.
  by right; right.
Qed.

Lemma monitor_loop_first_tick interval duration start_time clock world t :
  tick_starts (snd (monitor_loop interval duration start_time clock world)) !! 0%nat
    = Some t ->
  t = clock.
Proof.
  destruct world as [|w rest]; [done|].
  destruct (monitor_loop_events interval duration start_time clock w rest)
    as [-> | [-> | ->]]; simpl; by intros [= <-].
Qed.

(** C6, as the loop is written.  Every sleep of a run lasts the whole
    interval, whatever time the collection took, and a tick starts one
    interval after the collection of the tick before it has ended:
    tick starts lie [work + interval] apart. *)
Theorem tick_spacing_is_work_plus_interval interval duration start_time clock world :
  let events := snd (monitor_loop interval duration start_time clock world) in
  Forall (fun s => s = interval) (sleeps events)
  /\ forall i t t' w,
       tick_starts events !! i = Some t ->
       tick_starts events !! S i = Some t' ->
       world !! i = Some w ->
       t' = (t + work w + interval)%Q.
Proof.
  revert clock. induction world as [|w rest IH]; intros clock.
  - simpl. split; [constructor|]. by intros i t t' w' [=].
  - destruct (IH (clock + work w + interval)%Q) as [IHs IHt].
    destruct (monitor_loop_events interval duration start_time clock w rest)
      as [E | [E | E]]; cbv zeta in *; rewrite E; clear E.
    + simpl. split; [constructor|]. by intros [|i] t t' w' ? [=].
    + simpl. split; [by repeat constructor|]. by intros [|i] t t' w' ? [=].
    + split.
      * change (Forall (fun s => s = interval)
                  (interval :: sleeps (snd (monitor_loop interval duration start_time
                                              (clock + work w + interval)%Q rest)))).
        by constructor.
      * intros i t t' w'.
        change (tick_starts (TickStart clock :: Sleep interval :: ?e))
          with (clock :: tick_starts e).
        destruct i as [|i]; simpl.
        -- intros [= <-] Ht' [= <-].
           by apply monitor_loop_first_tick in Ht'.
        -- apply IHt.
Qed.

End Pacing.

(** ** The not-applicable marker *)

Section NotApplicable.

Import Monitor Notions.

Lemma float_or_0_na v : PyStr.strip v = NA -> float_or_0 v = Some (PyInt 0).
Proof. unfold float_or_0. by intros ->. Qed.

Lemma int_or_0_na v : PyStr.strip v = NA -> int_or_0 v = Some 0.
Proof. unfold int_or_0. by intros ->. Qed.

Lemma bind_float_or_0_na (values : list string) i x :
  values !! i ≫= float_or_0 = Some x ->
  PyStr.strip <$> values !! i = Some NA -> x = PyInt 0.
Proof.
  destruct (values !! i) as [v|]; [|done]. cbn [mbind option_bind fmap option_fmap option_map].
  intros Hx [= Hv]. rewrite (float_or_0_na v Hv) in Hx. by injection Hx.
Qed.

Lemma bind_int_or_0_na (values : list string) i x :
  values !! i ≫= int_or_0 = Some x ->
  PyStr.strip <$> values !! i = Some NA -> x = 0.
Proof.
  destruct (values !! i) as [v|]; [|done]. cbn [mbind option_bind fmap option_fmap option_map].
  intros Hx [= Hv]. rewrite (int_or_0_na v Hv) in Hx. by injection Hx.
Qed.

Lemma bind_int_not_na (values : list string) i x :
  values !! i ≫= (fun v => PyStr.int (PyStr.strip v)) = Some x ->
  PyStr.strip <$> values !! i <> Some NA.
Proof.
  destruct (values !! i) as [v|]; [|done]. cbn [mbind option_bind fmap option_fmap option_map].
  intros Hx [= Hv]. rewrite Hv in Hx. by vm_compute in Hx.
Qed.

(** What a successful hardware-counter query recorded for the columns
    that held the marker. *)
Lemma gpu_info_na out info :
  get_gpu_info (Completed 0 out) = Some info ->
  (field out 5 = Some NA -> gpu_utilization info = PyInt 0)
  /\ (field out 6 = Some NA -> memory_utilization info = PyInt 0)
  /\ (field out 7 = Some NA -> temperature_c info = 0)
  /\ (field out 8 = Some NA -> power_draw_w info = PyInt 0)
  /\ (field out 9 = Some NA -> gpu_clock_mhz info = 0)
  /\ (field out 10 = Some NA -> memory_clock_mhz info = 0)
  /\ field out 2 <> Some NA /\ field out 3 <> Some NA /\ field out 4 <> Some NA.
Proof.
  unfold get_gpu_info, field. cbn [negb Z.eqb].
  generalize (PyStr.split "," (PyStr.strip out)). intros values.
  destruct (values !! 0%nat) as [v0|]; [|done].
  destruct (values !! 1%nat) as [v1|]; [|done].
  cbn [mbind option_bind].
  destruct (values !! 2%nat ≫= _) as [total|] eqn:E2; [|done].
  destruct (values !! 3%nat ≫= _) as [used|] eqn:E3; [|done].
  destruct (values !! 4%nat ≫= _) as [free|] eqn:E4; [|done].
  destruct (values !! 5%nat ≫= _) as [util|] eqn:E5; [|done].
  destruct (values !! 6%nat ≫= _) as [mutil|] eqn:E6; [|done].
  destruct (values !! 7%nat ≫= _) as [temp|] eqn:E7; [|done].
  destruct (values !! 8%nat ≫= _) as [power|] eqn:E8; [|done].
  destruct (values !! 9%nat ≫= _) as [gclk|] eqn:E9; [|done].
  destruct (values !! 10%nat ≫= _) as [mclk|] eqn:E10; [|done].
  cbn [mbind option_bind].
  destruct (total =? 0); [done|]. intros [= <-]. cbn.
  split_and!;
    eauto using bind_float_or_0_na, bind_int_or_0_na, bind_int_not_na.
Qed.

(** What the encoder query recorded for the columns that held the
    marker, whether or not the rest of the response was usable. *)
Lemma encoder_stats_na query rc out :
  query = Completed rc out ->
  let stats := get_nvenc_encoder_stats query in
  (field out 0 = Some NA -> encoder_sessions stats = 0)
  /\ (field out 1 = Some NA -> encoder_avg_fps stats = PyInt 0)
  /\ (field out 2 = Some NA -> encoder_avg_latency_ms stats = PyInt 0).
Proof.
  intros ->. unfold get_nvenc_encoder_stats, parse_encoder_stats, field.
  destruct ((rc =? 0) && negb (String.eqb (PyStr.strip out) "")); [|done].
  generalize (PyStr.split "," (PyStr.strip out)). intros values.
  destruct (values !! 0%nat ≫= _) as [n|] eqn:E0; [|done].
  destruct (values !! 1%nat ≫= _) as [fps|] eqn:E1; [|done].
  destruct (values !! 2%nat ≫= _) as [lat|] eqn:E2; [|done].
  cbn. split_and!; eauto using bind_float_or_0_na, bind_int_or_0_na.
Qed.

(** C1, as the sampler is written.  A field reported as the marker
    [[N/A]] is recorded in the Sample as the number 0, the value a
    reported zero gives too: so for utilization, memory utilization,
    temperature, power draw and the two clocks of a hardware-counter
    query that is recorded, and for the three encoder fields; an
    encoder query that fails records three zeros.  A recorded query
    has no marker in its three memory columns. *)
Theorem na_marker_recorded_as_zero clock w :
  let sample := collect_data clock w in
  (forall out info,
      gpu_query w = Completed 0 out -> gpu sample = Some info ->
      (field out 5 = Some NA -> gpu_utilization info = PyInt 0)
      /\ (field out 6 = Some NA -> memory_utilization info = PyInt 0)
      /\ (field out 7 = Some NA -> temperature_c info = 0)
      /\ (field out 8 = Some NA -> power_draw_w info = PyInt 0)
      /\ (field out 9 = Some NA -> gpu_clock_mhz info = 0)
      /\ (field out 10 = Some NA -> memory_clock_mhz info = 0)
      /\ field out 2 <> Some NA /\ field out 3 <> Some NA /\ field out 4 <> Some NA)
  /\ (forall rc out,
      encoder_query w = Completed rc out ->
      (field out 0 = Some NA -> encoder_sessions (encoder sample) = 0)
      /\ (field out 1 = Some NA -> encoder_avg_fps (encoder sample) = PyInt 0)
      /\ (field out 2 = Some NA -> encoder_avg_latency_ms (encoder sample) = PyInt 0))
  /\ (parse_encoder_stats (encoder_query w) = None -> encoder sample = no_encoder_stats)
  /\ int_or_0 " [N/A]" = int_or_0 " 0"
  /\ is_zero <$> float_or_0 " [N/A]" = is_zero <$> float_or_0 " 0.0".
Proof.
  intros sample. subst sample. unfold collect_data. cbn [gpu encoder].
  split_and!.
  - intros out info Hq Hinfo. rewrite Hq in Hinfo. by apply gpu_info_na.
  - intros rc out Hq. by apply (encoder_stats_na _ rc out).
  - unfold get_nvenc_encoder_stats. by intros ->.
  - reflexivity.
  - reflexivity.
Qed.

End NotApplicable.

(** ** The grade *)

Section Grade.

Import Analyzer Notions.

Lemma utilization_points_range v : 0 <= utilization_points v <= 25.
Proof. unfold utilization_points. repeat case_match; lia. Qed.

Lemma success_points_range v : 0 <= success_points v <= 35.
Proof. unfold success_points. repeat case_match; lia. Qed.

Lemma streams_points_range v : 0 <= streams_points v <= 25.
Proof. unfold streams_points. repeat case_match; lia. Qed.

Lemma thermal_points_range v : 0 <= thermal_points v <= 15.
Proof. unfold thermal_points. repeat case_match; lia. Qed.

(** [score] and [max_score] by section. *)
Lemma score_of_sections (r : analysis_results) :
  score_of r
  = (from_option gpu_points 0 (gpu_performance r)
     + from_option quality_points 0 (output_quality r),
     cap_if (gpu_performance r) 65 + cap_if (output_quality r) 35).
Proof.
  unfold score_of, gpu_points, quality_points.
  destruct (gpu_performance r) as [g|], (output_quality r) as [o|];
    cbn [from_option cap_if]; f_equal; lia.
Qed.

(** C2, as the grade is written.  A sub-score adds its cap to
    [max_score] exactly when the key of its section is in the results:
    the GPU section carries utilization, streams and temperature (65),
    the output-quality section the success rate (35).  Inside a section
    that is there, a family that is missing is scored from its default
    and brings 0 points of its cap.  No grade is printed exactly when
    [max_score] is 0, that is when neither key is there. *)
Theorem grade_gated_by_section_key (r : analysis_results) :
  snd (score_of r)
  = cap_if (gpu_performance r) 65 + cap_if (output_quality r) 35
  /\ fst (score_of r)
     = from_option gpu_points 0 (gpu_performance r)
       + from_option quality_points 0 (output_quality r)
  /\ 0 <= fst (score_of r) <= snd (score_of r)
  /\ (_print_performance_grade r = None
      <-> gpu_performance r = None /\ output_quality r = None)
  /\ (_print_performance_grade r = None <-> snd (score_of r) = 0)
  /\ gpu_points empty_gpu_analysis = 0.
Proof.
  pose proof (score_of_sections r) as Hs.
  assert (Hr : 0 <= fst (score_of r) <= snd (score_of r)).
  { rewrite Hs. cbn [fst snd]. unfold gpu_points, quality_points.
    destruct (gpu_performance r) as [g|], (output_quality r) as [o|];
      cbn [from_option cap_if];
      repeat match goal with
             | |- context [utilization_points ?v] =>
                 pose proof (utilization_points_range v);
                 generalize dependent (utilization_points v); intros
             | |- context [streams_points ?v] =>
                 pose proof (streams_points_range v);
                 generalize dependent (streams_points v); intros
             | |- context [thermal_points ?v] =>
                 pose proof (thermal_points_range v);
                 generalize dependent (thermal_points v); intros
             | |- context [success_points ?v] =>
                 pose proof (success_points_range v);
                 generalize dependent (success_points v); intros
             end; lia. }
  assert (Hg : _print_performance_grade r = None <-> snd (score_of r) = 0).
  { unfold _print_performance_grade. destruct (score_of r) as [sc mx].
    cbn [fst snd] in *. destruct (Z.ltb_spec 0 mx); split; try done; lia. }
  split_and!.
  - by rewrite Hs.
  - by rewrite Hs.
  - apply Hr.
  - apply Hr.
  - etrans; [exact Hg|]. rewrite Hs. cbn [snd].
    destruct (gpu_performance r), (output_quality r); cbn [cap_if];
      split; try done; try lia; by intros [? ?].
  - exact Hg.
  - reflexivity.
Qed.

End Grade.

(** ** The report and the clock *)

Section ReportClock.

Import Analyzer Notions.

Context (summarize_csv : string -> option gpu_analysis)
        (plots_succeed : string -> bool).

(** C5, as the report is written.  Two runs of the scoring engine on
    the same logs and the same output tree both fail or both write a
    report, and the two reports agree in everything but the time
    stamp, which is the reading of the clock of each run (as is the
    name of the file). *)
Theorem report_same_but_timestamp logs_dir logs output iso1 stamp1 iso2 stamp2 :
  match generate_comprehensive_report summarize_csv plots_succeed
          logs_dir logs output iso1 stamp1,
        generate_comprehensive_report summarize_csv plots_succeed
          logs_dir logs output iso2 stamp2 with
  | Some (file1, r1), Some (file2, r2) =>
      without_timestamp r1 = without_timestamp r2
      /\ test_timestamp r1 = Some iso1 /\ test_timestamp r2 = Some iso2
      /\ file1 = logs_dir +:+ "/analysis_report_" +:+ stamp1 +:+ ".json"
      /\ file2 = logs_dir +:+ "/analysis_report_" +:+ stamp2 +:+ ".json"
  | None, None => True
  | _, _ => False
  end.
Proof.
  unfold generate_comprehensive_report.
  destruct (analyze_output_quality output) as [o|]; cbn [mbind option_bind]; done.
Qed.

(** Both section keys are in every report the engine compiles, so the
    grade it prints is always out of 100. *)
Lemma report_always_graded logs_dir logs output iso stamp file r :
  generate_comprehensive_report summarize_csv plots_succeed
    logs_dir logs output iso stamp = Some (file, r) ->
  snd (score_of r) = 100 /\ is_Some (_print_performance_grade r).
Proof.
  unfold generate_comprehensive_report.
  destruct (analyze_output_quality output) as [o|]; cbn [mbind option_bind]; [|done].
  intros [= _ <-].
  assert (Hmax : forall r', gpu_performance r' <> None -> output_quality r' <> None ->
                            snd (score_of r') = 100).
  { intros r' Hg Ho. rewrite score_of_sections. cbn [snd].
    by destruct (gpu_performance r'), (output_quality r'). }
  split; [by apply Hmax|].
  unfold _print_performance_grade.
  match goal with |- context [score_of ?x] =>
    specialize (Hmax x); destruct (score_of x) as [sc mx] end.
  cbn [snd] in Hmax. rewrite Hmax by done. by eexists.
Qed.

End ReportClock.

Example strip_ex : PyStr.strip "  45.5 " = "45.5". Proof. reflexivity. Qed.
Example split_ex : PyStr.split "," "a, b,,c" = ["a"; " b"; ""; "c"]. Proof. reflexivity. Qed.
Example int_ex : PyStr.int " -042" = Some (-42). Proof. reflexivity. Qed.
Example int_na : PyStr.int "[N/A]" = None. Proof. reflexivity. Qed.
Example float_ex : PyStr.float "45.50" = Some (4550 # 100). Proof. reflexivity. Qed.
Example float_ex2 : PyStr.float "7" = Some (7 # 1). Proof. reflexivity. Qed.
Example float_ex3 : PyStr.float "." = None. Proof. reflexivity. Qed.
Example count_ex : PyStr.count " -i " "ffmpeg -i a -i b -i -i c" = 3. Proof. reflexivity. Qed.
Example ends_ex : PyStr.endswith ".ts" "seg1.ts" = true. Proof. reflexivity. Qed.
Example drop_ex : Analyzer._count_dropped_frames "frame=1 drop=3 x drop= 11 y drop=7 drop=z" = inr 11.
Proof. reflexivity. Qed.
Example speed_ex : Analyzer.findall Analyzer.match_speed "speed=1.5x speed= 2x speed=3.y speed=0.98x" = ["1.5";"2";"0.98"].
Proof. reflexivity. Qed.

(** * The claims at concrete inputs *)

Section Concrete.

Import Notions Examples.

(** C1 as the specification words it fails here: the utilization and
    temperature columns of this response hold the marker, and the
    Sample holds the number 0 for both, as it does on the response
    that reports zeros; the encoder fields likewise. *)
Lemma na_marker_is_zero_in_sample :
  field na_response 5 = Some Monitor.NA
  /\ field na_response 7 = Some Monitor.NA
  /\ Monitor.gpu_utilization <$> Monitor.gpu (Monitor.collect_data 0%Q na_tick)
     = Some (PyInt 0)
  /\ Monitor.temperature_c <$> Monitor.gpu (Monitor.collect_data 0%Q na_tick)
     = Some 0
  /\ Monitor.temperature_c <$> Monitor.get_gpu_info (Monitor.Completed 0 zero_response)
     = Some 0
  /\ is_zero <$> (Monitor.gpu_utilization
                    <$> Monitor.get_gpu_info (Monitor.Completed 0 zero_response))
     = Some true
  /\ Monitor.encoder (Monitor.collect_data 0%Q na_tick) = Monitor.no_encoder_stats
  /\ Monitor.get_gpu_info (Monitor.Completed 0 na_memory_response) = None.
Proof. by vm_compute. Qed.

(** The marker in the utilization column of a recorded response, and
    in the encoder response. *)
Lemma na_marker_recorded_as_zero_witness :
  exists info,
    Monitor.gpu (Monitor.collect_data 0%Q na_tick) = Some info
    /\ field na_response 5 = Some Monitor.NA
    /\ Monitor.gpu_utilization info = PyInt 0
    /\ Monitor.encoder_sessions (Monitor.encoder (Monitor.collect_data 0%Q na_tick)) = 0.
Proof.
  eexists. split; [vm_compute; reflexivity|]. split; [reflexivity|].
  destruct (na_marker_recorded_as_zero 0%Q na_tick) as (Hgpu & Henc & _).
  split.
  - eapply (Hgpu na_response); [reflexivity|vm_compute; reflexivity|reflexivity].
  - eapply (Henc 0 na_encoder_response); reflexivity.
Defined.

(** C2 as the specification words it fails here: with the GPU section
    there but empty (no CSV was found), no family is available, yet 65
    is added to [max_score] and a grade is printed; and a report on no
    input at all grades 0 of 100. *)
Lemma grade_counts_missing_families :
  Analyzer.score_of gpu_section_only = (0, 65)
  /\ Analyzer.grade <$> Analyzer._print_performance_grade gpu_section_only
     = Some "D (Poor)"
  /\ (Analyzer.score_of ∘ snd
        <$> Analyzer.generate_comprehensive_report no_summary no_plots
              "./logs" [] None "2025-01-15T10:30:00.000001" "20250115_103000")
     = Some (0, 100)
  /\ (Analyzer._print_performance_grade ∘ snd
        <$> Analyzer.generate_comprehensive_report no_summary no_plots
              "./logs" [] None "2025-01-15T10:30:00.000001" "20250115_103000")
     ≫= fmap Analyzer.grade
     = Some "D (Poor)".
Proof. by vm_compute. Qed.

(** No key, no grade; the GPU key alone, 65. *)
Lemma grade_gated_by_section_key_witness :
  Analyzer._print_performance_grade Analyzer.no_results = None
  /\ snd (Analyzer.score_of gpu_section_only) = 65.
Proof.
  split.
  - apply (grade_gated_by_section_key Analyzer.no_results). by split.
  - by rewrite (proj1 (grade_gated_by_section_key gpu_section_only)).
Defined.

(** Two processes listed with the higher pid first. *)
Lemma attribution_zero_one_two_witness :
  Monitor.pid (process 4100 4) < Monitor.pid (process 4177 6)
  /\ Monitor.detect_nvenc_utilization [process 4177 6; process 4100 4]
     = {| Monitor.nvenc1_estimated_load := 4;
          Monitor.nvenc2_estimated_load := 6;
          Monitor.total_concurrent_streams := 10 |}.
Proof.
  split; [reflexivity|].
  destruct attribution_zero_one_two as (_ & _ & H).
  apply (H (process 4100 4) (process 4177 6)). reflexivity.
Defined.

(** Three processes: the third counts in the total only. *)
Lemma attribution_total_is_sum_witness :
  Forall (fun p => 0 <= Monitor.input_streams p)
    [process 4300 5; process 4100 4; process 4177 6]
  /\ Monitor.total_concurrent_streams
       (Monitor.detect_nvenc_utilization [process 4300 5; process 4100 4; process 4177 6])
     = 15
  /\ Monitor.nvenc1_estimated_load
       (Monitor.detect_nvenc_utilization [process 4300 5; process 4100 4; process 4177 6])
     + Monitor.nvenc2_estimated_load
         (Monitor.detect_nvenc_utilization [process 4300 5; process 4100 4; process 4177 6])
     <= Monitor.total_concurrent_streams
          (Monitor.detect_nvenc_utilization [process 4300 5; process 4100 4; process 4177 6]).
Proof.
  assert (H : Forall (fun p => 0 <= Monitor.input_streams p)
                [process 4300 5; process 4100 4; process 4177 6]).
  { repeat constructor; discriminate. }
  split; [exact H|].
  exact (attribution_total_is_sum _ H).
Defined.

(** C5 as the specification words it fails here: the same (empty)
    logs and output, analyzed a minute apart, give two reports that
    differ. *)
Lemma report_depends_on_clock :
  snd <$> Analyzer.generate_comprehensive_report no_summary no_plots
            "./logs" [] None "2025-01-15T10:30:00.000001" "20250115_103000"
  <> snd <$> Analyzer.generate_comprehensive_report no_summary no_plots
               "./logs" [] None "2025-01-15T10:31:00.000001" "20250115_103100".
Proof. vm_compute. discriminate. Qed.

(** C6 as the specification words it fails here: with an interval of
    1, after a collection of 3/10 the loop sleeps 1 and not the
    residual 7/10, so the second tick starts at 13/10 and not at 1;
    after a collection of 2 it sleeps 1 again and not at all. *)
Lemma sleep_is_whole_interval :
  let events :=
    snd (Monitor.monitor_loop 1%Q None 0%Q 0%Q
           [quiet_tick (3 # 10) false; quiet_tick 2 false; quiet_tick (1 # 10) true]) in
  Monitor.sleeps events = [1%Q; 1%Q; 1%Q]
  /\ Spec.residual_sleep 1 (3 # 10) = (7 # 10)%Q
  /\ Spec.residual_sleep 1 2 = 0%Q
  /\ Monitor.tick_starts events = [0%Q; (13 # 10)%Q; (43 # 10)%Q]
  /\ ~ (13 # 10 == 0 + 1)%Q
  /\ ~ (43 # 10 == 13 # 10 + 2)%Q.
Proof. vm_compute. split_and!; try reflexivity; discriminate. Qed.

(** Two ticks, the first with a collection of 3/10. *)
Lemma tick_spacing_is_work_plus_interval_witness :
  let world := [quiet_tick (3 # 10) false; quiet_tick 2 true] in
  let events := snd (Monitor.monitor_loop 1%Q None 0%Q 0%Q world) in
  Monitor.tick_starts events !! 0%nat = Some 0%Q
  /\ Monitor.tick_starts events !! 1%nat = Some (13 # 10)%Q
  /\ world !! 0%nat = Some (quiet_tick (3 # 10) false)
  /\ (13 # 10)%Q = (0 + Monitor.work (quiet_tick (3 # 10) false) + 1)%Q.
Proof.
  intros world events.
  split; [reflexivity|]. split; [reflexivity|]. split; [reflexivity|].
  apply (proj2 (tick_spacing_is_work_plus_interval 1%Q None 0%Q 0%Q world) 0%nat);
    reflexivity.
Defined.

(** Three streams with a playlist and one without: 75. *)
Lemma success_rate_is_percentage_witness :
  exists q,
    Analyzer.analyze_output_quality (Some three_of_four) = Some q
    /\ Analyzer.successful_streams (Analyzer.nvenc1 q) = 3
    /\ Analyzer.failed_streams (Analyzer.nvenc1 q) = 1
    /\ rate_is_percentage (Analyzer.nvenc1 q)
    /\ (pynum_value (Analyzer.success_rate (Analyzer.nvenc1 q)) == 75)%Q
    /\ Analyzer.success_rate (Analyzer.nvenc2 q) = PyInt 0.
Proof.
  eexists. split; [vm_compute; reflexivity|].
  split; [reflexivity|]. split; [reflexivity|].
  split; [|split; reflexivity].
  eapply (success_rate_is_percentage (Some three_of_four)).
  vm_compute. reflexivity.
Defined.

(** C8 as the specification words it fails here: this log has a
    marker 3 and a marker of 4301 nines, which is the maximum of its
    markers, and the extraction raises. *)
Lemma overlong_drop_marker_raises :
  Spec.drop_marker_in overlong_log 3
  /\ Spec.drop_marker_in overlong_log (10 ^ 4301 - 1)
  /\ Analyzer._count_dropped_frames overlong_log
     = inl "Exceeds the limit (4300 digits) for integer string conversion: value has 4301 digits; use sys.set_int_max_str_digits() to increase the limit".
Proof.
  split_and!.
  - exists "3". split; [|reflexivity].
    exists "frame= 120 fps=30 ",
           ("drop=3 speed=1.0x frame= 240 drop=" +:+ nines 4301).
    split; [reflexivity|].
    exists "", (" speed=1.0x frame= 240 drop=" +:+ nines 4301).
    split_and!; [reflexivity..|discriminate|reflexivity].
  - exists (nines 4301). split; [|vm_compute; reflexivity].
    exists "frame= 120 fps=30 drop=3 speed=1.0x frame= 240 ",
           ("drop=" +:+ nines 4301).
    split; [vm_compute; reflexivity|].
    exists "", "".
    split_and!; [vm_compute; reflexivity..| |reflexivity].
    intros H. vm_compute in H. discriminate.
  - vm_compute. reflexivity.
Qed.

(** The log with markers 3, 11 and 7, none of them long, has a marker
    11. *)
Lemma dropped_frames_is_maximum_witness :
  Spec.drop_marker_in marked_log 11.
Proof.
  destruct dropped_frames_is_maximum as (H & _).
  destruct (H marked_log) as (n & Hn & _ & Hmax & _).
  { intros g Hg%drop_digits_length.
    unfold marked_log in Hg. cbn [String.length] in Hg.
    unfold PyStr.int_max_str_digits. lia. }
  assert (n = 11) as -> by (vm_compute in Hn; congruence).
  apply Hmax. exists 3, "3". split; [|reflexivity].
  exists "frame= 120 fps=30 ",
         "drop=3 speed=1.0x frame= 240 fps=30 drop=11 speed=1.0x frame= 360 drop=7".
  split; [reflexivity|].
  exists "", " speed=1.0x frame= 240 fps=30 drop=11 speed=1.0x frame= 360 drop=7".
  split_and!; [reflexivity..|discriminate|reflexivity].
Defined.



End Concrete.

(** * Further properties of the sampler *)

(** ** The answers of the driver *)

Section Queries.

Import Monitor Analyzer Spec Notions.

Lemma compute_processes_of_raises lines line :
  line ∈ lines -> compute_process_of line = None ->
  compute_processes_of lines = None.
Proof.
  induction lines as [|l lines IH]; [by intros ?%elem_of_nil|].
  intros [->|Hin]%elem_of_cons Hline; cbn [compute_processes_of].
  - by rewrite Hline.
  - rewrite (IH Hin Hline). by destruct (compute_process_of l).
Qed.

(** X1.  The list of compute applications is all or nothing: one line
    of the response with three parts or more whose pid or memory
    column holds the marker (the driver prints it for a memory it
    does not know) empties the whole list, whatever the other lines
    hold. *)
Theorem compute_list_is_all_or_nothing rc out line p0 p1 p2 rest :
  line ∈ PyStr.split "010" (PyStr.strip out) ->
  PyStr.split "," line = p0 :: p1 :: p2 :: rest ->
  PyStr.strip p0 = NA \/ PyStr.strip p2 = NA ->
  get_compute_processes (Completed rc out) = [].
Proof.
  intros Hin Hparts Hbad. unfold get_compute_processes.
  destruct (negb (rc =? 0)); [done|].
  destruct (String.eqb (PyStr.strip out) ""); [done|].
  rewrite (compute_processes_of_raises _ line Hin); [done|].
  unfold compute_process_of. rewrite Hparts.
  destruct Hbad as [-> | ->]; [done|].
  by destruct (PyStr.int (PyStr.strip p0)).
Qed.

(** *** Stripping twice *)

Lemma lstrip_head s :
  PyStr.lstrip s = "" \/ exists c t, PyStr.lstrip s = String c t /\ PyStr.is_space c = false.
Proof.
  induction s as [|c s IH]; [by left|]. cbn [PyStr.lstrip].
  destruct (PyStr.is_space c) eqn:Hc; [done|]. right. eauto.
Qed.

Lemma rstrip_cons c t :
  PyStr.is_space c = false -> PyStr.rstrip (String c t) = String c (PyStr.rstrip t).
Proof. intros Hc. cbn [PyStr.rstrip]. rewrite Hc. by destruct (PyStr.rstrip t). Qed.

Lemma rstrip_idem s : PyStr.rstrip (PyStr.rstrip s) = PyStr.rstrip s.
Proof.
  induction s as [|c s IH]; [done|]. cbn [PyStr.rstrip].
  destruct (PyStr.rstrip s) as [|a t] eqn:E.
  - destruct (PyStr.is_space c) eqn:Hc; [done|]. cbn [PyStr.rstrip]. by rewrite Hc.
  - change (PyStr.rstrip (String c (String a t))) with
      (match PyStr.rstrip (String a t) with
       | "" => if PyStr.is_space c then "" else String c ""
       | String b u => String c (String b u)
       end).
    by rewrite IH.
Qed.

Lemma strip_idem s : PyStr.strip (PyStr.strip s) = PyStr.strip s.
Proof.
  unfold PyStr.strip.
  destruct (lstrip_head s) as [->|(c & t & -> & Hc)]; [done|].
  rewrite (rstrip_cons c t Hc). cbn [PyStr.lstrip]. rewrite Hc.
  rewrite <- (rstrip_cons c t Hc). apply rstrip_idem.
Qed.

(** *** Numerals have no line break *)

Lemma contains_newline_cons c s :
  PyStr.contains (String "010" "") (String c s)
  = Ascii.eqb "010" c || PyStr.contains (String "010" "") s.
Proof. cbn [PyStr.contains PyStr.startswith]. by rewrite andb_true_r. Qed.

Lemma contains_newline_append s t :
  PyStr.contains (String "010" "") (s +:+ t)
  = PyStr.contains (String "010" "") s || PyStr.contains (String "010" "") t.
Proof.
  induction s as [|c s IH].
  - rewrite append_nil_l. by destruct t.
  - rewrite append_cons, !contains_newline_cons, IH. by rewrite orb_assoc.
Qed.

Lemma digit_not_newline c : PyStr.is_digit c = true -> Ascii.eqb "010" c = false.
Proof. by destruct c as [[] [] [] [] [] [] [] []]. Qed.

Lemma digits_no_newline s :
  all_chars PyStr.is_digit s = true -> PyStr.contains (String "010" "") s = false.
Proof.
  induction s as [|c s IH]; [done|]. cbn [all_chars].
  intros [Hc Hs]%andb_true_iff.
  by rewrite contains_newline_cons, (digit_not_newline c Hc), (IH Hs).
Qed.

Lemma digits_Some acc s v :
  PyStr.digits acc s = Some v -> all_chars PyStr.is_digit s = true.
Proof.
  revert acc. induction s as [|c s IH]; intros acc; [done|].
  cbn [PyStr.digits all_chars].
  destruct (PyStr.is_digit c); [|done]. apply IH.
Qed.

Lemma sign_spec s :
  exists sg body,
    PyStr.sign s = (sg, body)
    /\ (s = body \/ s = String "-" body \/ s = String "+" body).
Proof.
  destruct s as [|c s]; [by exists 1, ""; split; [|left]|].
  destruct c as [[] [] [] [] [] [] [] []];
    cbn [PyStr.sign]; eexists _, _; (split; [reflexivity|]); eauto.
Qed.

Lemma signed_no_newline s body :
  s = body \/ s = String "-" body \/ s = String "+" body ->
  PyStr.contains (String "010" "") body = false ->
  PyStr.contains (String "010" "") s = false.
Proof.
  intros [->|[->| ->]] H; [done|..]; by rewrite contains_newline_cons, H.
Qed.

Lemma int_no_newline s z :
  PyStr.int s = Some z -> PyStr.contains (String "010" "") (PyStr.strip s) = false.
Proof.
  unfold PyStr.int.
  destruct (sign_spec (PyStr.strip s)) as (sg & body & -> & Hs).
  destruct body as [|c b]; [done|].
  destruct (PyStr.int_max_str_digits <? PyStr.leading_digits (String c b)); [done|].
  destruct (PyStr.digits 0 (String c b)) as [v|] eqn:E; [|done]. intros _.
  apply (signed_no_newline _ _ Hs), digits_no_newline.
  by apply digits_Some in E.
Qed.

Lemma cut_spec c s :
  match PyStr.cut c s with
  | (l, None) => s = l
  | (l, Some r) => s = l +:+ String c r
  end.
Proof.
  induction s as [|a s IH]; [done|]. cbn [PyStr.cut].
  destruct (Ascii.eqb_spec a c) as [->|_]; [done|].
  destruct (PyStr.cut c s) as [l [r|]]; rewrite ?append_cons; by f_equal.
Qed.

Lemma float_no_newline s q :
  PyStr.float s = Some q -> PyStr.contains (String "010" "") (PyStr.strip s) = false.
Proof.
  unfold PyStr.float.
  destruct (sign_spec (PyStr.strip s)) as (sg & body & -> & Hs).
  pose proof (cut_spec "." body) as Hcut.
  destruct (PyStr.cut "." body) as [ip fp].
  destruct (ip ++ default "" fp)%string as [|c b] eqn:Hds; [done|].
  destruct (PyStr.digits 0 (String c b)) as [v|] eqn:E; [|done]. intros _.
  apply digits_Some in E. rewrite <- Hds in E.
  change (all_chars PyStr.is_digit (ip +:+ default "" fp) = true) in E.
  rewrite all_chars_append in E. apply andb_true_iff in E as [Hip Hfp].
  apply (signed_no_newline _ _ Hs).
  destruct fp as [r|]; subst body.
  - rewrite contains_newline_append, contains_newline_cons.
    rewrite (digits_no_newline ip Hip), (digits_no_newline r Hfp). done.
  - by apply digits_no_newline.
Qed.

(** What the three conversions of [get_gpu_info] accept. *)
Lemma int_column_no_newline v x :
  PyStr.int (PyStr.strip v) = Some x ->
  PyStr.contains (String "010" "") (PyStr.strip v) = false.
Proof. intros H%int_no_newline. by rewrite strip_idem in H. Qed.

Lemma int_or_0_no_newline v x :
  int_or_0 v = Some x -> PyStr.contains (String "010" "") (PyStr.strip v) = false.
Proof.
  unfold int_or_0. destruct (String.eqb_spec (PyStr.strip v) NA) as [->|_]; [done|].
  apply int_column_no_newline.
Qed.

Lemma float_or_0_no_newline v x :
  float_or_0 v = Some x -> PyStr.contains (String "010" "") (PyStr.strip v) = false.
Proof.
  unfold float_or_0. destruct (String.eqb_spec (PyStr.strip v) NA) as [->|_]; [done|].
  destruct (PyStr.float (PyStr.strip v)) as [q|] eqn:E; [|done]. intros _.
  apply float_no_newline in E. by rewrite strip_idem in E.
Qed.

Lemma column_no_newline {A} (conv : string -> option A) (values : list string) i x f :
  (forall v y, conv v = Some y ->
               PyStr.contains (String "010" "") (PyStr.strip v) = false) ->
  values !! i ≫= conv = Some x ->
  PyStr.strip <$> values !! i = Some f ->
  PyStr.contains (String "010" "") f = false.
Proof.
  intros Hconv. destruct (values !! i) as [v|]; [|done].
  cbn [mbind option_bind fmap option_fmap option_map].
  intros Hx [= <-]. by eapply Hconv.
Qed.

(** X2.  A hardware-counter response is recorded only if none of its
    nine numeric columns runs over a line break: the response of a
    machine with a second GPU, whose last column of the first line
    runs into the second line, is dropped as a whole. *)
Theorem gpu_response_of_one_line rc out i f :
  (2 <= i <= 10)%nat ->
  field out i = Some f ->
  PyStr.contains (String "010" "") f = true ->
  get_gpu_info (Completed rc out) = None.
Proof.
  intros Hi Hf Hnl.
  destruct (get_gpu_info (Completed rc out)) as [g|] eqn:Hg; [exfalso|done].
  revert Hg Hf. unfold get_gpu_info, field.
  destruct (negb (rc =? 0)); [done|].
  generalize (PyStr.split "," (PyStr.strip out)). intros values.
  destruct (values !! 0%nat) as [v0|]; [|done].
  destruct (values !! 1%nat) as [v1|]; [|done].
  cbn [mbind option_bind].
  destruct (values !! 2%nat ≫= _) as [total|] eqn:E2; [|done].
  destruct (values !! 3%nat ≫= _) as [used|] eqn:E3; [|done].
  destruct (values !! 4%nat ≫= _) as [free|] eqn:E4; [|done].
  destruct (values !! 5%nat ≫= _) as [util|] eqn:E5; [|done].
  destruct (values !! 6%nat ≫= _) as [mutil|] eqn:E6; [|done].
  destruct (values !! 7%nat ≫= _) as [temp|] eqn:E7; [|done].
  destruct (values !! 8%nat ≫= _) as [power|] eqn:E8; [|done].
  destruct (values !! 9%nat ≫= _) as [gclk|] eqn:E9; [|done].
  destruct (values !! 10%nat ≫= _) as [mclk|] eqn:E10; [|done].
  intros _ Hf.
  assert (PyStr.contains (String "010" "") f = false) as Hno; [|congruence].
  clear Hnl. revert Hi Hf.
  destruct i as [|[|[|[|[|[|[|[|[|[|[|i]]]]]]]]]]]; intros Hi Hf; try lia.
  - exact (column_no_newline _ _ _ _ _ int_column_no_newline E2 Hf).
  - exact (column_no_newline _ _ _ _ _ int_column_no_newline E3 Hf).
  - exact (column_no_newline _ _ _ _ _ int_column_no_newline E4 Hf).
  - exact (column_no_newline _ _ _ _ _ float_or_0_no_newline E5 Hf).
  - exact (column_no_newline _ _ _ _ _ float_or_0_no_newline E6 Hf).
  - exact (column_no_newline _ _ _ _ _ int_or_0_no_newline E7 Hf).
  - exact (column_no_newline _ _ _ _ _ float_or_0_no_newline E8 Hf).
  - exact (column_no_newline _ _ _ _ _ int_or_0_no_newline E9 Hf).
  - exact (column_no_newline _ _ _ _ _ int_or_0_no_newline E10 Hf).
Qed.

End Queries.

(** ** The process table and the order of the list *)

Section Processes.

Import Monitor Notions.

Implicit Types (p q : process_info) (l : list process_info).

Lemma substring_length n s : (String.length (String.substring 0 n s) <= n)%nat.
Proof.
  revert s. induction n as [|n IH]; intros [|c s]; simpl; try lia.
  specialize (IH s). lia.
Qed.

Lemma ffmpeg_process_info_inv now proc p :
  ffmpeg_process_info now proc = Some p ->
  gone proc = false /\ info_name proc = "ffmpeg" /\ info_cmdline proc <> []
  /\ PyStr.contains "h264_nvenc" (PyStr.join " " (info_cmdline proc)) = true
  /\ pid p = info_pid proc
  /\ input_streams p = PyStr.count " -i " (PyStr.join " " (info_cmdline proc))
  /\ (String.length (cmdline_sample p) <= 203)%nat.
Proof.
  unfold ffmpeg_process_info.
  destruct (gone proc); [done|].
  destruct (String.eqb_spec (info_name proc) "ffmpeg") as [Hn|]; [|done].
  destruct (bool_decide_reflect (info_cmdline proc = [])) as [|Hc]; [done|].
  cbn [negb andb].
  destruct (PyStr.contains "h264_nvenc" (PyStr.join " " (info_cmdline proc))) eqn:Hh;
    [|done].
  intros [= <-]. cbn [pid input_streams cmdline_sample].
  split_and!; try done.
  destruct (Nat.ltb_spec 200 (String.length (PyStr.join " " (info_cmdline proc)))).
  - rewrite append_length.
    pose proof (substring_length 200 (PyStr.join " " (info_cmdline proc))).
    simpl. lia.
  - lia.
Qed.

(** X3.  The list the sampler reports holds exactly the live processes
    of the table that are named ffmpeg and have the encoder name on
    their command line, one record each, in the order of the table;
    the command-line sample of a record has at most 203 characters. *)
Theorem ffmpeg_processes_of_table now (table : list os_process) :
  let reported := get_ffmpeg_processes now table in
  pid <$> reported
    = info_pid <$> List.filter
        (fun proc => negb (gone proc) && String.eqb (info_name proc) "ffmpeg"
                     && PyStr.contains "h264_nvenc" (PyStr.join " " (info_cmdline proc)))
        table
  /\ Forall (fun p => (String.length (cmdline_sample p) <= 203)%nat) reported.
Proof.
  unfold get_ffmpeg_processes.
  induction table as [|proc table [IH1 IH2]]; [by split|].
  cbn [omap list_omap List.filter].
  destruct (ffmpeg_process_info now proc) as [p|] eqn:E.
  - destruct (ffmpeg_process_info_inv _ _ _ E) as (Hg & Hn & _ & Hh & Hp & _ & Hs).
    rewrite Hg, Hn, Hh, String.eqb_refl.
    cbn [negb andb fmap list_fmap]. split; [|by constructor].
    f_equal; [done|]. exact IH1.
  - assert (negb (gone proc) && String.eqb (info_name proc) "ffmpeg"
            && PyStr.contains "h264_nvenc" (PyStr.join " " (info_cmdline proc))
            = false) as ->; [|by split].
    unfold ffmpeg_process_info in E.
    destruct (gone proc); [done|]. cbn [negb andb].
    destruct (String.eqb (info_name proc) "ffmpeg"); [|done].
    destruct (bool_decide_reflect (info_cmdline proc = [])) as [->|Hc]; [done|].
    cbn [negb andb] in *.
    by destruct (PyStr.contains "h264_nvenc" (PyStr.join " " (info_cmdline proc))).
Qed.

Lemma pid_unique l p q :
  NoDup (pid <$> l) -> p ∈ l -> q ∈ l -> pid p = pid q -> p = q.
Proof.
  induction l as [|a l IH]; [by intros _ ?%elem_of_nil|].
  rewrite fmap_cons, NoDup_cons. intros [Ha Hl].
  intros [->|Hp]%elem_of_cons [->|Hq]%elem_of_cons Hpq; try done.
  - destruct Ha. rewrite Hpq. by apply list_elem_of_fmap_2.
  - destruct Ha. rewrite <- Hpq. by apply list_elem_of_fmap_2.
  - by apply IH.
Qed.

(** Two ascending lists with the same members, no two of which share a
    pid, are the same list. *)
Lemma ascending_unique l l' :
  StronglySorted pid_le l -> StronglySorted pid_le l' ->
  l ≡ₚ l' -> NoDup (pid <$> l) -> l = l'.
Proof.
  intros Hl. revert l'.
  induction Hl as [|a l Hl IH Ha]; intros l' Hl' Hperm Hnd.
  - by apply Permutation_nil_l in Hperm.
  - destruct Hl' as [|b l' Hl' Hb].
    { by apply Permutation_nil_r in Hperm. }
    assert (a = b) as <-.
    { assert (Hain : a ∈ b :: l') by (rewrite <- Hperm; apply elem_of_cons; by left).
      assert (Hbin : b ∈ a :: l) by (rewrite Hperm; apply elem_of_cons; by left).
      apply (pid_unique (a :: l)); [done|apply elem_of_cons; by left|done|].
      apply elem_of_cons in Hain as [->|Hain]; [done|].
      apply elem_of_cons in Hbin as [->|Hbin]; [done|].
      rewrite Forall_forall in Ha, Hb.
      pose proof (Ha b Hbin) as H1.
      pose proof (Hb a Hain) as H2.
      unfold pid_le in *. lia. }
    f_equal. apply IH; [done|by apply Permutation_cons_inv in Hperm|].
    rewrite fmap_cons in Hnd. by apply NoDup_cons in Hnd as [_ ?].
Qed.

(** X4.  When no two processes share a pid, the attribution does not
    depend on the order in which the process table lists them. *)
Theorem attribution_order_independent l l' :
  l ≡ₚ l' -> NoDup (pid <$> l) ->
  detect_nvenc_utilization l = detect_nvenc_utilization l'.
Proof.
  intros Hperm Hnd.
  assert (Hs : sorted l = sorted l').
  { apply ascending_unique; try apply sorted_ascending.
    - by rewrite !sorted_perm.
    - by rewrite sorted_perm. }
  unfold detect_nvenc_utilization.
  destruct l as [|p r], l' as [|p' r']; try done.
  - by apply Permutation_nil_l in Hperm.
  - by apply Permutation_nil_r in Hperm.
  - by rewrite Hs.
Qed.

End Processes.

(** ** The keys of a Sample *)

Section SampleKeys.

Import Monitor Monitor.Dict Notions.

Implicit Types (w : tick_world) (host : option host_readings)
               (data : gmap string value).

(** A dictionary written as a literal is read like an association
    list. *)
Lemma lookup_literal (l : list (string * value)) (k : string) :
  (list_to_map l : gmap string value) !! k
  = snd <$> List.find (fun e => String.eqb (fst e) k) l.
Proof.
  induction l as [|[k' v] l IH]; [done|].
  cbn [list_to_map foldr List.find fst snd].
  destruct (String.eqb_spec k' k) as [->|Hne].
  - by rewrite lookup_insert_eq.
  - by rewrite lookup_insert_ne.
Qed.

Lemma gpu_info_total out rc g :
  get_gpu_info (Completed rc out) = Some g ->
  memory_total_mb g <> 0
  /\ memory_percent g
     = (inject_Z (memory_used_mb g) / inject_Z (memory_total_mb g) * 100)%Q.
Proof.
  unfold get_gpu_info.
  destruct (negb (rc =? 0)); [done|].
  generalize (PyStr.split "," (PyStr.strip out)). intros values.
  destruct (values !! 0%nat) as [v0|]; [|done].
  destruct (values !! 1%nat) as [v1|]; [|done].
  cbn [mbind option_bind].
  destruct (values !! 2%nat ≫= _) as [total|]; [|done].
  destruct (values !! 3%nat ≫= _) as [used|]; [|done].
  destruct (values !! 4%nat ≫= _) as [free|]; [|done].
  destruct (values !! 5%nat ≫= _) as [util|]; [|done].
  destruct (values !! 6%nat ≫= _) as [mutil|]; [|done].
  destruct (values !! 7%nat ≫= _) as [temp|]; [|done].
  destruct (values !! 8%nat ≫= _) as [power|]; [|done].
  destruct (values !! 9%nat ≫= _) as [gclk|]; [|done].
  destruct (values !! 10%nat ≫= _) as [mclk|]; [|done].
  cbn [mbind option_bind].
  destruct (Z.eqb_spec total 0); [done|].
  by intros [= <-].
Qed.

Lemma gpu_info_total_nonzero query g :
  get_gpu_info query = Some g ->
  memory_total_mb g <> 0
  /\ memory_percent g
     = (inject_Z (memory_used_mb g) / inject_Z (memory_total_mb g) * 100)%Q.
Proof. destruct query as [|rc out]; [done|]. apply gpu_info_total. Qed.

Lemma insert_literal k v (l : list (string * value)) :
  <[k:=v]> (list_to_map l : gmap string value) = list_to_map ((k, v) :: l).
Proof. reflexivity. Qed.

Lemma union_literal (l1 l2 : list (string * value)) :
  (list_to_map l1 : gmap string value) ∪ list_to_map l2 = list_to_map (l1 ++ l2).
Proof. symmetry. apply list_to_map_app. Qed.

Lemma empty_literal : (∅ : gmap string value) = list_to_map [].
Proof. reflexivity. Qed.

(** A Sample is the literal of its items. *)
Lemma collect_data_literal iso clock w cq host :
  collect_data iso clock w cq host
  = list_to_map
      (Keys.sample_items iso clock (get_gpu_info (gpu_query w))
         (get_nvenc_encoder_stats (encoder_query w)) (get_compute_processes cq)
         (get_ffmpeg_processes clock (process_table w)) host
         (get_hls_output_stats (output_tree w))).
Proof.
  unfold collect_data, Keys.sample_items, update, gpu_info_dict, encoder_dict,
    attribution_dict, hls_dict, get_system_info.
  generalize (get_hls_output_stats (output_tree w)),
    (detect_nvenc_utilization (get_ffmpeg_processes clock (process_table w))),
    (get_nvenc_encoder_stats (encoder_query w)), (get_compute_processes cq),
    (get_ffmpeg_processes clock (process_table w)).
  intros hls att enc compute ffmpeg.
  destruct (get_gpu_info (gpu_query w)) as [g|], host as [h|];
    cbn [from_option]; rewrite ?empty_literal;
    repeat first [rewrite insert_literal | rewrite union_literal];
    rewrite ?app_nil_r; try reflexivity.
Qed.

Lemma sample_overwritten iso clock w cq host :
  let data := collect_data iso clock w cq host in
  data !! "timestamp"
    = Some (VStr (from_option timestamp iso (get_gpu_info (gpu_query w))))
  /\ data !! "memory_percent"
     = match host, get_gpu_info (gpu_query w) with
       | Some h, _ => Some (VNum (PyFloat (host_memory_percent h)))
       | None, Some g => Some (VNum (PyFloat (memory_percent g)))
       | None, None => None
       end.
Proof. sample_cases collect_data_literal w host; split; dict_lookup lookup_literal; done. Qed.

Lemma sample_gpu_keys iso clock w cq host :
  let data := collect_data iso clock w cq host in
  let gpu := get_gpu_info (gpu_query w) in
  data !! "gpu_name" = VStr ∘ gpu_name <$> gpu
  /\ data !! "memory_total_mb" = VNum ∘ PyInt ∘ memory_total_mb <$> gpu
  /\ data !! "memory_used_mb" = VNum ∘ PyInt ∘ memory_used_mb <$> gpu
  /\ data !! "memory_free_mb" = VNum ∘ PyInt ∘ memory_free_mb <$> gpu
  /\ data !! "gpu_utilization_%" = VNum ∘ gpu_utilization <$> gpu
  /\ data !! "memory_utilization_%" = VNum ∘ memory_utilization <$> gpu
  /\ data !! "temperature_c" = VNum ∘ PyInt ∘ temperature_c <$> gpu
  /\ data !! "power_draw_w" = VNum ∘ power_draw_w <$> gpu
  /\ data !! "gpu_clock_mhz" = VNum ∘ PyInt ∘ gpu_clock_mhz <$> gpu
  /\ data !! "memory_clock_mhz" = VNum ∘ PyInt ∘ memory_clock_mhz <$> gpu.
Proof. sample_cases collect_data_literal w host; split_and!; dict_lookup lookup_literal; done. Qed.

Lemma sample_process_keys iso clock w cq host :
  let data := collect_data iso clock w cq host in
  let ffmpeg := get_ffmpeg_processes clock (process_table w) in
  let attribution := detect_nvenc_utilization ffmpeg in
  data !! "unix_timestamp" = Some (VNum (PyFloat clock))
  /\ data !! "compute_processes" = Some (VCompute (get_compute_processes cq))
  /\ data !! "ffmpeg_processes" = Some (VProcs ffmpeg)
  /\ data !! "total_ffmpeg_processes" = Some (VNum (PyInt (Z.of_nat (length ffmpeg))))
  /\ data !! "total_compute_processes"
     = Some (VNum (PyInt (Z.of_nat (length (get_compute_processes cq)))))
  /\ data !! "nvenc1_estimated_load"
     = Some (VNum (PyInt (nvenc1_estimated_load attribution)))
  /\ data !! "nvenc2_estimated_load"
     = Some (VNum (PyInt (nvenc2_estimated_load attribution)))
  /\ data !! "total_concurrent_streams"
     = Some (VNum (PyInt (total_concurrent_streams attribution))).
Proof. sample_cases collect_data_literal w host; split_and!; dict_lookup lookup_literal; done. Qed.

Lemma sample_encoder_hls_keys iso clock w cq host :
  let data := collect_data iso clock w cq host in
  let enc := get_nvenc_encoder_stats (encoder_query w) in
  let hls := get_hls_output_stats (output_tree w) in
  data !! "encoder_sessions" = Some (VNum (PyInt (encoder_sessions enc)))
  /\ data !! "encoder_avg_fps" = Some (VNum (encoder_avg_fps enc))
  /\ data !! "encoder_avg_latency_ms" = Some (VNum (encoder_avg_latency_ms enc))
  /\ data !! "total_playlists" = Some (VNum (PyInt (total_playlists hls)))
  /\ data !! "total_segments" = Some (VNum (PyInt (total_segments hls)))
  /\ data !! "total_size_mb" = Some (VNum (total_size_mb hls))
  /\ data !! "avg_segments_per_playlist" = VNum <$> avg_segments_per_playlist hls.
Proof.
  sample_cases collect_data_literal w host; split_and!; dict_lookup lookup_literal; done.
Qed.

(** X5.  [collect_data] builds the Sample by successive updates, and
    two keys are set twice: the time stamp of a Sample is the one the
    driver printed whenever the hardware-counter query answered (the
    ISO time of the tick only otherwise), and its [memory_percent] is
    the memory use of the host whenever the host snapshot succeeded,
    the share of GPU memory only otherwise.  The other ten keys of the
    GPU answer hold what [get_gpu_info] returned. *)
Theorem sample_keeps_later_value iso clock w cq host :
  let data := collect_data iso clock w cq host in
  let gpu := get_gpu_info (gpu_query w) in
  data !! "timestamp" = Some (VStr (from_option timestamp iso gpu))
  /\ data !! "memory_percent"
     = match host, gpu with
       | Some h, _ => Some (VNum (PyFloat (host_memory_percent h)))
       | None, Some g => Some (VNum (PyFloat (memory_percent g)))
       | None, None => None
       end
  /\ data !! "gpu_name" = VStr ∘ gpu_name <$> gpu
  /\ data !! "memory_total_mb" = VNum ∘ PyInt ∘ memory_total_mb <$> gpu
  /\ data !! "memory_used_mb" = VNum ∘ PyInt ∘ memory_used_mb <$> gpu
  /\ data !! "memory_free_mb" = VNum ∘ PyInt ∘ memory_free_mb <$> gpu
  /\ data !! "gpu_utilization_%" = VNum ∘ gpu_utilization <$> gpu
  /\ data !! "memory_utilization_%" = VNum ∘ memory_utilization <$> gpu
  /\ data !! "temperature_c" = VNum ∘ PyInt ∘ temperature_c <$> gpu
  /\ data !! "power_draw_w" = VNum ∘ power_draw_w <$> gpu
  /\ data !! "gpu_clock_mhz" = VNum ∘ PyInt ∘ gpu_clock_mhz <$> gpu
  /\ data !! "memory_clock_mhz" = VNum ∘ PyInt ∘ memory_clock_mhz <$> gpu.
Proof.
  intros data gpu.
  destruct (sample_overwritten iso clock w cq host) as [H1 H2].
  split; [exact H1|]. split; [exact H2|]. apply sample_gpu_keys.
Qed.

(** X6.  The keys the attribution, the encoder query, the process
    scan and the output scan set are set once: under each of them the
    Sample holds the field of the same name of the record
    [Monitor.collect_data] builds, so the record is a faithful view of
    the dictionary. *)
Theorem sample_record_is_view iso clock w cq host :
  let data := collect_data iso clock w cq host in
  let point := Monitor.collect_data clock w in
  data !! "unix_timestamp" = Some (VNum (PyFloat (unix_timestamp point)))
  /\ data !! "ffmpeg_processes" = Some (VProcs (ffmpeg_processes point))
  /\ data !! "total_ffmpeg_processes"
     = Some (VNum (PyInt (total_ffmpeg_processes point)))
  /\ data !! "nvenc1_estimated_load"
     = Some (VNum (PyInt (nvenc1_estimated_load (nvenc_util point))))
  /\ data !! "nvenc2_estimated_load"
     = Some (VNum (PyInt (nvenc2_estimated_load (nvenc_util point))))
  /\ data !! "total_concurrent_streams"
     = Some (VNum (PyInt (total_concurrent_streams (nvenc_util point))))
  /\ data !! "encoder_sessions"
     = Some (VNum (PyInt (encoder_sessions (encoder point))))
  /\ data !! "encoder_avg_fps" = Some (VNum (encoder_avg_fps (encoder point)))
  /\ data !! "encoder_avg_latency_ms"
     = Some (VNum (encoder_avg_latency_ms (encoder point)))
  /\ data !! "total_playlists" = Some (VNum (PyInt (total_playlists (hls point))))
  /\ data !! "total_segments" = Some (VNum (PyInt (total_segments (hls point))))
  /\ data !! "total_size_mb" = Some (VNum (total_size_mb (hls point)))
  /\ data !! "avg_segments_per_playlist"
     = VNum <$> avg_segments_per_playlist (hls point).
Proof.
  intros data point.
  destruct (sample_process_keys iso clock w cq host)
    as (H1 & _ & H3 & H4 & _ & H6 & H7 & H8).
  destruct (sample_encoder_hls_keys iso clock w cq host)
    as (H9 & H10 & H11 & H12 & H13 & H14 & H15).
  by split_and!.
Qed.

(** X7.  The status line is printed for every Sample the sampler
    collects: no value is missing or of the wrong kind, and the
    division by the memory total never fails (the total is 1 when
    there is no GPU answer, and an answer with total 0 is dropped by
    [get_gpu_info]).  The line shows the first 19 characters of the
    Sample's time stamp and the share of GPU memory in use. *)
Theorem status_line_is_printed iso clock w cq host :
  let point := Monitor.collect_data clock w in
  exists line,
    print_realtime_status (collect_data iso clock w cq host) = Some line
    /\ shown_time line = String.substring 0 19 (from_option timestamp iso (gpu point))
    /\ shown_streams line = total_concurrent_streams (nvenc_util point)
    /\ shown_nvenc1 line = nvenc1_estimated_load (nvenc_util point)
    /\ shown_nvenc2 line = nvenc2_estimated_load (nvenc_util point)
    /\ shown_mem_used line = from_option memory_used_mb 0 (gpu point)
    /\ shown_mem_percent line = from_option memory_percent 0%Q (gpu point)
    /\ shown_temp line = from_option temperature_c 0 (gpu point)
    /\ shown_proc line = VNum (PyInt (total_ffmpeg_processes point)).
Proof.
  intros point. unfold print_realtime_status, get_num, get_int.
  destruct (sample_overwritten iso clock w cq host) as [-> _].
  destruct (sample_gpu_keys iso clock w cq host)
    as (_ & -> & -> & _ & -> & _ & -> & -> & _ & _).
  destruct (sample_process_keys iso clock w cq host)
    as (_ & _ & _ & -> & _ & -> & -> & ->).
  subst point. cbn [Monitor.collect_data gpu nvenc_util total_ffmpeg_processes].
  destruct (get_gpu_info (gpu_query w)) as [g|] eqn:Hg;
    cbn [fmap option_fmap option_map compose mbind option_bind from_option].
  - destruct (gpu_info_total_nonzero _ _ Hg) as [Hne Hpct].
    assert (is_zero (PyInt (memory_total_mb g)) = false) as ->.
    { unfold is_zero. cbn [pynum_value]. apply not_true_iff_false.
      intros H%Qeq_bool_iff. apply Hne.
      unfold Qeq in H. simpl in H. lia. }
    eexists. split; [reflexivity|]. cbn. by rewrite Hpct.
  - eexists. split; [reflexivity|]. by cbn.
Qed.

End SampleKeys.

(** ** The analysis of a run *)

Section Summaries.

Import Monitor Monitor.Dict Notions.

Implicit Types (x y a b : pynum) (l r : list pynum).









End Summaries.

Section Analysis.

Import Monitor Monitor.Dict Notions Keys.

Implicit Types (t final : tick_input) (ts : list tick_input).












End Analysis.

(** ** The CSV table and the files of a run *)

Section CsvTable.

Import Monitor Monitor.Dict Notions Keys.

Implicit Types (t first : tick_input) (ts rest : list tick_input)
               (m : gmap string value).

Lemma dom_flat_point m : dom (flat_point m) = flat_keys (is_list <$> m).
Proof.
  unfold flat_point, flat_keys. rewrite !dom_insert_L.
  assert (dom (filter (fun kv : string * value => is_list (snd kv) = false) m)
          = dom (filter (fun kb : string * bool => snd kb = false) (is_list <$> m)))
    as ->.
  { apply set_eq. intros k. rewrite !elem_of_dom. unfold is_Some.
    setoid_rewrite map_lookup_filter_Some. setoid_rewrite lookup_fmap.
    split.
    - intros (v & Hv & Hl). exists (is_list v). by rewrite Hv.
    - intros (b & Hb & Hl). destruct (m !! k) as [v|]; [|done].
      injection Hb as <-. by exists v. }
  reflexivity.
Qed.

Lemma shape_le_keys (a b : shape) :
  shape_valid a = true -> shape_valid b = true ->
  bool_decide (flat_keys (list_to_map (shape_items a))
               ⊆ flat_keys (list_to_map (shape_items b)))
  = shape_le a b.
Proof.
  destruct a as [[] [] [] []], b as [[] [] [] []]; intros Ha Hb;
    try discriminate Ha; try discriminate Hb; by vm_compute.
Qed.

Lemma shape_of_valid t : shape_valid (shape_of t) = true.
Proof.
  unfold shape_valid, shape_of. cbn [load_is_tuple host_answered].
  destruct (host t) as [h|]; cbn [mbind option_bind];
    [destruct (host_loadavg h)|]; reflexivity.
Qed.

Lemma shape_le_refl (a : shape) : shape_le a a = true.
Proof. by destruct a as [[] [] [] []]. Qed.

(** Which values of a Sample are lists depends on its shape only. *)
Lemma kinds_of_sample t :
  is_list <$> sample_of t = list_to_map (shape_items (shape_of t)).
Proof.
  unfold sample_of. rewrite collect_data_literal, <- list_to_map_fmap. f_equal.
  unfold sample_items, shape_of, shape_items, hls_items, system_items,
    attribution_items, encoder_items, gpu_info_items.
  destruct (get_gpu_info (gpu_query (world t))) as [g|];
    destruct (host t) as [h|];
    destruct (avg_segments_per_playlist (get_hls_output_stats (output_tree (world t))))
      as [x|];
    cbn [mbind option_bind from_option];
    try (destruct (host_loadavg h) as [[[a b] c]|], (host_cpu_count h) as [n|]);
    reflexivity.
Qed.

Lemma row_accepted_shape first t :
  row_accepted (sample_of first) (sample_of t) = shape_le (shape_of t) (shape_of first).
Proof.
  unfold row_accepted. rewrite !dom_flat_point, !kinds_of_sample.
  apply shape_le_keys; apply shape_of_valid.
Qed.

(** The first Sample is always taken. *)
Lemma first_row_accepted first : row_accepted (sample_of first) (sample_of first) = true.
Proof. by rewrite row_accepted_shape, shape_le_refl. Qed.

(** X11.  The CSV writer takes the columns of the table from the first
    Sample and raises on a later Sample that has a key the first one
    lacks.  The keys of a Sample depend only on which sources answered
    at its tick, so the table is written in full exactly when every
    source that answered at a later tick (the hardware counters, the
    host snapshot with its load average, an output directory that
    exists) had already answered at the first. *)
Theorem csv_rows_accepted first rest :
  rows_accepted (sample_of <$> first :: rest)
  = forallb (fun t => shape_le (shape_of t) (shape_of first)) rest.
Proof.
  rewrite fmap_cons. cbn [rows_accepted forallb].
  rewrite first_row_accepted. cbn [andb].
  induction rest as [|t rest IH]; [done|].
  rewrite fmap_cons. cbn [forallb]. by rewrite row_accepted_shape, IH.
Qed.

Section Files.

Variable csv_text : list (gmap string value) -> string.
Variable json_text : list (gmap string value) -> string.
Variable analysis_text : analysis -> string.


End Files.

End CsvTable.

(** ** The Samples of a run *)

Section Loop.

Import Monitor.

Implicit Types (interval start_time clock : Q) (duration : option Z)
               (world : list tick_world).

(** One turn of the loop, by cases. *)
Lemma monitor_loop_step interval duration start_time clock w rest :
  monitor_loop interval duration start_time clock (w :: rest)
  = if duration_reached duration start_time (clock + work w)
    then ([collect_data clock w], [TickStart clock])
    else if Qle_bool 0 interval
    then if stop_signal w
         then ([collect_data clock w], [TickStart clock; Sleep interval])
         else (collect_data clock w
                 :: fst (monitor_loop interval duration start_time
                           (clock + work w + interval) rest),
               TickStart clock :: Sleep interval
                 :: snd (monitor_loop interval duration start_time
                           (clock + work w + interval) rest))
    else ([collect_data clock w], [TickStart clock]).
Proof.
  cbn [monitor_loop].
  destruct (duration_reached _ _ _); [done|].
  destruct (Qle_bool 0 interval); [|done].
  destruct (stop_signal w); [done|].
  by destruct (monitor_loop _ _ _ _ rest).
Qed.

(** X13.  The loop collects one Sample per tick it starts, from the
    answers of that tick and stamped with the time at which the tick
    started; it collects at least one Sample whenever it runs at all,
    also when the duration is over before the first tick ends. *)
Theorem samples_are_the_ticks interval duration start_time clock world :
  let run := monitor_loop interval duration start_time clock world in
  unix_timestamp <$> fst run = tick_starts (snd run)
  /\ (length (fst run) <= length world)%nat
  /\ (world <> [] -> fst run <> [])
  /\ forall i p, fst run !! i = Some p ->
       exists w, world !! i = Some w /\ p = collect_data (unix_timestamp p) w.
Proof.
  cbv zeta. revert clock. induction world as [|w rest IH]; intros clock.
  - cbn. split_and!; [done|lia|done|]. by intros i p [=].
  - rewrite monitor_loop_step.
    destruct (IH (clock + work w + interval)%Q) as (IH1 & IH2 & _ & IH4).
    destruct (duration_reached _ _ _); [|destruct (Qle_bool 0 interval);
      [destruct (stop_signal w)|]]; cbn [fst snd fmap list_fmap length].
    1,2,4: split_and!; [done|lia|done|];
      intros [|i] p; [|by intros [=]]; intros [= <-]; by exists w.
    split_and!.
    + change (tick_starts (TickStart clock :: Sleep interval :: ?e))
        with (clock :: tick_starts e).
      by rewrite <- IH1.
    + lia.
    + done.
    + intros [|i] p; cbn [lookup list_lookup].
      * intros [= <-]. by exists w.
      * apply IH4.
Qed.


(** X15.  With a duration that is not 0, a further Sample is collected
    only if the collection of the Sample before it ended less than the
    duration after the start: the limit is tested once per tick, after
    the collection. *)
Theorem duration_tested_after_collection interval d start_time clock world i p w :
  d <> 0 ->
  fst (monitor_loop interval (Some d) start_time clock world) !! i = Some p ->
  world !! i = Some w ->
  is_Some (fst (monitor_loop interval (Some d) start_time clock world) !! S i) ->
  (unix_timestamp p + work w - start_time < inject_Z d)%Q.
Proof.
  intros Hd. revert clock i. induction world as [|v rest IH]; intros clock i.
  - by intros [=].
  - rewrite monitor_loop_step.
    destruct (duration_reached (Some d) start_time (clock + work v)) eqn:Hr.
    { intros _ _ [q Hq]. by destruct i. }
    destruct (Qle_bool 0 interval); [|intros _ _ [q Hq]; by destruct i].
    destruct (stop_signal v); [intros _ _ [q Hq]; by destruct i|].
    cbn [fst]. destruct i as [|i]; cbn [lookup list_lookup].
    + intros [= <-] [= <-] _. cbn [collect_data unix_timestamp].
      unfold duration_reached in Hr.
      destruct (Z.eqb_spec d 0) as [|_]; [done|]. cbn [negb andb] in Hr.
      apply Qnot_le_lt. intros H%Qle_bool_iff. congruence.
    + apply IH.
Qed.

(** X16.  An interval below 0 ends the run after its first Sample:
    the sleep raises on it, and the loop has no handler for that. *)
Theorem negative_interval_one_sample interval duration start_time clock w rest :
  Qle_bool 0 interval = false ->
  fst (monitor_loop interval duration start_time clock (w :: rest))
    = [collect_data clock w]
  /\ sleeps (snd (monitor_loop interval duration start_time clock (w :: rest))) = [].
Proof.
  intros Hi. rewrite monitor_loop_step, Hi.
  by destruct (duration_reached _ _ _).
Qed.

End Loop.

(** * Further properties of the results analyzer *)

(** ** The log files selected *)

Section LogFiles.

Import Analyzer Spec Notions.

Implicit Types (f g best : string * log_file) (logs l : list (string * log_file)).

(** [max] with the modification time as key returns a member, and none
    is newer. *)
Lemma newest_spec best l :
  newest best l ∈ best :: l
  /\ forall g, g ∈ best :: l ->
       (st_mtime (snd g) <= st_mtime (snd (newest best l)))%Q.
Proof.
  revert best. induction l as [|x l IH]; intros best; cbn [newest].
  - split; [apply elem_of_cons; by left|].
    intros g ->%list_elem_of_singleton. apply Qle_refl.
  - destruct (Qle_bool (st_mtime (snd x)) (st_mtime (snd best))) eqn:E.
    + destruct (IH best) as [Hin Hge]. split.
      * apply elem_of_cons in Hin as [->|Hin]; [apply elem_of_cons; by left|].
        apply elem_of_cons; right. apply elem_of_cons; by right.
      * intros g Hg. apply elem_of_cons in Hg as [->|Hg].
        { apply Hge, elem_of_cons. by left. }
        apply elem_of_cons in Hg as [->|Hg].
        { apply Qle_bool_iff in E. eapply Qle_trans; [exact E|].
          apply Hge, elem_of_cons. by left. }
        apply Hge, elem_of_cons. by right.
    + destruct (IH x) as [Hin Hge]. split.
      * apply elem_of_cons; right. done.
      * intros g Hg. apply elem_of_cons in Hg as [->|Hg].
        { eapply Qle_trans; [|apply Hge, elem_of_cons; by left].
          apply Qlt_le_weak, Qnot_le_lt. intros H%Qle_bool_iff. congruence. }
        apply Hge. done.
Qed.

Lemma newest_of_filter (p : string -> bool) logs :
  match newest_of (List.filter (fun e => p (fst e)) logs) with
  | Some f =>
      f ∈ logs /\ p (fst f) = true
      /\ forall g, g ∈ logs -> p (fst g) = true ->
           (st_mtime (snd g) <= st_mtime (snd f))%Q
  | None => forall g, g ∈ logs -> p (fst g) = false
  end.
Proof.
  assert (Hf : forall g, g ∈ List.filter (fun e => p (fst e)) logs
                         <-> g ∈ logs /\ p (fst g) = true).
  { intros g. rewrite !list_elem_of_In. apply filter_In. }
  destruct (List.filter (fun e => p (fst e)) logs) as [|x l]; cbn [newest_of].
  - intros g Hg. destruct (p (fst g)) eqn:E; [|done].
    pose proof (proj2 (Hf g) (conj Hg E)) as Hnil. by apply elem_of_nil in Hnil.
  - destruct (newest_spec x l) as [Hin Hge].
    apply Hf in Hin as [Hin Hp]. split_and!; [done..|].
    intros g Hg Hpg. apply Hge, Hf. done.
Qed.

(** X17.  Of the files of the logs directory whose name matches a
    pattern, [find_log_files] selects one that no other is newer than,
    and selects none only when no name matches; this holds for the
    pattern of the monitor's own CSV and for the wider one. *)
Theorem newest_log_is_selected logs :
  match found_concurrent_monitoring (find_log_files logs) with
  | Some f =>
      f ∈ logs /\ matches_concurrent_monitor_csv (fst f) = true
      /\ forall g, g ∈ logs -> matches_concurrent_monitor_csv (fst g) = true ->
           (st_mtime (snd g) <= st_mtime (snd f))%Q
  | None => forall g, g ∈ logs -> matches_concurrent_monitor_csv (fst g) = false
  end
  /\ match found_gpu_monitoring (find_log_files logs) with
     | Some f =>
         f ∈ logs /\ matches_monitor_csv (fst f) = true
         /\ forall g, g ∈ logs -> matches_monitor_csv (fst g) = true ->
              (st_mtime (snd g) <= st_mtime (snd f))%Q
     | None => forall g, g ∈ logs -> matches_monitor_csv (fst g) = false
     end.
Proof.
  split.
  - apply (newest_of_filter matches_concurrent_monitor_csv).
  - apply (newest_of_filter matches_monitor_csv).
Qed.

Lemma substring_append u r k :
  String.substring 0 (String.length u + k) (u +:+ r) = u +:+ String.substring 0 k r.
Proof.
  induction u as [|c u IH]; [by rewrite append_nil_l|].
  rewrite !append_cons. cbn [String.length Nat.add String.substring]. by rewrite IH.
Qed.

(** A name the narrow pattern matches is matched by the wide one. *)
Lemma concurrent_name_is_monitor_name name :
  matches_concurrent_monitor_csv name = true -> matches_monitor_csv name = true.
Proof.
  unfold matches_concurrent_monitor_csv, matches_monitor_csv.
  intros [[Hs He]%andb_true_iff Hl]%andb_true_iff.
  rewrite He. cbn [andb].
  apply startswith_spec in Hs as [r ->]. apply Nat.leb_le in Hl.
  rewrite append_length in *. cbn [String.length] in *.
  replace (18 + String.length r - 4)%nat
    with (String.length "concurrent_monitor" + (String.length r - 4))%nat
    by (cbn [String.length]; lia).
  rewrite substring_append.
  generalize (String.substring 0 (String.length r - 4) r). intros x.
  rewrite !append_cons, append_nil_l. reflexivity.
Qed.

(** X18.  Whenever a CSV of the monitor is found, the wider pattern
    finds a file too, and one that is at least as new: the entry
    [gpu_monitoring] of the report is never empty next to a
    [concurrent_monitoring] entry. *)
Theorem monitor_log_found_with_concurrent logs f :
  found_concurrent_monitoring (find_log_files logs) = Some f ->
  exists g,
    found_gpu_monitoring (find_log_files logs) = Some g
    /\ (st_mtime (snd f) <= st_mtime (snd g))%Q.
Proof.
  intros Hf.
  pose proof (newest_of_filter matches_concurrent_monitor_csv logs) as Hc.
  pose proof (newest_of_filter matches_monitor_csv logs) as Hm.
  cbn [find_log_files found_concurrent_monitoring found_gpu_monitoring] in *.
  rewrite Hf in Hc. destruct Hc as (Hin & Hp & _).
  apply concurrent_name_is_monitor_name in Hp.
  destruct (newest_of (List.filter (fun e => matches_monitor_csv (fst e)) logs))
    as [g|].
  - exists g. split; [done|]. destruct Hm as (_ & _ & Hge). by apply Hge.
  - rewrite (Hm f Hin) in Hp. done.
Qed.

End LogFiles.

(** ** The encoder logs *)

Section EncoderLogs.

Import Analyzer Spec Notions.

Implicit Types (x y : Q) (r l : list Q).

Lemma Qmax_ge x y : (x <= Qmax x y /\ y <= Qmax x y)%Q.
Proof.
  unfold Qmax. destruct (Qle_bool x y) eqn:E.
  - apply Qle_bool_iff in E. split; [done|apply Qle_refl].
  - split; [apply Qle_refl|].
    apply Qlt_le_weak, Qnot_le_lt. intros H%Qle_bool_iff. congruence.
Qed.

Lemma Qmin_le x y : (Qmin x y <= x /\ Qmin x y <= y)%Q.
Proof.
  unfold Qmin. destruct (Qle_bool x y) eqn:E.
  - apply Qle_bool_iff in E. split; [apply Qle_refl|done].
  - split; [|apply Qle_refl].
    apply Qlt_le_weak, Qnot_le_lt. intros H%Qle_bool_iff. congruence.
Qed.

Lemma Qmax_cases x y : Qmax x y = x \/ Qmax x y = y.
Proof. unfold Qmax. destruct (Qle_bool x y); auto. Qed.

Lemma Qmin_cases x y : Qmin x y = x \/ Qmin x y = y.
Proof. unfold Qmin. destruct (Qle_bool x y); auto. Qed.

Lemma foldl_Qmax_spec x r :
  foldl Qmax x r ∈ x :: r
  /\ forall y, y ∈ x :: r -> (y <= foldl Qmax x r)%Q.
Proof.
  revert x. induction r as [|a r IH]; intros x; cbn [foldl].
  - split; [apply elem_of_cons; by left|].
    intros y ->%list_elem_of_singleton. apply Qle_refl.
  - destruct (IH (Qmax x a)) as [Hin Hge]. split.
    + apply elem_of_cons in Hin as [Hin|Hin].
      * rewrite Hin. destruct (Qmax_cases x a) as [-> | ->].
        -- apply elem_of_cons; by left.
        -- apply elem_of_cons; right. apply elem_of_cons; by left.
      * apply elem_of_cons; right. apply elem_of_cons; by right.
    + intros y Hy. destruct (Qmax_ge x a) as [Hx Ha].
      assert (Hm : (Qmax x a <= foldl Qmax (Qmax x a) r)%Q).
      { apply Hge, elem_of_cons. by left. }
      apply elem_of_cons in Hy as [->|Hy]; [by eapply Qle_trans|].
      apply elem_of_cons in Hy as [->|Hy]; [by eapply Qle_trans|].
      apply Hge, elem_of_cons. by right.
Qed.

Lemma foldl_Qmin_spec x r :
  foldl Qmin x r ∈ x :: r
  /\ forall y, y ∈ x :: r -> (foldl Qmin x r <= y)%Q.
Proof.
  revert x. induction r as [|a r IH]; intros x; cbn [foldl].
  - split; [apply elem_of_cons; by left|].
    intros y ->%list_elem_of_singleton. apply Qle_refl.
  - destruct (IH (Qmin x a)) as [Hin Hge]. split.
    + apply elem_of_cons in Hin as [Hin|Hin].
      * rewrite Hin. destruct (Qmin_cases x a) as [-> | ->].
        -- apply elem_of_cons; by left.
        -- apply elem_of_cons; right. apply elem_of_cons; by left.
      * apply elem_of_cons; right. apply elem_of_cons; by right.
    + intros y Hy. destruct (Qmin_le x a) as [Hx Ha].
      assert (Hm : (foldl Qmin (Qmin x a) r <= Qmin x a)%Q).
      { apply Hge, elem_of_cons. by left. }
      apply elem_of_cons in Hy as [->|Hy]; [by eapply Qle_trans|].
      apply elem_of_cons in Hy as [->|Hy]; [by eapply Qle_trans|].
      apply Hge, elem_of_cons. by right.
Qed.

Lemma convert_all_float (gs : list string) (r : list Q) :
  convert_all float_of gs = inr r ->
  Forall2 (fun g v => PyStr.float g = Some v) gs r.
Proof.
  revert r. induction gs as [|g gs IH]; intros r; cbn [convert_all].
  - intros [= <-]. constructor.
  - unfold float_of at 1. destruct (PyStr.float g) as [q|] eqn:E; [|done].
    destruct (convert_all float_of gs) as [e|vs]; [done|].
    intros [= <-]. constructor; [done|]. by apply IH.
Qed.

(** X19.  A log without a speed marker has the three speeds 0.  In any
    other log that is analyzed every marker carries a number, the
    largest and the least speed are the numbers of two of the markers,
    and the number of every marker lies between them. *)
Theorem speed_extremes_are_markers log s :
  _extract_encoding_speed log = inr s ->
  match findall match_speed log with
  | [] => s = {| avg_speed := PyInt 0; max_speed := PyInt 0; min_speed := PyInt 0 |}
  | groups =>
      exists speeds,
        Forall2 (fun g v => PyStr.float g = Some v) groups speeds
        /\ (exists v, v ∈ speeds /\ max_speed s = PyFloat v)
        /\ (exists v, v ∈ speeds /\ min_speed s = PyFloat v)
        /\ forall v, v ∈ speeds ->
             (pynum_value (min_speed s) <= v /\ v <= pynum_value (max_speed s))%Q
  end.
Proof.
  unfold _extract_encoding_speed.
  destruct (findall match_speed log) as [|g gs]; [by intros [= <-]|].
  unfold float_of at 1. destruct (PyStr.float g) as [x|] eqn:Hx; [|done].
  destruct (convert_all float_of gs) as [e|r] eqn:Hr; [done|].
  intros [= <-]. cbn [min_speed avg_speed max_speed pynum_value].
  destruct (foldl_Qmax_spec x r) as [Hmax_in Hmax].
  destruct (foldl_Qmin_spec x r) as [Hmin_in Hmin].
  exists (x :: r). split_and!.
  - constructor; [done|]. by apply convert_all_float.
  - by exists (foldl Qmax x r).
  - by exists (foldl Qmin x r).
  - intros v Hv. split; [by apply Hmin|by apply Hmax].
Qed.

Lemma convert_all_float_raises (gs : list string) :
  (exists e, convert_all float_of gs = inl e)
  <-> exists g, g ∈ gs /\ PyStr.float g = None.
Proof.
  induction gs as [|g gs IH]; cbn [convert_all].
  - split; [by intros [e [=]]|]. by intros (g & Hg%elem_of_nil & _).
  - unfold float_of at 1. destruct (PyStr.float g) as [q|] eqn:E.
    + destruct (convert_all float_of gs) as [e|r].
      * split; [|eauto]. intros _.
        destruct (proj1 IH) as (g' & Hg' & Hn); [eauto|].
        exists g'. split; [apply elem_of_cons; by right|done].
      * split; [by intros [e [=]]|].
        intros (g' & Hg' & Hn). apply elem_of_cons in Hg' as [->|Hg']; [congruence|].
        destruct (proj2 IH) as [e [=]]. eauto.
    + split; [|eauto]. intros _. exists g. split; [apply elem_of_cons; by left|done].
Qed.

(** X20.  For an encoder log that can be read (and with the numeric
    library at hand), the analysis of the log is replaced by an error
    entry exactly when one of its speed markers carries a group that
    is not a number (two points, or a point alone), or one of its drop
    markers has more than 4300 digits: the error and warning counts
    and the size of that log are then not reported. *)
Theorem log_error_is_a_bad_marker (f : log_file) :
  (exists e, analyze_log (Some f) = LogError e)
  <-> (exists g, g ∈ findall match_speed (content f) /\ PyStr.float g = None)
      \/ (exists g, drop_digits_in (content f) g
                    /\ PyStr.int_max_str_digits < Z.of_nat (String.length g)).
Proof.
  rewrite <- count_dropped_frames_raises.
  assert (Hspeed : (exists e, _extract_encoding_speed (content f) = inl e)
                   <-> exists g, g ∈ findall match_speed (content f)
                                 /\ PyStr.float g = None).
  { unfold _extract_encoding_speed.
    destruct (findall match_speed (content f)) as [|g gs].
    { split; [by intros [e [=]]|]. by intros (g & Hg%elem_of_nil & _). }
    rewrite <- (convert_all_float_raises (g :: gs)). cbn [convert_all].
    destruct (float_of g) as [e|x]; [split; eauto|].
    destruct (convert_all float_of gs) as [e|r]; [split; eauto|].
    split; by intros [e [=]]. }
  rewrite <- Hspeed. unfold analyze_log.
  destruct (_extract_encoding_speed (content f)) as [e|speed].
  - split; eauto.
  - destruct (_count_dropped_frames (content f)) as [e|n].
    + split; eauto.
    + split; [by intros [e [=]]|]. by intros [[e [=]]|[e [=]]].
Qed.

End EncoderLogs.

(** ** Output quality and the grade *)

Section Quality.

Import Analyzer Notions Streams.

Lemma visit_stream_counts acc e c :
  visit_stream acc e = Some c ->
  successful c = successful acc + (if delivered e then 1 else 0)
  /\ failed c = failed acc + (if undelivered e then 1 else 0).
Proof.
  unfold visit_stream, delivered, undelivered, is_stream, has_playlist.
  destruct e as [name stream_dir]. cbn [fst snd].
  destruct stream_dir as [sz|sz es|]; cbn [Tree.is_dir mbind option_bind andb];
    [intros [= <-]; lia| |done].
  destruct (PyStr.startswith "stream" name); cbn [andb]; [|intros [= <-]; lia].
  destruct (Tree.child "playlist.m3u8" (Dir sz es)) as [pl|];
    cbn [mbind option_bind]; [|intros [= <-]; cbn; lia].
  destruct (Tree.size pl) as [s|]; cbn [mbind option_bind]; [|done].
  destruct (0 <? s).
  - destruct (Tree.files_size _); cbn [mbind option_bind]; [|done].
    intros [= <-]. cbn. lia.
  - intros [= <-]. cbn. lia.
Qed.

Lemma visit_streams_counts entries acc c :
  visit_streams acc entries = Some c ->
  successful c = successful acc + Z.of_nat (length (List.filter delivered entries))
  /\ failed c = failed acc + Z.of_nat (length (List.filter undelivered entries)).
Proof.
  revert acc. induction entries as [|e entries IH]; intros acc.
  - intros [= <-]. cbn. lia.
  - cbn [visit_streams].
    destruct (visit_stream acc e) as [acc'|] eqn:E; cbn [mbind option_bind]; [|done].
    intros H. destruct (IH _ H) as [H1 H2].
    destruct (visit_stream_counts _ _ _ E) as [E1 E2].
    cbn [List.filter].
    destruct (delivered e), (undelivered e); cbn [length]; lia.
Qed.

(** X21.  The two counters of an engine are counts of the entries of
    its directory: the stream directories (directories whose name
    begins with [stream]) with a playlist that is not empty, and the
    stream directories without one; an entry that is a file, or a
    directory of another name, is in neither. *)
Theorem streams_are_counted root name sz entries c :
  Tree.child name root = Some (Dir sz entries) ->
  scan_engine (Some root) name = Some c ->
  successful c = Z.of_nat (length (List.filter delivered entries))
  /\ failed c = Z.of_nat (length (List.filter undelivered entries)).
Proof.
  intros Hchild. unfold scan_engine.
  destruct root as [s|s es|]; [done| |done].
  rewrite Hchild. intros H%visit_streams_counts. exact H.
Qed.

Lemma rate_range (c : engine_counts) :
  counted c ->
  (0 <= pynum_value (success_rate (with_success_rate c))
   /\ pynum_value (success_rate (with_success_rate c)) <= 100)%Q.
Proof.
  intros [Hs Hf]. unfold with_success_rate. cbn [success_rate].
  destruct (Z.ltb_spec 0 (successful c + failed c)) as [Hpos|_];
    cbn [pynum_value]; [|split; [apply Qle_refl|done]].
  assert (H0 : (0 < inject_Z (successful c + failed c))%Q).
  { change 0%Q with (inject_Z 0). by rewrite <- Zlt_Qlt. }
  assert (H1 : (0 <= inject_Z (successful c))%Q).
  { change 0%Q with (inject_Z 0). by rewrite <- Zle_Qle. }
  assert (H2 : (inject_Z (successful c) <= inject_Z (successful c + failed c))%Q).
  { rewrite <- Zle_Qle. lia. }
  assert (H3 : (0 <= inject_Z (successful c) / inject_Z (successful c + failed c))%Q).
  { apply Qle_shift_div_l; [done|]. lra. }
  assert (H4 : (inject_Z (successful c) / inject_Z (successful c + failed c) <= 1)%Q).
  { apply Qle_shift_div_r; [done|]. lra. }
  split; lra.
Qed.

(** X22.  The success rate of each engine lies between 0 and 100, and
    so does the mean of the two rates that the grade is computed
    from. *)
Theorem success_rates_in_range output q :
  analyze_output_quality output = Some q ->
  (0 <= pynum_value (success_rate (nvenc1 q))
   /\ pynum_value (success_rate (nvenc1 q)) <= 100
   /\ 0 <= pynum_value (success_rate (nvenc2 q))
   /\ pynum_value (success_rate (nvenc2 q)) <= 100
   /\ 0 <= (pynum_value (success_rate (nvenc1 q))
            + pynum_value (success_rate (nvenc2 q))) / 2
   /\ (pynum_value (success_rate (nvenc1 q))
       + pynum_value (success_rate (nvenc2 q))) / 2 <= 100)%Q.
Proof.
  unfold analyze_output_quality.
  destruct (scan_engine output "nvenc1") as [c1|] eqn:E1; cbn [mbind option_bind]; [|done].
  destruct (scan_engine output "nvenc2") as [c2|] eqn:E2; cbn [mbind option_bind]; [|done].
  intros [= <-]. cbn [nvenc1 nvenc2].
  destruct (rate_range c1 (scan_engine_counted _ _ _ E1)) as [H1 H2].
  destruct (rate_range c2 (scan_engine_counted _ _ _ E2)) as [H3 H4].
  split_and!; try done.
  - apply Qle_shift_div_l; [done|]. lra.
  - apply Qle_shift_div_r; [done|]. lra.
Qed.

(** X23.  The points of the grade follow the measurement: a higher GPU
    utilization, success rate or stream count never brings fewer
    points, and a higher temperature never brings more. *)
Theorem points_follow_the_measure (a b : Q) :
  (a <= b)%Q ->
  utilization_points a <= utilization_points b
  /\ success_points a <= success_points b
  /\ streams_points a <= streams_points b
  /\ thermal_points b <= thermal_points a.
Proof.
  intros Hab.
  unfold utilization_points, success_points, streams_points, thermal_points, Qge_bool.
  split_and!; order_cases.
Qed.

End Quality.

(** ** A report without the monitor's CSV *)

Section ReportWithoutCsv.

Import Analyzer Notions.

Context (summarize_csv : string -> option gpu_analysis)
        (plots_succeed : string -> bool).

Lemma newest_of_none (p : string -> bool) (logs : list (string * log_file)) :
  (forall e, e ∈ logs -> p (fst e) = false) ->
  newest_of (List.filter (fun e => p (fst e)) logs) = None.
Proof.
  intros H. induction logs as [|e logs IH]; [done|]. cbn [List.filter].
  rewrite (H e) by (apply elem_of_cons; by left).
  apply IH. intros e' He'. apply H, elem_of_cons. by right.
Qed.

(** The grade on a GPU section without data. *)
Lemma grade_without_gpu_data (r : analysis_results) o :
  gpu_performance r = Some empty_gpu_analysis ->
  output_quality r = Some o ->
  exists g,
    _print_performance_grade r = Some g
    /\ grade g = "D (Poor)" /\ max_score g = 100 /\ 0 <= score g <= 35.
Proof.
  intros Hg Ho. unfold _print_performance_grade.
  rewrite score_of_sections, Hg, Ho.
  cbn [from_option cap_if]. unfold quality_points.
  generalize ((pynum_value (success_rate (nvenc1 o))
               + pynum_value (success_rate (nvenc2 o))) / 2)%Q.
  intros v. change (gpu_points empty_gpu_analysis) with 0.
  change (0 <? 65 + 35) with true. cbv beta iota.
  unfold success_points.
  repeat case_match; eexists; (split; [reflexivity|]); by vm_compute.
Qed.

(** X24.  A report compiled from a logs directory without a CSV of the
    monitor has an empty GPU section and no plot, whatever other
    monitoring CSV is there, and its grade is always the lowest: the
    GPU families bring no points out of their 65, and the success
    rate at most 35 out of 100. *)
Theorem report_without_csv_grades_poor logs_dir logs output iso stamp file r :
  generate_comprehensive_report summarize_csv plots_succeed
    logs_dir logs output iso stamp = Some (file, r) ->
  (forall e, e ∈ logs -> matches_concurrent_monitor_csv (fst e) = false) ->
  gpu_performance r = Some empty_gpu_analysis
  /\ plots_generated r = Some None
  /\ exists g,
       _print_performance_grade r = Some g
       /\ grade g = "D (Poor)" /\ max_score g = 100 /\ 0 <= score g <= 35.
Proof.
  unfold generate_comprehensive_report. intros Hr Hno.
  destruct (analyze_output_quality output) as [o|]; cbn [mbind option_bind] in Hr;
    [|done].
  injection Hr as _ <-.
  cbn [find_log_files found_concurrent_monitoring].
  rewrite (newest_of_none matches_concurrent_monitor_csv logs Hno).
  cbn [analyze_gpu_performance generate_performance_plots gpu_performance
       plots_generated].
  split_and!; [done..|].
  by eapply grade_without_gpu_data.
Qed.

End ReportWithoutCsv.

(** * The further properties at concrete inputs *)

Section FurtherConcrete.

Import Notions Examples Cases.

(** The second application has the marker for its memory. *)
Lemma compute_list_is_all_or_nothing_witness :
  PyStr.split "010" (PyStr.strip compute_response)
    = ["4100, ffmpeg, 512"; "5678, python, [N/A]"]
  /\ PyStr.strip " [N/A]" = Monitor.NA
  /\ Monitor.get_compute_processes (Monitor.Completed 0 compute_response) = [].
Proof.
  assert (Hlines : PyStr.split "010" (PyStr.strip compute_response)
                   = ["4100, ffmpeg, 512"; "5678, python, [N/A]"])
    by (vm_compute; reflexivity).
  split; [exact Hlines|]. split; [vm_compute; reflexivity|].
  apply (compute_list_is_all_or_nothing 0 compute_response
           "5678, python, [N/A]" "5678" " python" " [N/A]" []).
  - rewrite Hlines. apply elem_of_cons. right. apply elem_of_cons. by left.
  - vm_compute. reflexivity.
  - right. vm_compute. reflexivity.
Defined.

(** The last column of the first line runs into the second line. *)
Lemma gpu_response_of_one_line_witness :
  field two_gpu_response 10
    = Some ("10501" +:+ String "010" "2025/01/15 10:30:01.125")
  /\ is_Some (Monitor.get_gpu_info (Monitor.Completed 0 busy_response))
  /\ Monitor.get_gpu_info (Monitor.Completed 0 two_gpu_response) = None.
Proof.
  split; [vm_compute; reflexivity|]. split; [vm_compute; eauto|].
  apply (gpu_response_of_one_line 0 two_gpu_response 10
           ("10501" +:+ String "010" "2025/01/15 10:30:01.125"));
    [lia|vm_compute; reflexivity|vm_compute; reflexivity].
Defined.

(** Two processes in both orders. *)
Lemma attribution_order_independent_witness :
  Monitor.detect_nvenc_utilization [process 4177 6; process 4100 4]
  = Monitor.detect_nvenc_utilization [process 4100 4; process 4177 6].
Proof.
  apply attribution_order_independent.
  - apply perm_swap.
  - apply NoDup_cons. split; [|apply NoDup_singleton].
    intros H%list_elem_of_singleton. discriminate H.
Defined.





(** A duration of 5: the second Sample is there, and the first
    collection had ended 3/10 after the start. *)
Lemma duration_tested_after_collection_witness :
  is_Some (fst (Monitor.monitor_loop 1%Q (Some 5) 0%Q 0%Q
                  [quiet_tick (3 # 10) false; quiet_tick 2 true]) !! 1%nat)
  /\ (0 + (3 # 10) - 0 < inject_Z 5)%Q.
Proof.
  split; [vm_compute; eauto|].
  apply (duration_tested_after_collection 1%Q 5 0%Q 0%Q
           [quiet_tick (3 # 10) false; quiet_tick 2 true] 0
           (Monitor.collect_data 0%Q (quiet_tick (3 # 10) false))
           (quiet_tick (3 # 10) false));
    [lia|vm_compute; reflexivity|vm_compute; reflexivity|vm_compute; eauto].
Defined.

(** The newest CSV of the monitor is selected, and the wide pattern
    selects the CSV of the other monitor, which is newer. *)
Lemma monitor_log_found_with_concurrent_witness :
  fst <$> Analyzer.found_concurrent_monitoring (Analyzer.find_log_files three_csv_files)
    = Some "concurrent_monitor_20250115_113000.csv"
  /\ exists g,
       Analyzer.found_gpu_monitoring (Analyzer.find_log_files three_csv_files) = Some g
       /\ (200 <= Analyzer.st_mtime (snd g))%Q.
Proof.
  split; [vm_compute; reflexivity|].
  apply (monitor_log_found_with_concurrent three_csv_files
           ("concurrent_monitor_20250115_113000.csv", log_of 200)).
  vm_compute. reflexivity.
Defined.

(** The log with two speed markers. *)
Lemma speed_extremes_are_markers_witness :
  exists s,
    Analyzer._extract_encoding_speed marked_log = inr s
    /\ exists speeds,
         Forall2 (fun g v => PyStr.float g = Some v) ["1.0"; "1.0"] speeds
         /\ exists v, v ∈ speeds /\ Analyzer.max_speed s = PyFloat v.
Proof.
  destruct (Analyzer._extract_encoding_speed marked_log) as [e|s] eqn:E;
    [by vm_compute in E|].
  exists s. split; [reflexivity|].
  pose proof (speed_extremes_are_markers marked_log s E) as H.
  assert (Hg : Analyzer.findall Analyzer.match_speed marked_log = ["1.0"; "1.0"])
    by (vm_compute; reflexivity).
  rewrite Hg in H. destruct H as (speeds & H1 & H2 & _).
  exists speeds. split; [exact H1|exact H2].
Defined.

(** Three stream directories with a playlist, one with an empty one,
    and a file. *)
Lemma streams_are_counted_witness :
  exists c,
    Analyzer.scan_engine (Some three_of_four) "nvenc1" = Some c
    /\ Analyzer.successful c = 3 /\ Analyzer.failed c = 1.
Proof.
  destruct (Analyzer.scan_engine (Some three_of_four) "nvenc1") as [c|] eqn:E;
    [|by vm_compute in E].
  exists c. split; [reflexivity|].
  destruct (streams_are_counted three_of_four "nvenc1" 4096
              [("stream1", stream 120); ("stream2", stream 120);
               ("stream3", stream 120); ("stream4", stream 0);
               ("README", File 10)] c) as [H1 H2];
    [vm_compute; reflexivity|exact E|].
  rewrite H1, H2. split; vm_compute; reflexivity.
Defined.

Lemma success_rates_in_range_witness :
  exists q,
    Analyzer.analyze_output_quality (Some three_of_four) = Some q
    /\ (pynum_value (Analyzer.success_rate (Analyzer.nvenc1 q)) <= 100)%Q.
Proof.
  destruct (Analyzer.analyze_output_quality (Some three_of_four)) as [q|] eqn:E;
    [|by vm_compute in E].
  exists q. split; [reflexivity|].
  by apply (success_rates_in_range (Some three_of_four) q).
Defined.

(** From 50 to 85 per cent, and from 50 to 85 degrees. *)
Lemma points_follow_the_measure_witness :
  Analyzer.utilization_points 50 <= Analyzer.utilization_points 85
  /\ Analyzer.thermal_points 85 <= Analyzer.thermal_points 50.
Proof.
  destruct (points_follow_the_measure 50 85) as (H1 & _ & _ & H4).
  - vm_compute. discriminate.
  - by split.
Defined.

(** An interval of -1. *)
Lemma negative_interval_one_sample_witness :
  length (fst (Monitor.monitor_loop (-1)%Q None 0%Q 0%Q
                 [quiet_tick (3 # 10) false; quiet_tick 2 false])) = 1%nat.
Proof.
  rewrite (proj1 (negative_interval_one_sample (-1)%Q None 0%Q 0%Q
                    (quiet_tick (3 # 10) false) [quiet_tick 2 false]
                    ltac:(vm_compute; reflexivity))).
  reflexivity.
Defined.

(** The logs directory holds the CSV of another monitor only, and
    every stream of both engines was delivered. *)
Lemma report_without_csv_grades_poor_witness :
  exists file r g,
    Analyzer.generate_comprehensive_report no_summary no_plots
      "./logs" [("gpu_monitor.csv", log_of 300)] (Some all_delivered)
      "2025-01-15T10:30:00.000001" "20250115_103000" = Some (file, r)
    /\ Analyzer._print_performance_grade r = Some g
    /\ Analyzer.grade g = "D (Poor)"
    /\ Analyzer.score g = 35.
Proof.
  destruct (Analyzer.generate_comprehensive_report no_summary no_plots
              "./logs" [("gpu_monitor.csv", log_of 300)] (Some all_delivered)
              "2025-01-15T10:30:00.000001" "20250115_103000")
    as [[file r]|] eqn:E; [|by vm_compute in E].
  destruct (report_without_csv_grades_poor no_summary no_plots _ _ _ _ _ file r E)
    as (_ & _ & g & Hg & Hgrade & _).
  { intros e ->%list_elem_of_singleton. vm_compute. reflexivity. }
  exists file, r, g. split; [reflexivity|]. split; [exact Hg|]. split; [exact Hgrade|].
  vm_compute in E. injection E as _ <-.
  vm_compute in Hg. injection Hg as <-. reflexivity.
Defined.

(** A run started before the driver answers is not saved in full, and
    one started after it is. *)
Example csv_of_a_late_start :
  Monitor.Dict.rows_accepted (Monitor.Dict.sample_of <$> [early_tick; busy_tick]) = false
  /\ Monitor.Dict.rows_accepted (Monitor.Dict.sample_of <$> [busy_tick; early_tick]) = true
  /\ length (Monitor.Dict.rows_written
               (Monitor.Dict.sample_of <$> [early_tick; busy_tick])) = 1%nat.
Proof. split_and!; vm_compute; reflexivity. Qed.

(** The entry of a log with a speed of two points, and of one with a
    drop marker of 4301 digits. *)
Example error_entries_of_two_logs :
  Analyzer.analyze_log
    (Some {| Analyzer.content := "frame= 120 speed=1.2.3x drop=4";
             Analyzer.log_bytes := 30; Analyzer.st_mtime := 100 |})
  = Analyzer.LogError "Failed to read log: could not convert string to float: '1.2.3'"
  /\ Analyzer.analyze_log
       (Some {| Analyzer.content := overlong_log;
                Analyzer.log_bytes := 4353; Analyzer.st_mtime := 100 |})
     = Analyzer.LogError "Failed to read log: Exceeds the limit (4300 digits) for integer string conversion: value has 4301 digits; use sys.set_int_max_str_digits() to increase the limit".
Proof. split; vm_compute; reflexivity. Qed.

End FurtherConcrete.
